(** * DNest4 model builder (code/Templates/Builder/builder.py)

    A shallow embedding of the code generator: the distribution classes,
    [Node], and [Model] with its composition passes and grouping queries,
    followed by the properties established about them.

    Python [str] values are modelled by [string]; a character stands for a
    code point below 256.  Python [int] values are modelled by [Z]. *)

From Stdlib Require Import ZArith Ascii String.
From stdpp Require Import base tactics option list strings pretty gmap.

Local Open Scope Z_scope.

(** ** Python string primitives used by the builder *)

Module Py.

(** The line feed and the double quote, which the source writes as
    escapes inside its literals. *)
Definition nl : string := String "010"%char EmptyString.
Definition dq : string := String "034"%char EmptyString.

(** [s.startswith(p)] *)
Fixpoint startswith (p s : string) : bool :=
  match p, s with
  | EmptyString, _ => true
  | String a p', String b s' => if Ascii.eqb a b then startswith p' s' else false
  | String _ _, EmptyString => false
  end.

(** Scan of [str.replace] for a non-empty pattern: left to right, each
    occurrence found is replaced and the scan resumes after it ([skip]
    counts the characters of a matched occurrence still to be dropped). *)
Fixpoint replace_from (old new : string) (skip : nat) (s : string) : string :=
  match s with
  | EmptyString => EmptyString
  | String c s' =>
      match skip with
      | S k => replace_from old new k s'
      | O =>
          if startswith old s
          then new +:+ replace_from old new (String.length old - 1) s'
          else String c (replace_from old new 0 s')
      end
  end.

Fixpoint intersperse (new s : string) : string :=
  match s with
  | EmptyString => EmptyString
  | String c s' => String c (new +:+ intersperse new s')
  end.

(** [s.replace(old, new)]; with an empty [old] Python inserts [new]
    before every character and at the end. *)
Definition replace (s old new : string) : string :=
  match old with
  | EmptyString => new +:+ intersperse new s
  | String _ _ => replace_from old new 0 s
  end.

Definition is_cr (c : ascii) : bool := Ascii.eqb c "013".
Definition is_lf (c : ascii) : bool := Ascii.eqb c "010".

(** Line boundaries of [str.splitlines] among the code points below 256:
    LF, VT, FF, CR, FS, GS, RS and NEL. *)
Definition is_linebreak (c : ascii) : bool :=
  let n := nat_of_ascii c in
  (Nat.eqb n 10 || Nat.eqb n 11 || Nat.eqb n 12 || Nat.eqb n 13
   || Nat.eqb n 28 || Nat.eqb n 29 || Nat.eqb n 30 || Nat.eqb n 133)%bool.

(** [s.splitlines()]: the lines without their terminators; CR LF counts
    as one boundary and a final terminator opens no further line. *)
Fixpoint splitlines (s : string) : list string :=
  match s with
  | EmptyString => []
  | String c s' =>
      if is_cr c then
        EmptyString ::
          match s' with
          | String c' s'' => if is_lf c' then splitlines s'' else splitlines s'
          | EmptyString => []
          end
      else if is_linebreak c then EmptyString :: splitlines s'
      else
        match splitlines s' with
        | [] => [String c EmptyString]
        | l :: ls => String c l :: ls
        end
  end.

(** [sep.join(l)] *)
Fixpoint join (sep : string) (l : list string) : string :=
  match l with
  | [] => EmptyString
  | [x] => x
  | x :: l' => x +:+ sep +:+ join sep l'
  end.

(** Scan of [s.split(sep)] for a non-empty separator. *)
Fixpoint split_from (sep : string) (skip : nat) (s : string) : list string :=
  match s with
  | EmptyString => [EmptyString]
  | String c s' =>
      match skip with
      | S k => split_from sep k s'
      | O =>
          if startswith sep s
          then EmptyString :: split_from sep (String.length sep - 1) s'
          else
            match split_from sep 0 s' with
            | [] => [String c EmptyString]
            | l :: ls => String c l :: ls
            end
      end
  end.

(** [s[0:-n]] for [n > 0]: all but the last [n] characters, and the empty
    string when [s] has fewer than [n]. *)
Definition drop_last (n : nat) (s : string) : string :=
  String.substring 0 (String.length s - n) s.

(** [str(i)] for an [int]. *)
Definition str_int (i : Z) : string := pretty i.

(** [c in s] for a single character. *)
Fixpoint has_char (c : ascii) (s : string) : bool :=
  match s with
  | EmptyString => false
  | String a s' => Ascii.eqb a c || has_char c s'
  end.

(** [needle in s] *)
Fixpoint contains (needle s : string) : bool :=
  match s with
  | EmptyString => startswith needle EmptyString
  | String _ s' => startswith needle s || contains needle s'
  end.

End Py.

(** Values handed to the distribution constructors: numbers or pieces of
    target-language text (the name of another node, a formula).  A float is
    kept as the text [str()] prints for it. *)
Inductive pyval : Type :=
  | PyInt (i : Z)
  | PyFloat (repr : string)
  | PyStr (s : string).

(** [str(v)] *)
Definition str (v : pyval) : string :=
  match v with
  | PyInt i => Py.str_int i
  | PyFloat r => r
  | PyStr s => s
  end.

(** ** Exceptions *)

Inductive pyerr : Type :=
  | AttributeError
  | AssertionError
  | KeyError
  | IndexError.

Inductive result (A : Type) : Type :=
  | Ok (a : A)
  | Raise (e : pyerr).
Arguments Ok {A} a.
Arguments Raise {A} e.

Definition rbind {A B} (r : result A) (f : A -> result B) : result B :=
  match r with
  | Ok a => f a
  | Raise e => Raise e
  end.

Definition rmap {A B} (f : A -> B) (r : result A) : result B :=
  rbind r (fun a => Ok (f a)).

(** All the results of [f] over [l], or the first exception. *)
Fixpoint rmapM {A B} (f : A -> result B) (l : list A) : result (list B) :=
  match l with
  | [] => Ok []
  | x :: l' => rbind (f x) (fun y => rmap (cons y) (rmapM f l'))
  end.

(** ** Distributions *)

Module Uniform.
Record t : Type := Build { a : pyval; b : pyval }.

Definition insert_parameters (self : t) (s : string) : string :=
  let s := Py.replace s "{a}" (str (a self)) in
  let s := Py.replace s "{b}" (str (b self)) in
  s.

Definition from_prior (self : t) : string :=
  let s := "{x} = {a} + ({b} - ({a}))*rng.rand();" +:+ Py.nl in
  insert_parameters self s.

Definition perturb (self : t) : string :=
  let s := "{x} += ({b} - ({a}))*rng.randh();" +:+ Py.nl in
  let s := s +:+ "wrap({x}, {a}, {b});" +:+ Py.nl in
  insert_parameters self s.

Definition log_density (self : t) : string :=
  let s := "if({x} < ({a}) || {x} > ({b}))" +:+ Py.nl in
  let s := s +:+ "    logp = -numeric_limits<double>::max();" +:+ Py.nl in
  let s := s +:+ "logp += -log({b} - ({a}));" +:+ Py.nl in
  insert_parameters self s.
End Uniform.

Module LogUniform.
Record t : Type := Build { a : pyval; b : pyval }.

Definition insert_parameters (self : t) (s : string) : string :=
  let s := Py.replace s "{a}" (str (a self)) in
  let s := Py.replace s "{b}" (str (b self)) in
  s.

Definition from_prior (self : t) : string :=
  let s := "{x} = exp(log({a}) + log(({b})/({a}))*rng.rand());" +:+ Py.nl in
  insert_parameters self s.

Definition perturb (self : t) : string :=
  let s := "{x} = log({x});" +:+ Py.nl in
  let s := s +:+ "{x} += log(({b})/({a}))*rng.randh();" +:+ Py.nl in
  let s := s +:+ "wrap({x}, log({a}), log({b}));" +:+ Py.nl in
  let s := s +:+ "{x} = exp({x});" +:+ Py.nl in
  insert_parameters self s.

Definition log_density (self : t) : string :=
  let s := "if({x} < ({a}) || {x} > ({b}))" +:+ Py.nl in
  let s := s +:+ "    logp = -numeric_limits<double>::max();" +:+ Py.nl in
  let s := s +:+ "logp += -log({x}) - log(({b})/({a}));" +:+ Py.nl in
  insert_parameters self s.
End LogUniform.

Module Normal.
Record t : Type := Build { mu : pyval; sigma : pyval }.

Definition insert_parameters (self : t) (s : string) : string :=
  let s := Py.replace s "{mu}" (str (mu self)) in
  let s := Py.replace s "{sigma}" (str (sigma self)) in
  s.

Definition from_prior (self : t) : string :=
  let s := "{x} = {mu} + {sigma}*rng.randn();" +:+ Py.nl in
  insert_parameters self s.

Definition perturb (self : t) : string :=
  let s := "log_H -= -0.5*pow((({x}) - ({mu}))/({sigma}), 2);" +:+ Py.nl in
  let s := s +:+ "{x} += ({sigma})*rng.randh();" +:+ Py.nl in
  let s := s +:+ "log_H += -0.5*pow((({x}) - ({mu}))/({sigma}), 2);" +:+ Py.nl in
  insert_parameters self s.

Definition log_density (self : t) : string :=
  let s := "logp += -0.5*log(2*M_PI) - log({sigma}) " in
  let s := s +:+ "- 0.5*pow((({x}) - ({mu}))/({sigma}), 2);" +:+ Py.nl in
  insert_parameters self s.
End Normal.

Module Deterministic.
Record t : Type := Build { formula : string }.

Definition from_prior (self : t) : string :=
  let s := "{x} = {formula};" +:+ Py.nl in
  let s := Py.replace s "{formula}" (formula self) in
  s.

Definition perturb (self : t) : string := from_prior self.
End Deterministic.

(** The objects a node may hold as its prior.  The methods are looked up by
    name on the object; [Deterministic] defines no [log_density], so asking
    for it raises [AttributeError]. *)
Inductive Distribution : Type :=
  | DUniform (d : Uniform.t)
  | DLogUniform (d : LogUniform.t)
  | DNormal (d : Normal.t)
  | DDeterministic (d : Deterministic.t).

Module Prior.
Definition from_prior (p : Distribution) : result string :=
  match p with
  | DUniform d => Ok (Uniform.from_prior d)
  | DLogUniform d => Ok (LogUniform.from_prior d)
  | DNormal d => Ok (Normal.from_prior d)
  | DDeterministic d => Ok (Deterministic.from_prior d)
  end.

Definition perturb (p : Distribution) : result string :=
  match p with
  | DUniform d => Ok (Uniform.perturb d)
  | DLogUniform d => Ok (LogUniform.perturb d)
  | DNormal d => Ok (Normal.perturb d)
  | DDeterministic d => Ok (Deterministic.perturb d)
  end.

Definition log_density (p : Distribution) : result string :=
  match p with
  | DUniform d => Ok (Uniform.log_density d)
  | DLogUniform d => Ok (LogUniform.log_density d)
  | DNormal d => Ok (Normal.log_density d)
  | DDeterministic _ => Raise AttributeError
  end.
End Prior.

(** ** Nodes *)

(** The element type of a node: the source passes the builtin [int] or
    [float]. *)
Inductive PyType : Type := py_int | py_float.

Inductive NodeType : Type :=
  | coordinate
  | derived
  | data
  | prior_info.

Global Instance NodeType_eq_dec : EqDecision NodeType.
Proof. solve_decision. Defined.

Module Node.
Record t : Type := Build {
  dtype : PyType;
  name : string;
  index : Z;
  prior : option Distribution;
  node_type : NodeType
}.

(** [Node(dtype, name, prior, node_type, index)]; the source's default
    for [index] is 0. *)
Definition init (dtype : PyType) (name : string) (prior : option Distribution)
    (node_type : NodeType) (index : Z) : result t :=
  let name :=
    if index >? 0 then name +:+ "[" +:+ Py.str_int index +:+ "]" else name in
  let self := Build dtype name index prior node_type in
  if decide (node_type = prior_info) then
    match prior with
    | None => Ok self
    | Some _ => Raise AssertionError
    end
  else Ok self.

(** A node without a prior holds [None], which has none of the three
    methods. *)
Definition from_prior (self : t) : result string :=
  match prior self with
  | None => Raise AttributeError
  | Some p => rmap (fun s => Py.replace s "{x}" (name self)) (Prior.from_prior p)
  end.

Definition perturb (self : t) : result string :=
  match prior self with
  | None => Raise AttributeError
  | Some p => rmap (fun s => Py.replace s "{x}" (name self)) (Prior.perturb p)
  end.

Definition log_density (self : t) : result string :=
  match prior self with
  | None => Raise AttributeError
  | Some p => rmap (fun s => Py.replace s "{x}" (name self)) (Prior.log_density p)
  end.

(** [str(node)] *)
Definition to_str (self : t) : string := name self.
End Node.

(** ** The registry: an [OrderedDict] from names to nodes

    An association list in insertion order; assigning to a key that is
    present replaces its value where it stands, assigning to a new key
    appends. *)

Abbreviation OrderedDict := (list (string * Node.t)).

Module OD.
Fixpoint get (d : OrderedDict) (k : string) : option Node.t :=
  match d with
  | [] => None
  | (k', v) :: d' => if String.eqb k k' then Some v else get d' k
  end.

Fixpoint set (d : OrderedDict) (k : string) (v : Node.t) : OrderedDict :=
  match d with
  | [] => [(k, v)]
  | (k', v') :: d' =>
      if String.eqb k k' then (k, v) :: d' else (k', v') :: set d' k v
  end.

Definition keys (d : OrderedDict) : list string := d.*1.
Definition values (d : OrderedDict) : list Node.t := d.*2.

(** What every dictionary satisfies: no key occurs twice. *)
Definition wf (d : OrderedDict) : Prop := NoDup (keys d).
End OD.

(** ** Model *)

Module Model.
Record t : Type := Build { nodes : OrderedDict }.

(** Methods run against the object: they read, and may write, [self] and
    either return a value or raise. *)
Definition M (A : Type) : Type := t -> result A * t.

Definition ret {A} (a : A) : M A := fun self => (Ok a, self).
Definition bind {A B} (c : M A) (f : A -> M B) : M B :=
  fun self =>
    match c self with
    | (Ok a, self') => f a self'
    | (Raise e, self') => (Raise e, self')
    end.
Definition lift {A} (r : result A) : M A := fun self => (r, self).

Notation "x <~ c ; k" := (bind c (fun x => k))
  (at level 20, c at level 100, k at level 200).

(** The value a method call returns (or the exception it raises), and the
    object it leaves behind. *)
Definition eval {A} (c : M A) (self : t) : result A := fst (c self).
Definition exec {A} (c : M A) (self : t) : t := snd (c self).

(** [Model()] *)
Definition init : t := Build [].

(** [self.nodes[node.name] = node] *)
Definition add_node (node : Node.t) : M unit :=
  fun self => (Ok tt, Build (OD.set (nodes self) (Node.name node) node)).

(** The names [for name in self.nodes] runs through. *)
Definition names : M (list string) :=
  fun self => (Ok (OD.keys (nodes self)), self).

(** [self.nodes[name]] *)
Definition getitem (name : string) : M Node.t :=
  fun self =>
    (match OD.get (nodes self) name with
     | Some node => Ok node
     | None => Raise KeyError
     end, self).

(** A [for] loop over [ks] whose body updates the local variables [s]. *)
Fixpoint for_each {S} (ks : list string) (body : string -> S -> M S) (s : S) : M S :=
  match ks with
  | [] => ret s
  | k :: ks' => s' <~ body k s ; for_each ks' body s'
  end.

Definition from_prior : M string :=
  let s := EmptyString in
  ks <~ names ;
  s <~ for_each ks (fun name s =>
         node <~ getitem name ;
         if decide (Node.node_type node = coordinate) then
           f <~ lift (Node.from_prior node) ;
           ret (s +:+ f)
         else ret s) s ;
  ks <~ names ;
  s <~ for_each ks (fun name s =>
         node <~ getitem name ;
         if decide (Node.node_type node = derived) then
           f <~ lift (Node.from_prior node) ;
           ret (s +:+ f)
         else ret s) s ;
  ret s.

Definition perturb : M string :=
  let num_coords := 0 in
  ks <~ names ;
  num_coords <~ for_each ks (fun name num_coords =>
         node <~ getitem name ;
         if decide (Node.node_type node = coordinate) then ret (num_coords + 1)
         else ret num_coords) num_coords ;
  let s := "double log_H = 0.0;" +:+ Py.nl in
  let s := s +:+ Py.replace ("int which = rng.rand_int({n});" +:+ Py.nl)
                            "{n}" (Py.str_int num_coords) in
  let k := 0 in
  ks <~ names ;
  sk <~ for_each ks (fun name '(s, k) =>
         node <~ getitem name ;
         if decide (Node.node_type node = coordinate) then
           let s := s +:+ Py.replace ("if(which == {k})" +:+ Py.nl +:+ "{" +:+ Py.nl)
                                     "{k}" (Py.str_int k) in
           p <~ lift (Node.perturb node) ;
           let s := s +:+ Py.join Py.nl
                            (map (fun x => "    " +:+ x) (Py.splitlines p)) in
           let s := s +:+ Py.nl +:+ "}" +:+ Py.nl in
           ret (s, k + 1)
         else ret (s, k)) (s, k) ;
  let s := fst sk in
  ks <~ names ;
  s <~ for_each ks (fun name s =>
         node <~ getitem name ;
         if decide (Node.node_type node = derived) then
           f <~ lift (Node.from_prior node) ;
           ret (s +:+ f)
         else ret s) s ;
  let s := s +:+ "return log_H;" +:+ Py.nl in
  ret s.

Definition print_code : M string :=
  let s := EmptyString in
  ks <~ names ;
  s <~ for_each ks (fun name s =>
         node <~ getitem name ;
         if decide (Node.node_type node = coordinate) then
           ret (s +:+ "out<<" +:+ Node.to_str node +:+ "<<" +:+ Py.dq +:+ " "
                  +:+ Py.dq +:+ ";" +:+ Py.nl)
         else ret s) s ;
  ret s.

Definition description : M string :=
  let s := "string s;" +:+ Py.nl in
  ks <~ names ;
  s <~ for_each ks (fun name s =>
         node <~ getitem name ;
         if decide (Node.node_type node = coordinate) then
           ret (s +:+ "s += " +:+ Py.dq +:+ Node.to_str node +:+ ", " +:+ Py.dq
                  +:+ ";" +:+ Py.nl)
         else ret s) s ;
  let s := Py.drop_last 5 s in
  let s := s +:+ Py.dq +:+ ";" in
  let s := s +:+ Py.nl +:+ "return s;" in
  ret s.

Definition log_likelihood : M string :=
  let s := "double logp = 0.0;" +:+ Py.nl +:+ Py.nl in
  ks <~ names ;
  s <~ for_each ks (fun name s =>
         node <~ getitem name ;
         if decide (Node.node_type node = data) then
           f <~ lift (Node.log_density node) ;
           ret (s +:+ f)
         else ret s) s ;
  let s := s +:+ Py.nl +:+ "return logp;" in
  ret s.

(** [l[0]] *)
Definition item0 {A} (l : list A) : result A :=
  match l with
  | x :: _ => Ok x
  | [] => Raise IndexError
  end.

Definition get_vector_names (node_type : NodeType) : M (gset string) :=
  let vecs : gset string := ∅ in
  ks <~ names ;
  vecs <~ for_each ks (fun name vecs =>
         node <~ getitem name ;
         if decide (Node.node_type node = node_type) then
           if decide (Node.index node <> 0) then
             base <~ lift (item0 (Py.split_from "[" 0 name)) ;
             ret ({[ base ]} ∪ vecs)
           else ret vecs
         else ret vecs) vecs ;
  ret vecs.

Definition get_scalar_names (node_type : NodeType) : M (gset string) :=
  vecs <~ get_vector_names node_type ;
  let scalars : gset string := ∅ in
  ks <~ names ;
  scalars <~ for_each ks (fun name scalars =>
         node <~ getitem name ;
         if decide (Node.node_type node = node_type) then
           base <~ lift (item0 (Py.split_from "[" 0 (Node.name node))) ;
           if decide (base ∉ vecs) then ret ({[ Node.name node ]} ∪ scalars)
           else ret scalars
         else ret scalars) scalars ;
  ret scalars.

Definition get_vector_size (vector_name : string) : M Z :=
  let count := 0 in
  ks <~ names ;
  count <~ for_each ks (fun name count =>
         if String.eqb name vector_name then ret (count + 1)
         else ret count) count ;
  ret count.
End Model.

(** ** Reference forms of the passes

    What each pass is meant to return, written over the registry's values
    in registration order; the passes above are compared with these. *)

(** Concatenation of a list of fragments. *)
Definition cat (l : list string) : string := foldr String.append EmptyString l.

(** The loop [for name in self.nodes: node = self.nodes[name]; ...] seen as
    a fold over the entries, for a body that only computes on its locals. *)
Fixpoint rfold {S} (g : string -> Node.t -> S -> result S)
    (es : OrderedDict) (s : S) : result S :=
  match es with
  | [] => Ok s
  | (k, v) :: es' => rbind (g k v s) (rfold g es')
  end.

(** The five composition passes. *)
Inductive pass : Type :=
  | FromPrior
  | Perturb
  | LogLikelihood
  | PrintCode
  | Description.

Module Spec.
(** The nodes of one role, in registration order. *)
Definition of_type (ty : NodeType) (m : Model.t) : list Node.t :=
  filter (fun n => Node.node_type n = ty) (OD.values (Model.nodes m)).

Definition from_prior (m : Model.t) : result string :=
  rmap cat (rmapM Node.from_prior (of_type coordinate m ++ of_type derived m)).

(** A node's fragment, re-indented by four spaces line by line. *)
Definition indent (p : string) : string :=
  Py.join Py.nl (map (fun x => "    " +:+ x) (Py.splitlines p)).

(** The conditional block of the coordinate at position [k]. *)
Definition block (k : Z) (p : string) : string :=
  "if(which == " +:+ Py.str_int k +:+ ")" +:+ Py.nl +:+ "{" +:+ Py.nl
  +:+ indent p +:+ Py.nl +:+ "}" +:+ Py.nl.

Definition perturb (m : Model.t) : result string :=
  rbind (rmapM Node.perturb (of_type coordinate m)) (fun ps =>
  rbind (rmapM Node.from_prior (of_type derived m)) (fun ds =>
  Ok ("double log_H = 0.0;" +:+ Py.nl
      +:+ "int which = rng.rand_int("
      +:+ Py.str_int (Z.of_nat (length (of_type coordinate m))) +:+ ");" +:+ Py.nl
      +:+ cat (imap (fun k p => block (Z.of_nat k) p) ps)
      +:+ cat ds
      +:+ "return log_H;" +:+ Py.nl))).

(** The statement [description] appends for a coordinate. *)
Definition description_line (v : Node.t) : string :=
  "s += " +:+ Py.dq +:+ Node.to_str v +:+ ", " +:+ Py.dq +:+ ";" +:+ Py.nl.

Definition description (m : Model.t) : result string :=
  Ok (Py.drop_last 5
        ("string s;" +:+ Py.nl +:+ cat (description_line <$> of_type coordinate m))
      +:+ Py.dq +:+ ";" +:+ Py.nl +:+ "return s;").

(** The statement [print_code] emits for a coordinate. *)
Definition print_line (v : Node.t) : string :=
  "out<<" +:+ Node.to_str v +:+ "<<" +:+ Py.dq +:+ " " +:+ Py.dq +:+ ";" +:+ Py.nl.

Definition print_code (m : Model.t) : result string :=
  Ok (cat (print_line <$> of_type coordinate m)).

Definition log_likelihood (m : Model.t) : result string :=
  rmap (fun fs => "double logp = 0.0;" +:+ Py.nl +:+ Py.nl
                  +:+ cat fs +:+ Py.nl +:+ "return logp;")
       (rmapM Node.log_density (of_type data m)).

(** The reference form of each pass; it reads the registry's values only. *)
Definition run (p : pass) (m : Model.t) : result string :=
  match p with
  | FromPrior => from_prior m
  | Perturb => perturb m
  | LogLikelihood => log_likelihood m
  | PrintCode => print_code m
  | Description => description m
  end.
End Spec.

(** The model obtained from an empty one by registering [ns] in order. *)
Definition build (ns : list Node.t) : Model.t :=
  foldl (fun m n => Model.exec (Model.add_node n) m) Model.init ns.

(** The method of a pass. *)
Definition run (p : pass) : Model.M string :=
  match p with
  | FromPrior => Model.from_prior
  | Perturb => Model.perturb
  | LogLikelihood => Model.log_likelihood
  | PrintCode => Model.print_code
  | Description => Model.description
  end.

(** ** A small model

    A coordinate [x] with a uniform prior on (0, 10), a derived [y = 2*x],
    a datum [d] normal around [y] and a constant [k]. *)
Module Demo.
Definition u : Distribution := DUniform (Uniform.Build (PyInt 0) (PyInt 10)).
Definition x : Node.t := Node.Build py_float "x" 0 (Some u) coordinate.
Definition y : Node.t :=
  Node.Build py_float "y" 0 (Some (DDeterministic (Deterministic.Build "2*x"))) derived.
Definition d : Node.t :=
  Node.Build py_float "d" 0
    (Some (DNormal (Normal.Build (PyStr "y") (PyInt 1)))) data.
Definition k : Node.t := Node.Build py_int "k" 0 None prior_info.
(** [x] again, now log-uniform on (1, 10). *)
Definition x' : Node.t :=
  Node.Build py_float "x" 0
    (Some (DLogUniform (LogUniform.Build (PyInt 1) (PyInt 10)))) coordinate.

Definition model : Model.t := build [x; y; d].
Definition no_coordinates : Model.t := build [y; d].

(** The member [x[i]] of a vector coordinate [x], and the model holding
    its first three members. *)
Definition xi (dt : PyType) (prior : option Distribution) (i : Z) : Node.t :=
  Node.Build dt ("x[" +:+ Py.str_int i +:+ "]") i prior coordinate.
Definition vector (dt : PyType) (prior : option Distribution) : Model.t :=
  build [xi dt prior 1; xi dt prior 2; xi dt prior 3].
End Demo.

(** A method that leaves the object as it found it, whatever it returns. *)
Definition readonly {A} (c : Model.M A) : Prop :=
  forall self, Model.exec c self = self.

(** ** Names, groups and parameters *)

(** [s.split("[")[0]]: the text before the first bracket. *)
Definition base_name (s : string) : string :=
  match Py.split_from "[" 0 s with
  | x :: _ => x
  | [] => EmptyString
  end.

(** The sets the grouping queries are meant to return. *)
Module Grouping.
Definition vector_names (ty : NodeType) (m : Model.t) : gset string :=
  list_to_set
    (base_name <$>
       (filter (fun e : string * Node.t =>
                  Node.node_type e.2 = ty /\ Node.index e.2 <> 0)
               (Model.nodes m)).*1).

Definition scalar_names (ty : NodeType) (m : Model.t) : gset string :=
  list_to_set
    (Node.name <$>
       filter (fun v => Node.node_type v = ty
                        /\ base_name (Node.name v) ∉ vector_names ty m)
              (OD.values (Model.nodes m))).
End Grouping.

(** A parameter whose text holds no brace, so that no placeholder occurs
    in it. *)
Definition brace_free (v : pyval) : Prop := Py.has_char "{" (str v) = false.

(** A node made by [Node(...)] from a name without bracket and an index
    that is not negative. *)
Definition constructed (v : Node.t) : Prop :=
  exists dt base p ty i,
    Node.init dt base p ty i = Ok v /\ Py.has_char "[" base = false /\ 0 <= i.

(** Whether a node can be asked for its [from_prior()] and [perturb()]
    fragments, and for its [log_density()] fragment. *)
Definition can_sample (v : Node.t) : bool :=
  match Node.prior v with
  | Some _ => true
  | None => false
  end.

Definition has_density (v : Node.t) : bool :=
  match Node.prior v with
  | Some (DDeterministic _) | None => false
  | Some _ => true
  end.

(** A fragment made of the statements [ls], one per line. *)
Definition statements (ls : list string) : string :=
  cat (map (fun l => l +:+ Py.nl) ls).

(** A text without line boundary. *)
Fixpoint has_linebreak (s : string) : bool :=
  match s with
  | EmptyString => false
  | String c s' => Py.is_linebreak c || has_linebreak s'
  end.

Definition one_line (s : string) : Prop := has_linebreak s = false.

(** ** Writing the generated files

    [generate_h] and [generate_cpp] read a template file, fill its slots
    and write the result.  They run against the model, the files at hand
    and the console.  The files are text files, opened in text mode: line
    ends are translated when a file is read and when it is written. *)

(** What the emitters may raise: the exceptions of the model, that of
    opening a file that does not exist, or that of a [for] loop over a
    value that cannot be iterated. *)
Inductive exn : Type :=
  | Exn (e : pyerr)
  | FileNotFoundError
  | TypeError.

Inductive outcome (A : Type) : Type :=
  | Returns (a : A)
  | Raises (e : exn).
Arguments Returns {A} a.
Arguments Raises {A} e.

(** The values of the [data] dictionary of [generate_cpp]: a numpy array of
    some element type and of one dimension or more, given by the texts
    [str()] prints for the items a [for] loop over it meets; a numpy array
    of no dimension, which holds one element but cannot be iterated; a
    [float] (by its text); an [int]; or anything else (by its text). *)
Inductive np_dtype : Type := float64 | int64 | other_dtype.

Inductive datum : Type :=
  | NdArray (dtype : np_dtype) (items : list string)
  | NdArray0 (dtype : np_dtype)
  | DFloat (repr : string)
  | DInt (i : Z)
  | DOther (repr : string).

Module Generate.
Record world : Type := World {
  model : Model.t;
  files : gmap string string;
  stdout : list string
}.

Definition IO (A : Type) : Type := world -> outcome A * world.

Definition ret {A} (a : A) : IO A := fun w => (Returns a, w).
Definition bind {A B} (c : IO A) (f : A -> IO B) : IO B :=
  fun w =>
    match c w with
    | (Returns a, w') => f a w'
    | (Raises e, w') => (Raises e, w')
    end.

Notation "x <~~ c ; k" := (bind c (fun x => k))
  (at level 20, c at level 100, k at level 200).

(** A call of a method of the model. *)
Definition call {A} (c : Model.M A) : IO A :=
  fun w =>
    match c (model w) with
    | (Ok a, m') => (Returns a, World m' (files w) (stdout w))
    | (Raise e, m') => (Raises (Exn e), World m' (files w) (stdout w))
    end.

(** [raise e] *)
Definition raise {A} (e : exn) : IO A := fun w => (Raises e, w).

(** The files are opened in text mode.  What [read()] returns is the text
    of the file with every CR LF and every other CR turned into LF. *)
Fixpoint universal_newlines (s : string) : string :=
  match s with
  | EmptyString => EmptyString
  | String c s' =>
      if Py.is_cr c then
        String "010"
          match s' with
          | String c' s'' =>
              if Py.is_lf c' then universal_newlines s'' else universal_newlines s'
          | EmptyString => EmptyString
          end
      else String c (universal_newlines s')
  end.

(** [f = open(path); s = f.read(); ...; f.close()]; [files] holds the
    characters of each file that can be opened. *)
Definition read_file (path : string) : IO string :=
  fun w =>
    match files w !! path with
    | Some s => (Returns (universal_newlines s), w)
    | None => (Raises FileNotFoundError, w)
    end.

(** [f = open(path, "w"); f.write(s); f.close()]: what reaches the file is
    [s] with every LF turned into the line separator [linesep] of the
    platform ([os.linesep], a line feed on POSIX systems).  Every path can
    be opened for writing. *)
Definition write_file (linesep path s : string) : IO unit :=
  fun w =>
    (Returns tt,
     World (model w) (<[path := Py.replace s Py.nl linesep]> (files w)) (stdout w)).

(** [print(s)] *)
Definition print (s : string) : IO unit :=
  fun w => (Returns tt, World (model w) (files w) (stdout w ++ [s])).

(** A [for] loop over the items [xs] whose body updates the locals [s]. *)
Fixpoint for_each {X S} (xs : list X) (body : X -> S -> IO S) (s : S) : IO S :=
  match xs with
  | [] => ret s
  | x :: xs' => s' <~~ body x s ; for_each xs' body s'
  end.

(** An order in which the members of a set are met, each once. *)
Definition enumerates (order : gset string -> list string) : Prop :=
  forall s, NoDup (order s) /\ forall x, x ∈ order s <-> x ∈ s.

(** The declarations block of [generate_h] (its lines 267 to 293).  A
    Python set is run through in an order of its own: [order_known] and
    [order_unknown] give the order of the first and of the second loop. *)
Definition declarations (order_known order_unknown : gset string -> list string)
    : IO string :=
  vecs <~~ call (Model.get_vector_names data) ;
  vecs' <~~ call (Model.get_vector_names prior_info) ;
  let vecs := vecs ∪ vecs' in
  let declarations := EmptyString in
  declarations <~~ for_each (order_known vecs) (fun vec declarations =>
       let declarations := declarations +:+ "        static const std::vector" in
       node <~~ call (Model.getitem (vec +:+ "[0]")) ;
       let declarations :=
         match Node.dtype node with
         | py_int => declarations +:+ "<int>"
         | py_float => declarations +:+ "<double>"
         end in
       ret (declarations +:+ " " +:+ vec +:+ ";" +:+ Py.nl)) declarations ;
  vecs <~~ call (Model.get_vector_names coordinate) ;
  vecs' <~~ call (Model.get_vector_names derived) ;
  let vecs := vecs ∪ vecs' in
  let declarations := declarations +:+ Py.nl in
  declarations <~~ for_each (order_unknown vecs) (fun vec declarations =>
       let declarations := declarations +:+ "        std::vector" in
       node <~~ call (Model.getitem (vec +:+ "[0]")) ;
       let declarations :=
         match Node.dtype node with
         | py_int => declarations +:+ "<int>"
         | py_float => declarations +:+ "<double>"
         end in
       ret (declarations +:+ " " +:+ vec +:+ ";" +:+ Py.nl)) declarations ;
  ret declarations.

(** The body the two loops of the declarations block share, up to the
    text [prefix] each starts a declaration with. *)
Definition declare_body (prefix : string) (vec declarations : string) : IO string :=
  let declarations := declarations +:+ prefix in
  node <~~ call (Model.getitem (vec +:+ "[0]")) ;
  let declarations :=
    match Node.dtype node with
    | py_int => declarations +:+ "<int>"
    | py_float => declarations +:+ "<double>"
    end in
  ret (declarations +:+ " " +:+ vec +:+ ";" +:+ Py.nl).

(** The vector names of the known and of the unknown quantities. *)
Definition known_vectors (m : Model.t) : gset string :=
  Grouping.vector_names data m ∪ Grouping.vector_names prior_info m.
Definition unknown_vectors (m : Model.t) : gset string :=
  Grouping.vector_names coordinate m ∪ Grouping.vector_names derived m.

(** [generate_h()] *)
Definition generate_h (linesep : string)
    (order_known order_unknown : gset string -> list string) : IO string :=
  declarations <~~ declarations order_known order_unknown ;
  s <~~ read_file "MyModel.h.template" ;
  let s := Py.replace s "        {DECLARATIONS}" declarations in
  _ <~~ write_file linesep "MyModel.h" s ;
  ret s.

(** ["\n".join(["    " + x for x in code.splitlines()])] *)
Definition indent4 (code : string) : string :=
  Py.join Py.nl (map (fun x => "    " +:+ x) (Py.splitlines code)).

(** The data block of [generate_cpp] (its lines 340 to 362).  [data] lists
    the entries of the dictionary in its order; its keys are strings.  The
    [for] loop over the items of an array of no dimension raises
    [TypeError]. *)
Definition the_data (data : list (string * datum)) : IO string :=
  let the_data := EmptyString in
  the_data <~~ for_each data (fun '(d, value) the_data =>
       let the_data := the_data +:+ "const " in
       the_data <~~
         match value with
         | NdArray dtype _ | NdArray0 dtype =>
             match dtype with
             | float64 => ret (the_data +:+ "std::vector<double> MyModel::")
             | int64 => ret (the_data +:+ "std::vector<int> MyModel::")
             | other_dtype => _ <~~ print "Unsupported dtype." ; ret the_data
             end
         | _ => ret the_data
         end ;
       let the_data :=
         match value with
         | DFloat _ => the_data +:+ "double MyModel::"
         | _ => the_data
         end in
       let the_data :=
         match value with
         | DInt _ => the_data +:+ "int MyModel::"
         | _ => the_data
         end in
       let the_data := the_data +:+ d +:+ "{" in
       the_data <~~
         match value with
         | NdArray _ items =>
             ret (foldl (fun the_data value => the_data +:+ value +:+ ", ")
                        the_data items)
         | NdArray0 _ => raise TypeError
         | DFloat r => ret (the_data +:+ r +:+ ", ")
         | DInt i => ret (the_data +:+ Py.str_int i +:+ ", ")
         | DOther r => ret (the_data +:+ r +:+ ", ")
         end ;
       let the_data := Py.drop_last 2 the_data in
       ret (the_data +:+ "};" +:+ Py.nl)) the_data ;
  ret the_data.

(** The initialiser list of [generate_cpp] (its lines 366 to 372);
    [order] gives the order in which the set of vector names is run
    through. *)
Definition initialiser_list (order : gset string -> list string) : IO string :=
  let initialiser_list := ":" in
  vecs <~~ call (Model.get_vector_names coordinate) ;
  vecs' <~~ call (Model.get_vector_names derived) ;
  let vecs := vecs ∪ vecs' in
  initialiser_list <~~ for_each (order vecs) (fun vec initialiser_list =>
       let initialiser_list := initialiser_list +:+ vec +:+ "(" in
       size <~~ call (Model.get_vector_size vec) ;
       ret (initialiser_list +:+ Py.str_int size +:+ "),")) initialiser_list ;
  let initialiser_list := Py.drop_last 1 initialiser_list in
  ret initialiser_list.

(** The slots of the template of [generate_cpp], filled one after the
    other. *)
Definition fill_cpp (s from_prior perturb log_likelihood print_code description
    the_data initialiser_list : string) : string :=
  let s := Py.replace s "{FROM_PRIOR}" from_prior in
  let s := Py.replace s "{PERTURB}" perturb in
  let s := Py.replace s "{LOG_LIKELIHOOD}" log_likelihood in
  let s := Py.replace s "{PRINT}" print_code in
  let s := Py.replace s "{DESCRIPTION}" description in
  let s := Py.replace s "{STATIC_DECLARATIONS}" the_data in
  let s := Py.replace s "{INITIALIZER_LIST}" initialiser_list in
  s.

(** [generate_cpp(data)] *)
Definition generate_cpp (linesep : string) (order : gset string -> list string)
    (data : list (string * datum)) : IO string :=
  from_prior <~~ call Model.from_prior ;
  let from_prior := indent4 from_prior in
  perturb <~~ call Model.perturb ;
  let perturb := indent4 perturb in
  log_likelihood <~~ call Model.log_likelihood ;
  let log_likelihood := indent4 log_likelihood in
  print_code <~~ call Model.print_code ;
  let print_code := indent4 print_code in
  description <~~ call Model.description ;
  let description := indent4 description in
  the_data <~~ the_data data ;
  initialiser_list <~~ initialiser_list order ;
  s <~~ read_file "MyModel.cpp.template" ;
  let s := fill_cpp s from_prior perturb log_likelihood print_code description
                    the_data initialiser_list in
  _ <~~ write_file linesep "MyModel.cpp" s ;
  ret s.

(** The type text of a [data] entry and the texts of the items written
    for it (none for an array of no dimension, whose loop raises), and the
    declaration the data block is meant to emit for it. *)
Definition type_text (value : datum) : string :=
  match value with
  | NdArray float64 _ | NdArray0 float64 => "std::vector<double> MyModel::"
  | NdArray int64 _ | NdArray0 int64 => "std::vector<int> MyModel::"
  | NdArray other_dtype _ | NdArray0 other_dtype => EmptyString
  | DFloat _ => "double MyModel::"
  | DInt _ => "int MyModel::"
  | DOther _ => EmptyString
  end.

Definition item_texts (value : datum) : list string :=
  match value with
  | NdArray _ items => items
  | NdArray0 _ => []
  | DFloat r => [r]
  | DInt i => [Py.str_int i]
  | DOther r => [r]
  end.

(** An array of no dimension, and the entries the loop of the data block
    gets to: all of them up to the first array of no dimension, that one
    included. *)
Definition zero_dim (value : datum) : bool :=
  match value with
  | NdArray0 _ => true
  | _ => false
  end.

Fixpoint reached (data : list (string * datum)) : list (string * datum) :=
  match data with
  | [] => []
  | e :: data' => e :: (if zero_dim e.2 then [] else reached data')
  end.

Definition entry (e : string * datum) : string :=
  "const " +:+ type_text e.2 +:+ e.1 +:+ "{" +:+ Py.join ", " (item_texts e.2)
  +:+ "};" +:+ Py.nl.

(** The text the data block leaves for an entry: the slice [[0:-2]] is
    taken when the items have been written, whether there were any or
    not. *)
Definition emitted (e : string * datum) : string :=
  Py.drop_last 2
    ("const " +:+ type_text e.2 +:+ e.1 +:+ "{"
     +:+ cat (map (fun v => v +:+ ", ") (item_texts e.2)))
  +:+ "};" +:+ Py.nl.

(** The initialiser list over the vector names in the order [vecs], each
    with the size [get_vector_size] returns for it. *)
Definition initialiser_text (m : Model.t) (vecs : list string) : string :=
  Py.drop_last 1
    (":" +:+ cat (map (fun vec =>
                         vec +:+ "("
                         +:+ (if decide (vec ∈ OD.keys (Model.nodes m)) then "1" else "0")
                         +:+ "),") vecs)).

(** What [print] has written once the loop of the data block has been
    through the entries [data]. *)
Definition complaints (data : list (string * datum)) : list string :=
  flat_map (fun e : string * datum =>
              match e.2 with
              | NdArray other_dtype _ | NdArray0 other_dtype => ["Unsupported dtype."]
              | _ => []
              end) data.
End Generate.

(** ** Worlds for the small model *)
Module DemoWorld.
(** The two templates, cut down to their slots. *)
Definition files : gmap string string :=
  {[ "MyModel.h.template" := "class MyModel {         {DECLARATIONS} };";
     "MyModel.cpp.template" := "{STATIC_DECLARATIONS} MyModel::MyModel() {INITIALIZER_LIST} {}" ]}.

Definition world (m : Model.t) : Generate.world := Generate.World m files [].

(** A coordinate that was given no prior. *)
Definition z : Node.t := Node.Build py_float "z" 0 None coordinate.

(** Data: an array of two floats, an integer and an array of three
    integers. *)
Definition entries : list (string * datum) :=
  [("t", NdArray float64 ["0.5"; "1.5"]); ("N", DInt 2);
   ("n", NdArray int64 ["1"; "2"; "3"])].
End DemoWorld.

(** * Properties *)

(** ** Strings *)

Local Arguments String.append : simpl nomatch.

Section StringFacts.

Lemma append_assoc (s1 s2 s3 : string) :
  (s1 +:+ s2) +:+ s3 = s1 +:+ (s2 +:+ s3).
Proof. induction s1 as [|c s1 IH]; simpl; [done|]. by rewrite IH. Qed.

Lemma append_nil_r (s : string) : s +:+ EmptyString = s.
Proof. induction s as [|c s IH]; simpl; [done|]. by rewrite IH. Qed.

Lemma startswith_length (p s : string) :
  Py.startswith p s = true -> (String.length p <= String.length s)%nat.
Proof.
  revert s. induction p as [|a p IH]; intros [|b s]; simpl; try done; try lia.
  destruct (Ascii.eqb a b); [|done]. intros H%IH. lia.
Qed.

(** A character that does not occur in the pattern stops every match
    attempt that reaches it. *)
Lemma startswith_sep (p s1 s2 : string) (c : ascii) :
  Py.has_char c p = false ->
  Py.startswith p (s1 +:+ String c s2) = Py.startswith p s1.
Proof.
  revert s1. induction p as [|a p IH]; intros s1 Hc; [by destruct s1|].
  simpl in Hc. apply orb_false_elim in Hc as [Hac Hp].
  destruct s1 as [|b s1]; simpl.
  - by rewrite Hac.
  - destruct (Ascii.eqb a b); [by apply IH|done].
Qed.

Lemma replace_from_sep (old new s1 s2 : string) (c : ascii) (skip : nat) :
  old <> EmptyString ->
  Py.has_char c old = false ->
  (skip <= String.length s1)%nat ->
  Py.replace_from old new skip (s1 +:+ String c s2)
  = Py.replace_from old new skip s1 +:+ String c (Py.replace_from old new 0 s2).
Proof.
  intros Hne Hc. revert skip.
  induction s1 as [|a s1 IH]; intros skip Hskip.
  - simpl in Hskip. assert (skip = 0%nat) as -> by lia.
    destruct old as [|o old]; [done|]. simpl in Hc |- *.
    apply orb_false_elim in Hc as [-> _]. done.
  - destruct skip as [|k].
    + change (String a s1 +:+ String c s2) with (String a (s1 +:+ String c s2)).
      cbn [Py.replace_from].
      change (String a (s1 +:+ String c s2)) with (String a s1 +:+ String c s2).
      rewrite startswith_sep by done.
      destruct (Py.startswith old (String a s1)) eqn:Hsw.
      * apply startswith_length in Hsw. simpl in Hsw.
        rewrite IH by lia. by rewrite append_assoc.
      * by rewrite IH by lia.
    + simpl in Hskip |- *. apply IH. lia.
Qed.

(** A text in which the first character of the pattern does not occur is
    left as it is. *)
Lemma replace_from_absent (a : ascii) (old new s : string) :
  Py.has_char a s = false ->
  Py.replace_from (String a old) new 0 s = s.
Proof.
  induction s as [|b s IH]; [done|]. simpl.
  intros [Hb Hs]%orb_false_elim.
  rewrite Ascii.eqb_sym in Hb. rewrite Hb. by rewrite IH.
Qed.

Lemma contains_sep (n s1 s2 : string) (c : ascii) :
  n <> EmptyString ->
  Py.has_char c n = false ->
  Py.contains n (s1 +:+ String c s2)
  = (Py.contains n s1 || Py.contains n (String c s2)).
Proof.
  intros Hne Hc. induction s1 as [|a s1 IH].
  - destruct n; [done|]. done.
  - change (String a s1 +:+ String c s2) with (String a (s1 +:+ String c s2)).
    cbn [Py.contains].
    change (String a (s1 +:+ String c s2)) with (String a s1 +:+ String c s2).
    rewrite startswith_sep by done. rewrite IH. by rewrite orb_assoc.
Qed.

Lemma replace_absent (s old new : string) :
  Py.has_char "{" s = false -> Py.replace s (String "{" old) new = s.
Proof. apply replace_from_absent. Qed.

End StringFacts.

(** ** Results *)

Section ResultFacts.
Context {A B : Type}.

Lemma rmapM_app (f : A -> result B) (l1 l2 : list A) :
  rmapM f (l1 ++ l2)
  = rbind (rmapM f l1) (fun r1 => rmap (app r1) (rmapM f l2)).
Proof.
  induction l1 as [|x l1 IH]; simpl.
  - by destruct (rmapM f l2).
  - destruct (f x); simpl; [|done]. rewrite IH.
    destruct (rmapM f l1); simpl; [|done]. by destruct (rmapM f l2).
Qed.

End ResultFacts.

Lemma cat_app (l1 l2 : list string) : cat (l1 ++ l2) = cat l1 +:+ cat l2.
Proof.
  induction l1 as [|x l1 IH]; simpl; [done|].
  by rewrite IH, append_assoc.
Qed.

(** ** The registry *)

Section RegistryFacts.

Lemma get_lookup (d : OrderedDict) (k : string) (v : Node.t) :
  OD.wf d -> (k, v) ∈ d -> OD.get d k = Some v.
Proof.
  unfold OD.wf, OD.keys. induction d as [|[k' v'] d IH]; simpl.
  - by intros _ ?%elem_of_nil.
  - intros [Hk' Hd]%NoDup_cons [[= -> ->]|Hin]%elem_of_cons.
    + by rewrite String.eqb_refl.
    + destruct (String.eqb_spec k k') as [->|_]; [|by apply IH].
      destruct Hk'. apply list_elem_of_fmap. by exists (k', v).
Qed.

(** Assigning to a new key appends the entry. *)
Lemma set_fresh (d : OrderedDict) (k : string) (v : Node.t) :
  k ∉ OD.keys d -> OD.set d k v = d ++ [(k, v)].
Proof.
  unfold OD.keys. induction d as [|[k' v'] d IH]; simpl; [done|].
  intros [Hne Hd]%not_elem_of_cons.
  destruct (String.eqb_spec k k') as [->|_]; [done|]. by rewrite IH.
Qed.

(** Assigning to a key that is present replaces the value at the place the
    key already holds. *)
Lemma set_present (d : OrderedDict) (k : string) (v : Node.t) (i : nat) :
  OD.wf d -> OD.keys d !! i = Some k -> OD.set d k v = <[i := (k, v)]> d.
Proof.
  unfold OD.wf, OD.keys. revert i.
  induction d as [|[k' v'] d IH]; intros i; simpl; [done|].
  intros [Hk' Hd]%NoDup_cons Hi. destruct i as [|i]; simpl in *.
  - injection Hi as ->. by rewrite String.eqb_refl.
  - destruct (String.eqb_spec k k') as [->|_].
    + destruct Hk'. by eapply list_elem_of_lookup_2.
    + f_equal. by apply IH.
Qed.

Lemma set_keys (d : OrderedDict) (k : string) (v : Node.t) :
  OD.keys (OD.set d k v)
  = if decide (k ∈ OD.keys d) then OD.keys d else OD.keys d ++ [k].
Proof.
  unfold OD.keys. induction d as [|[k' v'] d IH].
  - rewrite decide_False; [done|apply not_elem_of_nil].
  - cbn [OD.set]. destruct (String.eqb_spec k k') as [Heq|Hne].
    + subst k. rewrite decide_True; [done|apply list_elem_of_here].
    + rewrite !fmap_cons. cbn [fst]. rewrite IH.
      destruct (decide (k ∈ d.*1)) as [Hin|Hnin].
      * rewrite decide_True; [done|by apply list_elem_of_further].
      * rewrite decide_False; [done|]. by apply not_elem_of_cons.
Qed.

Lemma set_wf (d : OrderedDict) (k : string) (v : Node.t) :
  OD.wf d -> OD.wf (OD.set d k v).
Proof.
  unfold OD.wf. rewrite set_keys. case_decide; [done|].
  intros Hd. apply NoDup_app. split_and!; [done| |apply NoDup_singleton].
  intros x Hx ->%list_elem_of_singleton. done.
Qed.

Lemma get_set (d : OrderedDict) (k k' : string) (v : Node.t) :
  OD.get (OD.set d k v) k' = if decide (k' = k) then Some v else OD.get d k'.
Proof.
  induction d as [|[k0 v0] d IH]; simpl.
  - case_decide as H; [subst; by rewrite String.eqb_refl|].
    by destruct (String.eqb_spec k' k).
  - destruct (String.eqb_spec k k0) as [->|Hne]; simpl.
    + case_decide as H; [subst; by rewrite String.eqb_refl|].
      by destruct (String.eqb_spec k' k0).
    + rewrite IH. case_decide as H; [subst|done].
      by destruct (String.eqb_spec k k0).
Qed.

Lemma build_snoc (ns : list Node.t) (n : Node.t) :
  build (ns ++ [n]) = Model.exec (Model.add_node n) (build ns).
Proof. unfold build. by rewrite foldl_app. Qed.

Lemma build_wf (ns : list Node.t) : OD.wf (Model.nodes (build ns)).
Proof.
  induction ns as [|n ns IH] using rev_ind.
  - apply NoDup_nil_2.
  - rewrite build_snoc. by apply set_wf.
Qed.

(** Well-formedness of a given registry can be decided by computation. *)
Lemma wf_dec (d : OrderedDict) : bool_decide (NoDup (OD.keys d)) = true -> OD.wf d.
Proof. apply bool_decide_eq_true_1. Qed.

End RegistryFacts.

(** ** Loops over the registry *)

Section LoopFacts.
Import Model.

Lemma for_each_lookup {S} (body : string -> S -> M S)
    (g : string -> Node.t -> S -> result S) (self : t) (es : OrderedDict) (s : S) :
  (forall k v s, OD.get (nodes self) k = Some v -> body k s self = (g k v s, self)) ->
  (forall k v, (k, v) ∈ es -> OD.get (nodes self) k = Some v) ->
  for_each es.*1 body s self = (rfold g es s, self).
Proof.
  intros Hbody. revert s.
  induction es as [|[k v] es IH]; intros s Hes; [done|].
  cbn [fmap list_fmap fst for_each rfold]. unfold bind at 1.
  rewrite (Hbody k v s) by (apply Hes, list_elem_of_here).
  destruct (g k v s) as [s'|e]; [|done].
  apply IH. intros k' v' Hin. by apply Hes, list_elem_of_further.
Qed.

(** On a well-formed registry the loop meets every entry once, in order. *)
Lemma for_each_nodes {S} (body : string -> S -> M S)
    (g : string -> Node.t -> S -> result S) (self : t) (s : S) :
  OD.wf (nodes self) ->
  (forall k v s, OD.get (nodes self) k = Some v -> body k s self = (g k v s, self)) ->
  for_each (OD.keys (nodes self)) body s self = (rfold g (nodes self) s, self).
Proof.
  intros Hwf Hbody. apply for_each_lookup; [done|].
  intros k v Hin. by apply get_lookup.
Qed.

(** A loop that appends the fragment of every node satisfying [P]. *)
Lemma rfold_collect (P : Node.t -> Prop) `{!forall v, Decision (P v)}
    (frag : Node.t -> result string) (es : OrderedDict) (s0 : string) :
  rfold (fun _ v s =>
           if decide (P v) then rbind (frag v) (fun f => Ok (s +:+ f)) else Ok s)
        es s0
  = rmap (fun fs => s0 +:+ cat fs) (rmapM frag (filter P es.*2)).
Proof.
  revert s0. induction es as [|[k v] es IH]; intros s0.
  - simpl. by rewrite append_nil_r.
  - cbn [rfold]. rewrite fmap_cons. cbn [snd].
    destruct (decide (P v)) as [HP|HP].
    + rewrite filter_cons_True by done. cbn [rmapM].
      destruct (frag v) as [f|e]; [|done]. cbn [rbind]. rewrite IH.
      destruct (rmapM frag (filter P es.*2)) as [fs|e]; [|done].
      simpl. by rewrite append_assoc.
    + rewrite filter_cons_False by done. cbn [rbind]. apply IH.
Qed.

(** A loop that counts the nodes satisfying [P]. *)
Lemma rfold_count (P : Node.t -> Prop) `{!forall v, Decision (P v)}
    (es : OrderedDict) (n0 : Z) :
  rfold (fun _ v n => if decide (P v) then Ok (n + 1) else Ok n) es n0
  = Ok (n0 + Z.of_nat (length (filter P es.*2))).
Proof.
  revert n0. induction es as [|[k v] es IH]; intros n0.
  - simpl. f_equal. lia.
  - cbn [rfold]. rewrite fmap_cons. cbn [snd].
    destruct (decide (P v)) as [HP|HP].
    + rewrite filter_cons_True by done. cbn [rbind]. rewrite IH.
      f_equal. simpl length. lia.
    + rewrite filter_cons_False by done. cbn [rbind]. apply IH.
Qed.

End LoopFacts.

(** ** The passes against their reference forms *)

Section PassFacts.
Import Model.

Ltac loop_body :=
  let Hget := fresh in
  intros ? ? ? Hget; unfold bind, getitem, lift, ret; rewrite Hget.

Lemma bind_names {B} (f : list string -> M B) (self : t) :
  bind names f self = f (OD.keys (nodes self)) self.
Proof. done. Qed.

Lemma bind_for_each {S B} (g : string -> Node.t -> S -> result S)
    (body : string -> S -> M S) (f : S -> M B) (self : t) (s : S) :
  OD.wf (nodes self) ->
  (forall k v s, OD.get (nodes self) k = Some v -> body k s self = (g k v s, self)) ->
  bind (for_each (OD.keys (nodes self)) body s) f self
  = match rfold g (nodes self) s with
    | Ok a => f a self
    | Raise e => (Raise e, self)
    end.
Proof.
  intros Hwf Hbody. unfold bind at 1.
  by rewrite (for_each_nodes body g self s Hwf Hbody).
Qed.

Lemma from_prior_spec (m : t) :
  OD.wf (nodes m) -> eval from_prior m = Spec.from_prior m.
Proof.
  intros Hwf. unfold eval, from_prior, Spec.from_prior, Spec.of_type.
  rewrite bind_names.
  rewrite (bind_for_each
    (fun _ v s => if decide (Node.node_type v = coordinate)
                  then rbind (Node.from_prior v) (fun f => Ok (s +:+ f))
                  else Ok s)); [|done|].
  2:{ loop_body. case_decide; [|done]. by destruct (Node.from_prior _). }
  rewrite rfold_collect, rmapM_app. unfold OD.values.
  destruct (rmapM _ (filter _ _)) as [cs|e]; [|done]. cbn [rmap rbind].
  rewrite bind_names.
  rewrite (bind_for_each
    (fun _ v s => if decide (Node.node_type v = derived)
                  then rbind (Node.from_prior v) (fun f => Ok (s +:+ f))
                  else Ok s)); [|done|].
  2:{ loop_body. case_decide; [|done]. by destruct (Node.from_prior _). }
  rewrite rfold_collect.
  destruct (rmapM _ (filter _ _)) as [ds|e]; [|done]. cbn [rmap rbind fst].
  unfold ret. cbn [fst]. by rewrite cat_app.
Qed.

Lemma log_likelihood_spec (m : t) :
  OD.wf (nodes m) -> eval log_likelihood m = Spec.log_likelihood m.
Proof.
  intros Hwf. unfold eval, log_likelihood, Spec.log_likelihood, Spec.of_type.
  cbv zeta. rewrite bind_names.
  rewrite (bind_for_each
    (fun _ v s => if decide (Node.node_type v = data)
                  then rbind (Node.log_density v) (fun f => Ok (s +:+ f))
                  else Ok s)); [|done|].
  2:{ loop_body. case_decide; [|done]. by destruct (Node.log_density _). }
  rewrite rfold_collect. unfold OD.values.
  destruct (rmapM _ (filter _ _)) as [fs|e]; [|done]. cbn [rmap rbind].
  unfold ret. cbn [fst]. by rewrite !append_assoc.
Qed.

Lemma rmapM_Ok {A B} (f : A -> B) (l : list A) :
  rmapM (fun x => Ok (f x)) l = Ok (f <$> l).
Proof. induction l as [|x l IH]; [done|]. cbn [rmapM rbind]. by rewrite IH. Qed.

Lemma description_spec (m : t) :
  OD.wf (nodes m) -> eval description m = Spec.description m.
Proof.
  intros Hwf. unfold eval, description, Spec.description, Spec.of_type.
  cbv zeta. rewrite bind_names.
  rewrite (bind_for_each
    (fun _ v s => if decide (Node.node_type v = coordinate)
                  then rbind (Ok (Spec.description_line v)) (fun f => Ok (s +:+ f))
                  else Ok s)); [|done|].
  2:{ loop_body. by case_decide. }
  rewrite rfold_collect, rmapM_Ok. unfold OD.values.
  cbn [rmap rbind]. unfold ret. cbn [fst]. by rewrite !append_assoc.
Qed.

Lemma print_code_spec (m : t) :
  OD.wf (nodes m) -> eval print_code m = Spec.print_code m.
Proof.
  intros Hwf. unfold eval, print_code, Spec.print_code, Spec.of_type.
  cbv zeta. rewrite bind_names.
  rewrite (bind_for_each
    (fun _ v s => if decide (Node.node_type v = coordinate)
                  then rbind (Ok (Spec.print_line v)) (fun f => Ok (s +:+ f))
                  else Ok s)); [|done|].
  2:{ loop_body. by case_decide. }
  by rewrite rfold_collect, rmapM_Ok.
Qed.

Lemma replace_k (K : string) :
  Py.replace ("if(which == {k})" +:+ Py.nl +:+ "{" +:+ Py.nl) "{k}" K
  = "if(which == " +:+ K +:+ ")" +:+ Py.nl +:+ "{" +:+ Py.nl.
Proof. done. Qed.

Lemma replace_n (N : string) :
  Py.replace ("int which = rng.rand_int({n});" +:+ Py.nl) "{n}" N
  = "int which = rng.rand_int(" +:+ N +:+ ");" +:+ Py.nl.
Proof. done. Qed.

(** The loop of [perturb] that emits one conditional block per coordinate
    and numbers them. *)
Lemma rfold_blocks (es : OrderedDict) (s0 : string) (k0 : Z) :
  rfold (fun _ v '(s, k) =>
           if decide (Node.node_type v = coordinate)
           then rbind (Node.perturb v) (fun p =>
                  Ok (((s +:+ Py.replace ("if(which == {k})" +:+ Py.nl +:+ "{" +:+ Py.nl)
                                         "{k}" (Py.str_int k))
                       +:+ Py.join Py.nl
                             (map (fun x => "    " +:+ x) (Py.splitlines p)))
                      +:+ Py.nl +:+ "}" +:+ Py.nl, k + 1))
           else Ok (s, k))
        es (s0, k0)
  = rmap (fun ps =>
            (s0 +:+ cat (imap (fun i p => Spec.block (k0 + Z.of_nat i) p) ps),
             k0 + Z.of_nat (length ps)))
         (rmapM Node.perturb
            (filter (fun v => Node.node_type v = coordinate) es.*2)).
Proof.
  revert s0 k0. induction es as [|[k v] es IH]; intros s0 k0.
  - simpl. rewrite append_nil_r. do 2 f_equal. lia.
  - cbn [rfold]. rewrite fmap_cons. cbn [snd].
    destruct (decide (Node.node_type v = coordinate)) as [HP|HP].
    + rewrite filter_cons_True by done. cbn [rmapM].
      destruct (Node.perturb v) as [p|e]; [|done]. cbn [rbind]. rewrite IH.
      destruct (rmapM _ (filter _ _)) as [ps|e]; [|done].
      cbn [rmap rbind imap length]. f_equal. f_equal; [|lia].
      rewrite (imap_ext (fun i p => Spec.block (k0 + 1 + Z.of_nat i) p)
                 ((fun i p => Spec.block (k0 + Z.of_nat i) p) ∘ S) ps)
        by (intros; simpl; f_equal; lia).
      change (cat (?x :: ?l)) with (x +:+ cat l).
      rewrite replace_k, Z.add_0_r. unfold Spec.block, Spec.indent.
      by rewrite !append_assoc.
    + rewrite filter_cons_False by done. cbn [rbind]. apply IH.
Qed.

Lemma perturb_spec (m : t) :
  OD.wf (nodes m) -> eval perturb m = Spec.perturb m.
Proof.
  intros Hwf. unfold eval, perturb, Spec.perturb, Spec.of_type.
  cbv zeta. rewrite bind_names.
  rewrite (bind_for_each
    (fun _ v n => if decide (Node.node_type v = coordinate)
                  then Ok (n + 1) else Ok n)); [|done|].
  2:{ loop_body. by case_decide. }
  rewrite rfold_count, Z.add_0_l, bind_names. unfold OD.values.
  rewrite (bind_for_each
    (fun _ v '(s, k) =>
       if decide (Node.node_type v = coordinate)
       then rbind (Node.perturb v) (fun p =>
              Ok (((s +:+ Py.replace ("if(which == {k})" +:+ Py.nl +:+ "{" +:+ Py.nl)
                                     "{k}" (Py.str_int k))
                   +:+ Py.join Py.nl
                         (map (fun x => "    " +:+ x) (Py.splitlines p)))
                  +:+ Py.nl +:+ "}" +:+ Py.nl, k + 1))
       else Ok (s, k))); [|done|].
  2:{ intros k v [s k'] Hget. unfold bind, getitem, lift, ret. rewrite Hget.
      case_decide; [|done]. by destruct (Node.perturb _). }
  rewrite rfold_blocks.
  destruct (rmapM Node.perturb _) as [ps|e]; [|done]. cbn [rmap rbind fst].
  rewrite bind_names.
  rewrite (bind_for_each
    (fun _ v s => if decide (Node.node_type v = derived)
                  then rbind (Node.from_prior v) (fun f => Ok (s +:+ f))
                  else Ok s)); [|done|].
  2:{ loop_body. case_decide; [|done]. by destruct (Node.from_prior _). }
  rewrite rfold_collect.
  destruct (rmapM Node.from_prior _) as [ds|e]; [|done]. cbn [rmap rbind].
  unfold ret. cbn [fst]. rewrite replace_n, !append_assoc. reflexivity.
Qed.

Lemma run_spec (p : pass) (m : t) :
  OD.wf (nodes m) -> eval (run p) m = Spec.run p m.
Proof.
  intros Hwf. destruct p; cbn [run Spec.run].
  - by apply from_prior_spec.
  - by apply perturb_spec.
  - by apply log_likelihood_spec.
  - by apply print_code_spec.
  - by apply description_spec.
Qed.

(** Registering a node of another role under a new name leaves the nodes
    of a role as they were. *)
Lemma of_type_add_fresh (ty : NodeType) (m : t) (n : Node.t) :
  Node.name n ∉ OD.keys (nodes m) ->
  Node.node_type n <> ty ->
  Spec.of_type ty (exec (add_node n) m) = Spec.of_type ty m.
Proof.
  intros Hfresh Hty. unfold Spec.of_type, exec, add_node, OD.values. cbn [snd nodes].
  rewrite set_fresh by done. rewrite fmap_app, filter_app. cbn [fmap list_fmap snd].
  rewrite filter_cons_False by done. by rewrite filter_nil, app_nil_r.
Qed.

End PassFacts.

(** ** Passes do not write to the object *)

Section ReadOnly.
Import Model.

Lemma readonly_ret {A} (a : A) : readonly (ret a).
Proof. done. Qed.

Lemma readonly_lift {A} (r : result A) : readonly (lift r).
Proof. done. Qed.

Lemma readonly_names : readonly names.
Proof. done. Qed.

Lemma readonly_getitem (name : string) : readonly (getitem name).
Proof. done. Qed.

Lemma readonly_bind {A B} (c : M A) (f : A -> M B) :
  readonly c -> (forall a, readonly (f a)) -> readonly (bind c f).
Proof.
  intros Hc Hf self. unfold exec, bind. specialize (Hc self). unfold exec in Hc.
  destruct (c self) as [[a|e] self']; simpl in Hc; subst self'; [apply Hf|done].
Qed.

Lemma readonly_for_each {S} (ks : list string) (body : string -> S -> M S) (s : S) :
  (forall k s, readonly (body k s)) -> readonly (for_each ks body s).
Proof.
  intros Hbody. revert s. induction ks as [|k ks IH]; intros s.
  - apply readonly_ret.
  - cbn [for_each]. by apply readonly_bind.
Qed.

Ltac readonly_step :=
  first
    [ apply readonly_ret | apply readonly_lift | apply readonly_names
    | apply readonly_getitem
    | apply readonly_for_each; intros ? ?
    | apply readonly_bind; [|intros ?]
    | case_decide
    | match goal with
      | p : (_ * _)%type |- _ => destruct p
      | |- readonly (if ?b then _ else _) => destruct b
      end ].

Lemma readonly_run (p : pass) : readonly (run p).
Proof.
  destruct p; cbn [run].
  - unfold from_prior. repeat readonly_step.
  - unfold perturb. repeat readonly_step.
  - unfold log_likelihood. repeat readonly_step.
  - unfold print_code. repeat readonly_step.
  - unfold description. repeat readonly_step.
Qed.

End ReadOnly.

(** ** Distribution fragments *)

Section FragmentFacts.

Ltac side := first [done | simpl; lia].
Ltac subst_text :=
  repeat first [ progress simpl
               | rewrite replace_from_sep by side
               | rewrite contains_sep by side
               | rewrite append_assoc ].

Lemma uniform_perturb_text (a b : pyval) :
  let B := str b in
  let A := Py.replace (str a) "{b}" B in
  Uniform.perturb (Uniform.Build a b)
  = "{x} += (" +:+ B +:+ " - (" +:+ A +:+ "))*rng.randh();" +:+ Py.nl
    +:+ "wrap({x}, " +:+ A +:+ ", " +:+ B +:+ ");" +:+ Py.nl.
Proof.
  intros B A. subst A B.
  unfold Uniform.perturb, Uniform.insert_parameters, Py.replace, Py.nl.
  cbn [Uniform.a Uniform.b].
  generalize (str a) as A. generalize (str b) as B. intros B A.
  subst_text. reflexivity.
Qed.

Lemma loguniform_perturb_text (a b : pyval) :
  let B := str b in
  let A := Py.replace (str a) "{b}" B in
  LogUniform.perturb (LogUniform.Build a b)
  = "{x} = log({x});" +:+ Py.nl
    +:+ "{x} += log((" +:+ B +:+ ")/(" +:+ A +:+ "))*rng.randh();" +:+ Py.nl
    +:+ "wrap({x}, log(" +:+ A +:+ "), log(" +:+ B +:+ "));" +:+ Py.nl
    +:+ "{x} = exp({x});" +:+ Py.nl.
Proof.
  intros B A. subst A B.
  unfold LogUniform.perturb, LogUniform.insert_parameters, Py.replace, Py.nl.
  cbn [LogUniform.a LogUniform.b].
  generalize (str a) as A. generalize (str b) as B. intros B A.
  subst_text. reflexivity.
Qed.

Lemma uniform_perturb_log_H (a b : pyval) :
  let B := str b in
  let A := Py.replace (str a) "{b}" B in
  Py.contains "log_H" (Uniform.perturb (Uniform.Build a b))
  = (Py.contains "log_H" A || Py.contains "log_H" B).
Proof.
  intros B A. rewrite uniform_perturb_text. fold B. fold A.
  generalize A as A'. generalize B as B'. clear. intros B A. unfold Py.nl.
  subst_text.
  destruct (Py.contains "log_H" A), (Py.contains "log_H" B); reflexivity.
Qed.

Lemma loguniform_perturb_log_H (a b : pyval) :
  let B := str b in
  let A := Py.replace (str a) "{b}" B in
  Py.contains "log_H" (LogUniform.perturb (LogUniform.Build a b))
  = (Py.contains "log_H" A || Py.contains "log_H" B).
Proof.
  intros B A. rewrite loguniform_perturb_text. fold B. fold A.
  generalize A as A'. generalize B as B'. clear. intros B A. unfold Py.nl.
  subst_text.
  destruct (Py.contains "log_H" A), (Py.contains "log_H" B); reflexivity.
Qed.

Lemma normal_perturb_text (mu sigma : pyval) :
  let S := str sigma in
  let M := Py.replace (str mu) "{sigma}" S in
  let T := "-0.5*pow((({x}) - (" +:+ M +:+ "))/(" +:+ S +:+ "), 2)" in
  Normal.perturb (Normal.Build mu sigma)
  = "log_H -= " +:+ T +:+ ";" +:+ Py.nl
    +:+ "{x} += (" +:+ S +:+ ")*rng.randh();" +:+ Py.nl
    +:+ "log_H += " +:+ T +:+ ";" +:+ Py.nl.
Proof.
  intros S M T. subst S M T.
  unfold Normal.perturb, Normal.insert_parameters, Py.replace, Py.nl.
  cbn [Normal.mu Normal.sigma].
  generalize (str mu) as M. generalize (str sigma) as S. intros S M.
  subst_text. reflexivity.
Qed.

Lemma normal_log_density_text (mu sigma : pyval) :
  let S := str sigma in
  let M := Py.replace (str mu) "{sigma}" S in
  let Q := "pow((({x}) - (" +:+ M +:+ "))/(" +:+ S +:+ "), 2)" in
  Normal.log_density (Normal.Build mu sigma)
  = "logp += -0.5*log(2*M_PI) - log(" +:+ S +:+ ") - 0.5*" +:+ Q +:+ ";" +:+ Py.nl.
Proof.
  intros S M Q. subst S M Q.
  unfold Normal.log_density, Normal.insert_parameters, Py.replace, Py.nl.
  cbn [Normal.mu Normal.sigma].
  generalize (str mu) as M. generalize (str sigma) as S. intros S M.
  subst_text. reflexivity.
Qed.

Lemma normal_perturb_log_H (mu sigma : pyval) :
  Py.contains "log_H" (Normal.perturb (Normal.Build mu sigma)) = true.
Proof. by rewrite normal_perturb_text. Qed.

Lemma deterministic_perturb_text (formula : string) :
  Deterministic.perturb (Deterministic.Build formula)
  = "{x} = " +:+ formula +:+ ";" +:+ Py.nl.
Proof.
  unfold Deterministic.perturb, Deterministic.from_prior, Py.replace, Py.nl.
  cbn [Deterministic.formula]. reflexivity.
Qed.

Lemma deterministic_perturb_log_H (formula : string) :
  Py.contains "log_H" (Deterministic.perturb (Deterministic.Build formula))
  = Py.contains "log_H" formula.
Proof.
  rewrite deterministic_perturb_text. unfold Py.nl.
  change ("{x} = " +:+ formula +:+ ";" +:+ String "010" EmptyString)
    with ("{x} =" +:+ String " " (formula +:+ String ";" (String "010" EmptyString))).
  rewrite contains_sep by done.
  change (Py.contains "log_H" (String " " (formula +:+ String ";" (String "010" EmptyString))))
    with (Py.contains "log_H" (formula +:+ String ";" (String "010" EmptyString))).
  rewrite contains_sep by done.
  change (Py.contains "log_H" "{x} =") with false.
  change (Py.contains "log_H" (String ";" (String "010" EmptyString))) with false.
  by rewrite orb_false_r.
Qed.

End FragmentFacts.

(** ** The embedding on concrete inputs *)

Section Examples.
Import Model.

Example replace_leftmost : Py.replace "aaa" "aa" "b" = "ba".
Proof. reflexivity. Qed.

Example replace_empty_pattern : Py.replace "abc" EmptyString "-" = "-a-b-c-".
Proof. reflexivity. Qed.

Example splitlines_blank_and_final :
  Py.splitlines ("a" +:+ Py.nl +:+ Py.nl +:+ "b" +:+ Py.nl) = ["a"; EmptyString; "b"].
Proof. reflexivity. Qed.

Example splitlines_crlf :
  Py.splitlines ("a" +:+ String "013" Py.nl +:+ "b") = ["a"; "b"].
Proof. reflexivity. Qed.

Example split_bracket : Py.split_from "[" 0 "x[12]" = ["x"; "12]"].
Proof. reflexivity. Qed.

Example drop_last_short : Py.drop_last 5 "abc" = EmptyString.
Proof. reflexivity. Qed.

Example str_int_negative : Py.str_int (-120) = "-120".
Proof. reflexivity. Qed.

Example node_init_indexed :
  Node.init py_float "x" None coordinate 12
  = Ok (Node.Build py_float "x[12]" 12 None coordinate).
Proof. reflexivity. Qed.

Example uniform_from_prior_01 :
  eval from_prior
    (build [Node.Build py_float "x" 0
              (Some (DUniform (Uniform.Build (PyInt 0) (PyInt 1)))) coordinate])
  = Ok ("x = 0 + (1 - (0))*rng.rand();" +:+ Py.nl).
Proof. reflexivity. Qed.

Example demo_from_prior :
  eval from_prior Demo.model
  = Ok ("x = 0 + (10 - (0))*rng.rand();" +:+ Py.nl +:+ "y = 2*x;" +:+ Py.nl).
Proof. reflexivity. Qed.

Example demo_log_likelihood :
  eval log_likelihood Demo.model
  = Ok ("double logp = 0.0;" +:+ Py.nl +:+ Py.nl
        +:+ "logp += -0.5*log(2*M_PI) - log(1) - 0.5*pow(((d) - (y))/(1), 2);"
        +:+ Py.nl +:+ Py.nl +:+ "return logp;").
Proof. reflexivity. Qed.

Example demo_description :
  eval description Demo.model
  = Ok ("string s;" +:+ Py.nl +:+ "s += " +:+ Py.dq +:+ "x" +:+ Py.dq +:+ ";"
        +:+ Py.nl +:+ "return s;").
Proof. reflexivity. Qed.

Example prior_info_has_no_fragment : Node.from_prior Demo.k = Raise AttributeError.
Proof. reflexivity. Qed.

Example deterministic_has_no_density :
  Node.log_density Demo.y = Raise AttributeError.
Proof. reflexivity. Qed.

End Examples.

(** * The statements of the specification *)

Section Claims.
Import Model.

(** C1, as stated, fails: the fragments that [Uniform(0, 1).perturb()] and
    [LogUniform(1, 10).perturb()] return do not mention [log_H] at all, so
    they hold no statement accumulating into it. *)
Lemma C1_bounded_perturb_has_no_log_H :
  Py.contains "log_H" (Uniform.perturb (Uniform.Build (PyInt 0) (PyInt 1))) = false
  /\ Py.contains "log_H"
       (LogUniform.perturb (LogUniform.Build (PyInt 1) (PyInt 10))) = false.
Proof. split; vm_compute; reflexivity. Qed.

(** C1, amended: for [Uniform(a, b)] and [LogUniform(a, b)], [perturb()]
    returns exactly the value-update statement followed by the wrap
    statement (for the log-uniform case between the statements taking the
    logarithm and the exponential of the variable), with the parameters
    substituted, and nothing else.  No statement on [log_H] is emitted:
    [log_H] occurs in the fragment only if it occurs in the substituted
    parameter texts.  Among the distributions only [Normal.perturb] emits
    statements on [log_H]: its fragment is a statement subtracting a term
    from [log_H], the value update, and a statement adding the same term
    to [log_H], so [log_H] always occurs in it, while
    [Deterministic.perturb] returns the single assignment of the formula,
    in which [log_H] occurs only if it occurs in the formula.  The text
    standing for [a] is [str(a)] after the substitution of [b] has passed
    over it, which is [str(a)] itself when it holds no brace (and likewise
    for [mu] and [sigma]). *)
Theorem C1_bounded_perturb_is_update_and_wrap (a b mu sigma : pyval)
    (formula : string) :
  let B := str b in
  let A := Py.replace (str a) "{b}" B in
  let S := str sigma in
  let M := Py.replace (str mu) "{sigma}" S in
  let T := "-0.5*pow((({x}) - (" +:+ M +:+ "))/(" +:+ S +:+ "), 2)" in
  Uniform.perturb (Uniform.Build a b)
  = "{x} += (" +:+ B +:+ " - (" +:+ A +:+ "))*rng.randh();" +:+ Py.nl
    +:+ "wrap({x}, " +:+ A +:+ ", " +:+ B +:+ ");" +:+ Py.nl
  /\ LogUniform.perturb (LogUniform.Build a b)
     = "{x} = log({x});" +:+ Py.nl
       +:+ "{x} += log((" +:+ B +:+ ")/(" +:+ A +:+ "))*rng.randh();" +:+ Py.nl
       +:+ "wrap({x}, log(" +:+ A +:+ "), log(" +:+ B +:+ "));" +:+ Py.nl
       +:+ "{x} = exp({x});" +:+ Py.nl
  /\ Py.contains "log_H" (Uniform.perturb (Uniform.Build a b))
     = (Py.contains "log_H" A || Py.contains "log_H" B)
  /\ Py.contains "log_H" (LogUniform.perturb (LogUniform.Build a b))
     = (Py.contains "log_H" A || Py.contains "log_H" B)
  /\ Normal.perturb (Normal.Build mu sigma)
     = "log_H -= " +:+ T +:+ ";" +:+ Py.nl
       +:+ "{x} += (" +:+ S +:+ ")*rng.randh();" +:+ Py.nl
       +:+ "log_H += " +:+ T +:+ ";" +:+ Py.nl
  /\ Py.contains "log_H" (Normal.perturb (Normal.Build mu sigma)) = true
  /\ Deterministic.perturb (Deterministic.Build formula)
     = "{x} = " +:+ formula +:+ ";" +:+ Py.nl
  /\ Py.contains "log_H" (Deterministic.perturb (Deterministic.Build formula))
     = Py.contains "log_H" formula
  /\ (Py.has_char "{" (str a) = false -> A = str a)
  /\ (Py.has_char "{" (str mu) = false -> M = str mu).
Proof.
  intros B A S M T. split_and!.
  - apply uniform_perturb_text.
  - apply loguniform_perturb_text.
  - apply uniform_perturb_log_H.
  - apply loguniform_perturb_log_H.
  - apply normal_perturb_text.
  - apply normal_perturb_log_H.
  - apply deterministic_perturb_text.
  - apply deterministic_perturb_log_H.
  - apply replace_absent.
  - apply replace_absent.
Qed.

Lemma C1_witness :
  Py.has_char "{" (str (PyInt 0)) = false
  /\ Py.replace (str (PyInt 0)) "{b}" (str (PyInt 1)) = str (PyInt 0).
Proof.
  split; [reflexivity|].
  apply (proj1 (proj2 (proj2 (proj2 (proj2 (proj2 (proj2 (proj2 (proj2
           (C1_bounded_perturb_is_update_and_wrap (PyInt 0) (PyInt 1)
              (PyStr "y") (PyInt 1) "2*x")))))))))).
  reflexivity.
Defined.

(** C2, as the code has it: with exactly [x[1]], [x[2]] and [x[3]]
    registered as coordinates, the vector names are [{x}] and there is no
    scalar name, but [get_vector_size("x")] returns 0, not 3: it counts the
    registry names equal to ["x"], and the names are ["x[1]"], ["x[2]"]
    and ["x[3]"]. *)
Theorem C2_vector_size_counts_no_member (dt : PyType) (prior : option Distribution) :
  let m := Demo.vector dt prior in
  (Node.init dt "x" prior coordinate 1 = Ok (Demo.xi dt prior 1)
   /\ Node.init dt "x" prior coordinate 2 = Ok (Demo.xi dt prior 2)
   /\ Node.init dt "x" prior coordinate 3 = Ok (Demo.xi dt prior 3))
  /\ eval (get_vector_names coordinate) m = Ok {[ "x" ]}
  /\ eval (get_scalar_names coordinate) m = Ok ∅
  /\ eval (get_vector_size "x") m = Ok 0.
Proof.
  intros m. subst m. split_and!; vm_compute; reflexivity.
Qed.

(** C3: [perturb()] returns the declaration of [log_H] set to zero, the
    draw of [which] over as many values as there are coordinates, then for
    each coordinate in registration order, numbered from 0, a block
    guarded by [which == k] holding the node's [perturb()] fragment
    (re-indented), then the [from_prior()] fragment of every derived node
    in registration order, then the statement returning [log_H]; it raises
    where a fragment asked for raises.  With exactly one coordinate the
    draw is [rng.rand_int(1)] and the only guard is [which == 0]. *)
Theorem C3_perturb_layout (m : t) :
  OD.wf (nodes m) ->
  eval perturb m = Spec.perturb m
  /\ forall c, Spec.of_type coordinate m = [c] ->
       eval perturb m
       = rbind (Node.perturb c) (fun p =>
         rbind (rmapM Node.from_prior (Spec.of_type derived m)) (fun ds =>
         Ok ("double log_H = 0.0;" +:+ Py.nl
             +:+ "int which = rng.rand_int(1);" +:+ Py.nl
             +:+ "if(which == 0)" +:+ Py.nl +:+ "{" +:+ Py.nl
             +:+ Spec.indent p +:+ Py.nl +:+ "}" +:+ Py.nl
             +:+ cat ds
             +:+ "return log_H;" +:+ Py.nl))).
Proof.
  intros Hwf. split; [by apply perturb_spec|].
  intros c Hc. rewrite perturb_spec by done. unfold Spec.perturb.
  rewrite Hc. cbn [rmapM length].
  destruct (Node.perturb c) as [p|e]; [|done]. cbn [rbind rmap].
  destruct (rmapM Node.from_prior _) as [ds|e]; [|done]. cbn [rbind imap cat foldr].
  unfold Spec.block. f_equal. rewrite !append_assoc. reflexivity.
Qed.

Lemma C3_witness :
  OD.wf (nodes Demo.model)
  /\ Spec.of_type coordinate Demo.model = [Demo.x]
  /\ eval perturb Demo.model = Spec.perturb Demo.model
  /\ eval perturb Demo.model
     = Ok ("double log_H = 0.0;" +:+ Py.nl
           +:+ "int which = rng.rand_int(1);" +:+ Py.nl
           +:+ "if(which == 0)" +:+ Py.nl +:+ "{" +:+ Py.nl
           +:+ "    x += (10 - (0))*rng.randh();" +:+ Py.nl
           +:+ "    wrap(x, 0, 10);" +:+ Py.nl +:+ "}" +:+ Py.nl
           +:+ "y = 2*x;" +:+ Py.nl
           +:+ "return log_H;" +:+ Py.nl).
Proof.
  assert (OD.wf (nodes Demo.model)) as Hwf by (apply wf_dec; vm_compute; reflexivity).
  assert (Spec.of_type coordinate Demo.model = [Demo.x]) as Hc
    by (vm_compute; reflexivity).
  split_and!; [exact Hwf|exact Hc| |].
  - exact (proj1 (C3_perturb_layout Demo.model Hwf)).
  - exact (proj2 (C3_perturb_layout Demo.model Hwf) Demo.x Hc).
Defined.

(** C4: [from_prior()] returns the concatenation of the [from_prior()]
    fragments of the coordinates in registration order followed by those
    of the derived nodes in registration order (and raises where one of
    them raises): the coordinates come first however the registrations
    were interleaved, and data and prior-info nodes contribute nothing, so
    registering one more of them under a new name changes nothing. *)
Theorem C4_from_prior_coordinates_then_derived (m : t) :
  OD.wf (nodes m) ->
  eval from_prior m
  = rmap cat (rmapM Node.from_prior
                (Spec.of_type coordinate m ++ Spec.of_type derived m))
  /\ forall n : Node.t,
       Node.name n ∉ OD.keys (nodes m) ->
       Node.node_type n = data \/ Node.node_type n = prior_info ->
       eval from_prior (exec (add_node n) m) = eval from_prior m.
Proof.
  intros Hwf. split; [by apply from_prior_spec|].
  intros n Hfresh Hty.
  rewrite !from_prior_spec; [|done|by apply set_wf].
  unfold Spec.from_prior. rewrite !of_type_add_fresh; [done|done|..].
  - destruct Hty as [-> | ->]; done.
  - done.
  - destruct Hty as [-> | ->]; done.
Qed.

Lemma C4_witness :
  OD.wf (nodes (build [Demo.y; Demo.d; Demo.x]))
  /\ (Node.name Demo.k ∉ OD.keys (nodes (build [Demo.y; Demo.d; Demo.x])))
  /\ eval from_prior (build [Demo.y; Demo.d; Demo.x])
     = rmap cat (rmapM Node.from_prior [Demo.x; Demo.y])
  /\ eval from_prior (exec (add_node Demo.k) (build [Demo.y; Demo.d; Demo.x]))
     = eval from_prior (build [Demo.y; Demo.d; Demo.x]).
Proof.
  assert (OD.wf (nodes (build [Demo.y; Demo.d; Demo.x]))) as Hwf
    by (apply wf_dec; vm_compute; reflexivity).
  assert (Node.name Demo.k ∉ OD.keys (nodes (build [Demo.y; Demo.d; Demo.x])))
    as Hfresh by (apply (bool_decide_eq_true_1 _); vm_compute; reflexivity).
  split_and!; [exact Hwf|exact Hfresh| |].
  - exact (proj1 (C4_from_prior_coordinates_then_derived _ Hwf)).
  - exact (proj2 (C4_from_prior_coordinates_then_derived _ Hwf) Demo.k Hfresh
             (or_intror eq_refl)).
Defined.

(** C5: [log_likelihood()] returns the zero-initialisation of [logp], the
    [log_density()] fragment of every data node in registration order, and
    the return of [logp] (and raises where a fragment raises); registering
    a further node of role prior-info or coordinate under a name not yet
    in the registry does not change what it returns. *)
Theorem C5_log_likelihood_data_only (m : t) :
  OD.wf (nodes m) ->
  eval log_likelihood m
  = rmap (fun fs => "double logp = 0.0;" +:+ Py.nl +:+ Py.nl
                    +:+ cat fs +:+ Py.nl +:+ "return logp;")
         (rmapM Node.log_density (Spec.of_type data m))
  /\ forall n : Node.t,
       Node.name n ∉ OD.keys (nodes m) ->
       Node.node_type n = prior_info \/ Node.node_type n = coordinate ->
       eval log_likelihood (exec (add_node n) m) = eval log_likelihood m.
Proof.
  intros Hwf. split; [by apply log_likelihood_spec|].
  intros n Hfresh Hty.
  rewrite !log_likelihood_spec; [|done|by apply set_wf].
  unfold Spec.log_likelihood. rewrite of_type_add_fresh; [done..|].
  destruct Hty as [-> | ->]; done.
Qed.

Lemma C5_witness :
  OD.wf (nodes Demo.model)
  /\ (Node.name Demo.k ∉ OD.keys (nodes Demo.model))
  /\ eval log_likelihood (exec (add_node Demo.k) Demo.model)
     = eval log_likelihood Demo.model.
Proof.
  assert (OD.wf (nodes Demo.model)) as Hwf by (apply wf_dec; vm_compute; reflexivity).
  assert (Node.name Demo.k ∉ OD.keys (nodes Demo.model)) as Hfresh
    by (apply (bool_decide_eq_true_1 _); vm_compute; reflexivity).
  split_and!; [exact Hwf|exact Hfresh|].
  exact (proj2 (C5_log_likelihood_data_only Demo.model Hwf) Demo.k Hfresh
           (or_introl eq_refl)).
Defined.

(** C6: [Normal(mu, sigma).perturb()] is exactly three statements, in this
    order: [log_H -= T;], the mutation [{x} += (sigma)*rng.randh();], and
    [log_H += T;], where [T] is the same text both times, [-0.5*Q] with
    [Q = pow((({x}) - (mu))/(sigma), 2)], the term of the log-density that
    depends on the variable ([log_density()] accumulates
    [-0.5*log(2*M_PI) - log(sigma) - 0.5*Q]).  The first statement is
    evaluated at the value before the mutation and the last at the value
    after it, so [log_H] changes by [T] at the new value minus [T] at the
    old one.  The text standing for [mu] is [str(mu)] after the
    substitution of [sigma] has passed over it, which is [str(mu)] itself
    when it holds no brace. *)
Theorem C6_normal_perturb_brackets_mutation (mu sigma : pyval) :
  let S := str sigma in
  let M := Py.replace (str mu) "{sigma}" S in
  let Q := "pow((({x}) - (" +:+ M +:+ "))/(" +:+ S +:+ "), 2)" in
  let T := "-0.5*" +:+ Q in
  Normal.perturb (Normal.Build mu sigma)
  = "log_H -= " +:+ T +:+ ";" +:+ Py.nl
    +:+ "{x} += (" +:+ S +:+ ")*rng.randh();" +:+ Py.nl
    +:+ "log_H += " +:+ T +:+ ";" +:+ Py.nl
  /\ Normal.log_density (Normal.Build mu sigma)
     = "logp += -0.5*log(2*M_PI) - log(" +:+ S +:+ ") - 0.5*" +:+ Q +:+ ";" +:+ Py.nl
  /\ (Py.has_char "{" (str mu) = false -> M = str mu).
Proof.
  intros S M Q T. split_and!.
  - apply normal_perturb_text.
  - apply normal_log_density_text.
  - apply replace_absent.
Qed.

Lemma C6_witness :
  Py.has_char "{" (str (PyStr "y")) = false
  /\ Py.replace (str (PyStr "y")) "{sigma}" (str (PyInt 1)) = str (PyStr "y").
Proof.
  split; [reflexivity|].
  apply (C6_normal_perturb_brackets_mutation (PyStr "y") (PyInt 1)).
  reflexivity.
Defined.

(** C7: constructing a node of role prior-info with a distribution raises
    (the assertion fails and no node is produced); with no distribution
    the construction succeeds. *)
Theorem C7_prior_info_takes_no_distribution
    (dt : PyType) (name : string) (d : Distribution) (index : Z) :
  Node.init dt name (Some d) prior_info index = Raise AssertionError
  /\ Node.init dt name None prior_info index
     = Ok (Node.Build dt
             (if index >? 0 then name +:+ "[" +:+ Py.str_int index +:+ "]" else name)
             index None prior_info).
Proof. done. Qed.

(** C8: each of the five passes leaves the model as it found it, so
    running a pass again returns the same string, and running any pass
    after any other returns what it returns on its own. *)
Theorem C8_passes_are_pure (p : pass) (m : t) :
  exec (run p) m = m
  /\ eval (run p) (exec (run p) m) = eval (run p) m
  /\ forall q : pass, eval (run q) (exec (run p) m) = eval (run q) m.
Proof.
  pose proof (readonly_run p m) as H. split_and!; [done|by rewrite H|].
  intros q. by rewrite H.
Qed.

(** C9: on a model without coordinates, [description()] cuts the last five
    characters off the declaration itself and returns the text [strin]
    followed by a double quote and a semicolon, then a line feed and
    [return s;]. *)
Theorem C9_description_without_coordinates (m : t) :
  OD.wf (nodes m) ->
  Spec.of_type coordinate m = [] ->
  eval description m = Ok ("strin" +:+ Py.dq +:+ ";" +:+ Py.nl +:+ "return s;").
Proof.
  intros Hwf Hnone. rewrite description_spec by done.
  unfold Spec.description. by rewrite Hnone.
Qed.

Lemma C9_witness :
  OD.wf (nodes Demo.no_coordinates)
  /\ Spec.of_type coordinate Demo.no_coordinates = []
  /\ eval description Demo.no_coordinates
     = Ok ("strin" +:+ Py.dq +:+ ";" +:+ Py.nl +:+ "return s;").
Proof.
  assert (OD.wf (nodes Demo.no_coordinates)) as Hwf
    by (apply wf_dec; vm_compute; reflexivity).
  assert (Spec.of_type coordinate Demo.no_coordinates = []) as Hnone
    by (vm_compute; reflexivity).
  split_and!; [exact Hwf|exact Hnone|].
  exact (C9_description_without_coordinates _ Hwf Hnone).
Defined.

(** C10: when the name of the node is already the [i]-th name of the
    registry, [add_node] stores the node at place [i] and changes nothing
    else: the names and their order are as before, the values are as
    before but for the [i]-th, which is the new node, and every other name
    still maps to the node it mapped to.  Every pass then returns its
    reference form over these values, with the new node's fragment where
    the old one's stood. *)
Theorem C10_add_node_replaces_in_place (m : t) (n : Node.t) (i : nat) :
  OD.wf (nodes m) ->
  OD.keys (nodes m) !! i = Some (Node.name n) ->
  let m' := exec (add_node n) m in
  nodes m' = <[i := (Node.name n, n)]> (nodes m)
  /\ OD.keys (nodes m') = OD.keys (nodes m)
  /\ OD.values (nodes m') = <[i := n]> (OD.values (nodes m))
  /\ OD.get (nodes m') (Node.name n) = Some n
  /\ (forall k, k <> Node.name n -> OD.get (nodes m') k = OD.get (nodes m) k)
  /\ OD.wf (nodes m')
  /\ (forall p : pass, eval (run p) m' = Spec.run p m').
Proof.
  intros Hwf Hi m'.
  assert (nodes m' = <[i := (Node.name n, n)]> (nodes m)) as Hm'
    by (by apply set_present).
  assert (OD.wf (nodes m')) as Hwf' by (by apply set_wf).
  split_and!.
  - done.
  - rewrite Hm'. unfold OD.keys in *. rewrite list_fmap_insert. cbn [fst].
    by apply list_insert_id.
  - rewrite Hm'. unfold OD.values. by rewrite list_fmap_insert.
  - subst m'. unfold exec, add_node. cbn [snd nodes].
    rewrite get_set. by rewrite decide_True.
  - intros k Hk. subst m'. unfold exec, add_node. cbn [snd nodes].
    rewrite get_set. by rewrite decide_False.
  - done.
  - intros p. by apply run_spec.
Qed.

Lemma C10_witness :
  OD.wf (nodes Demo.model)
  /\ OD.keys (nodes Demo.model) !! 0%nat = Some (Node.name Demo.x')
  /\ OD.values (nodes (exec (add_node Demo.x') Demo.model))
     = <[0%nat := Demo.x']> (OD.values (nodes Demo.model)).
Proof.
  assert (OD.wf (nodes Demo.model)) as Hwf by (apply wf_dec; vm_compute; reflexivity).
  split_and!; [exact Hwf|reflexivity|].
  exact (proj1 (proj2 (proj2
    (C10_add_node_replaces_in_place Demo.model Demo.x' 0 Hwf eq_refl)))).
Defined.

End Claims.

(** * Further properties *)

(** ** Auxiliary facts *)

Section FurtherFacts.
Import Model.

Lemma set_set (d : OrderedDict) (k : string) (v1 v2 : Node.t) :
  OD.set (OD.set d k v1) k v2 = OD.set d k v2.
Proof.
  induction d as [|[k' v'] d IH]; simpl.
  - by rewrite String.eqb_refl.
  - destruct (String.eqb_spec k k') as [->|Hne]; simpl.
    + by rewrite String.eqb_refl.
    + destruct (String.eqb_spec k k'); [done|]. by rewrite IH.
Qed.

Lemma get_build_snoc (ns : list Node.t) (n : Node.t) (k : string) :
  OD.get (nodes (build (ns ++ [n]))) k
  = if decide (k = Node.name n) then Some n else OD.get (nodes (build ns)) k.
Proof. rewrite build_snoc. unfold exec, add_node. cbn [snd nodes]. apply get_set. Qed.

Lemma get_build (ns : list Node.t) (k : string) :
  OD.get (nodes (build ns)) k = last (filter (fun n => Node.name n = k) ns).
Proof.
  induction ns as [|n ns IH] using rev_ind; [done|].
  rewrite get_build_snoc, filter_app, IH.
  case_decide as Hk.
  - subst k. rewrite filter_cons_True by done. by rewrite filter_nil, last_snoc.
  - rewrite filter_cons_False by done. by rewrite filter_nil, app_nil_r.
Qed.

Lemma get_elem (d : OrderedDict) (k : string) (v : Node.t) :
  OD.get d k = Some v -> (k, v) ∈ d.
Proof.
  induction d as [|[k' v'] d IH]; simpl; [done|].
  destruct (String.eqb_spec k k') as [->|Hne].
  - intros [= ->]. apply list_elem_of_here.
  - intros H. by apply list_elem_of_further, IH.
Qed.

Lemma build_keyed (ns : list Node.t) :
  forall k v, (k, v) ∈ nodes (build ns) -> k = Node.name v /\ v ∈ ns.
Proof.
  intros k v Hin. apply get_lookup in Hin; [|apply build_wf].
  rewrite get_build in Hin. apply last_Some_elem_of in Hin.
  apply list_elem_of_filter in Hin as [Hn Hin]. done.
Qed.

Lemma split_from_nonempty (sep s : string) (skip : nat) :
  Py.split_from sep skip s <> [].
Proof.
  revert skip. induction s as [|c s IH]; intros skip; [done|].
  destruct skip as [|k]; cbn [Py.split_from]; [|apply IH].
  destruct (Py.startswith sep (String c s)); [done|].
  specialize (IH 0%nat). by destruct (Py.split_from sep 0 s).
Qed.

Lemma item0_split (s : string) :
  item0 (Py.split_from "[" 0 s) = Ok (base_name s).
Proof.
  unfold base_name. pose proof (split_from_nonempty "[" s 0) as H.
  by destruct (Py.split_from "[" 0 s).
Qed.

Lemma union_cons_acc (x : string) (L acc : gset string) :
  ({[ x ]} ∪ L) ∪ acc = L ∪ ({[ x ]} ∪ acc).
Proof. rewrite (comm_L (∪) {[ x ]} L). by rewrite <- (assoc_L (∪)). Qed.

Ltac loop_body :=
  let Hget := fresh in
  intros ? ? ? Hget; unfold bind, getitem, lift, ret; rewrite Hget.

Lemma rfold_vector_names (ty : NodeType) (es : OrderedDict) (acc : gset string) :
  rfold (fun k v (vecs : gset string) =>
           if decide (Node.node_type v = ty) then
             if decide (Node.index v <> 0) then Ok ({[ base_name k ]} ∪ vecs)
             else Ok vecs
           else Ok vecs) es acc
  = Ok (list_to_set
          (base_name <$>
             (filter (fun e : string * Node.t =>
                        Node.node_type e.2 = ty /\ Node.index e.2 <> 0) es).*1)
        ∪ acc).
Proof.
  revert acc. induction es as [|[k v] es IH]; intros acc.
  - simpl. f_equal. by rewrite (left_id_L ∅ (∪)).
  - cbn [rfold].
    destruct (decide (Node.node_type v = ty)) as [Hty|Hty];
      [destruct (decide (Node.index v <> 0)) as [Hi|Hi]|].
    + rewrite filter_cons_True by done. cbn [rbind]. rewrite IH.
      f_equal. rewrite !fmap_cons. cbn [fst]. rewrite list_to_set_cons.
      symmetry. apply union_cons_acc.
    + rewrite filter_cons_False by (cbn; tauto). cbn [rbind]. apply IH.
    + rewrite filter_cons_False by (cbn; tauto). cbn [rbind]. apply IH.
Qed.

Lemma get_vector_names_run (ty : NodeType) (m : t) :
  OD.wf (nodes m) ->
  get_vector_names ty m = (Ok (Grouping.vector_names ty m), m).
Proof.
  intros Hwf. unfold get_vector_names. cbv zeta. rewrite bind_names.
  rewrite (bind_for_each
    (fun k v (vecs : gset string) =>
       if decide (Node.node_type v = ty) then
         if decide (Node.index v <> 0) then Ok ({[ base_name k ]} ∪ vecs)
         else Ok vecs
       else Ok vecs)); [|done|].
  2:{ loop_body. repeat case_decide; try done. by rewrite item0_split. }
  rewrite rfold_vector_names. unfold ret, Grouping.vector_names.
  by rewrite (right_id_L ∅ (∪)).
Qed.

Lemma rfold_scalar_names (ty : NodeType) (vecs : gset string)
    (es : OrderedDict) (acc : gset string) :
  rfold (fun _ v (scalars : gset string) =>
           if decide (Node.node_type v = ty) then
             if decide (base_name (Node.name v) ∉ vecs)
             then Ok ({[ Node.name v ]} ∪ scalars)
             else Ok scalars
           else Ok scalars) es acc
  = Ok (list_to_set
          (Node.name <$>
             filter (fun v => Node.node_type v = ty
                              /\ base_name (Node.name v) ∉ vecs) es.*2)
        ∪ acc).
Proof.
  revert acc. induction es as [|[k v] es IH]; intros acc.
  - simpl. f_equal. by rewrite (left_id_L ∅ (∪)).
  - cbn [rfold]. rewrite fmap_cons. cbn [snd].
    destruct (decide (Node.node_type v = ty)) as [Hty|Hty];
      [destruct (decide (base_name (Node.name v) ∉ vecs)) as [Hi|Hi]|].
    + rewrite filter_cons_True by done. cbn [rbind]. rewrite IH.
      f_equal. rewrite !fmap_cons, list_to_set_cons.
      symmetry. apply union_cons_acc.
    + rewrite filter_cons_False by tauto. cbn [rbind]. apply IH.
    + rewrite filter_cons_False by tauto. cbn [rbind]. apply IH.
Qed.

Lemma get_scalar_names_run (ty : NodeType) (m : t) :
  OD.wf (nodes m) ->
  get_scalar_names ty m = (Ok (Grouping.scalar_names ty m), m).
Proof.
  intros Hwf. unfold get_scalar_names. unfold bind at 1.
  rewrite get_vector_names_run by done. cbv zeta. rewrite bind_names.
  rewrite (bind_for_each
    (fun _ v (scalars : gset string) =>
       if decide (Node.node_type v = ty) then
         if decide (base_name (Node.name v) ∉ Grouping.vector_names ty m)
         then Ok ({[ Node.name v ]} ∪ scalars)
         else Ok scalars
       else Ok scalars)); [|done|].
  2:{ loop_body. case_decide; [|done]. rewrite item0_split.
      by case_decide. }
  rewrite rfold_scalar_names. unfold ret, Grouping.scalar_names, OD.values.
  by rewrite (right_id_L ∅ (∪)).
Qed.

Lemma vector_names_elem (ty : NodeType) (m : t) (b : string) :
  b ∈ Grouping.vector_names ty m <->
  exists k v, (k, v) ∈ nodes m /\ Node.node_type v = ty
              /\ Node.index v <> 0 /\ base_name k = b.
Proof.
  unfold Grouping.vector_names.
  rewrite elem_of_list_to_set, list_elem_of_fmap. split.
  - intros (k & -> & Hk). apply list_elem_of_fmap in Hk as ([k' v] & -> & Hin).
    apply list_elem_of_filter in Hin as [[Hty Hi] Hin]. by exists k', v.
  - intros (k & v & Hin & Hty & Hi & <-). exists k. split; [done|].
    apply list_elem_of_fmap. exists (k, v). split; [done|].
    by apply list_elem_of_filter.
Qed.

Lemma scalar_names_elem (ty : NodeType) (m : t) (s : string) :
  s ∈ Grouping.scalar_names ty m <->
  exists v, v ∈ OD.values (nodes m) /\ Node.node_type v = ty
            /\ Node.name v = s
            /\ base_name (Node.name v) ∉ Grouping.vector_names ty m.
Proof.
  unfold Grouping.scalar_names.
  rewrite elem_of_list_to_set, list_elem_of_fmap. split.
  - intros (v & -> & Hv). apply list_elem_of_filter in Hv as [[Hty Hb] Hin].
    by exists v.
  - intros (v & Hin & Hty & <- & Hb). exists v. split; [done|].
    by apply list_elem_of_filter.
Qed.

Lemma for_each_count (v : string) (ks : list string) (c : Z) (m : t) :
  for_each ks (fun name count =>
                 if String.eqb name v then ret (count + 1) else ret count) c m
  = (Ok (c + Z.of_nat (length (filter (fun k => k = v) ks))), m).
Proof.
  revert c. induction ks as [|k ks IH]; intros c.
  - simpl. unfold ret. do 2 f_equal. lia.
  - cbn [for_each]. unfold bind at 1.
    destruct (String.eqb_spec k v) as [->|Hne].
    + rewrite filter_cons_True by done. unfold ret at 1. rewrite IH.
      do 2 f_equal. simpl length. lia.
    + rewrite filter_cons_False by done. unfold ret at 1. by rewrite IH.
Qed.

Lemma NoDup_count (v : string) (ks : list string) :
  NoDup ks ->
  length (filter (fun k => k = v) ks) = if decide (v ∈ ks) then 1%nat else 0%nat.
Proof.
  induction 1 as [|k ks Hk Hks IH]; [done|].
  destruct (decide (k = v)) as [->|Hne].
  - rewrite filter_cons_True by done. rewrite decide_True by apply list_elem_of_here.
    simpl. f_equal. rewrite IH. by rewrite decide_False.
  - rewrite filter_cons_False by done. rewrite IH.
    destruct (decide (v ∈ ks)) as [Hin|Hnin].
    + rewrite decide_True; [done|by apply list_elem_of_further].
    + rewrite decide_False; [done|]. apply not_elem_of_cons. split; [congruence|done].
Qed.

Lemma get_vector_size_run (v : string) (m : t) :
  OD.wf (nodes m) ->
  get_vector_size v m = (Ok (if decide (v ∈ OD.keys (nodes m)) then 1 else 0), m).
Proof.
  intros Hwf. unfold get_vector_size. cbv zeta. rewrite bind_names.
  unfold bind. rewrite for_each_count, NoDup_count by done. unfold ret.
  by case_decide.
Qed.

Lemma replace_from_skip_absent (a : ascii) (old new s1 s2 : string) :
  Py.has_char a s1 = false ->
  Py.replace_from (String a old) new 0 (s1 +:+ s2)
  = s1 +:+ Py.replace_from (String a old) new 0 s2.
Proof.
  induction s1 as [|b s1 IH]; [done|]. simpl.
  intros [Hb Hs]%orb_false_elim.
  rewrite Ascii.eqb_sym in Hb. rewrite Hb. by rewrite IH.
Qed.

Ltac node_text :=
  repeat first [ progress simpl
               | rewrite replace_from_skip_absent by assumption
               | rewrite append_assoc ].

Lemma uniform_node_text dt (name : string) (i : Z) (ty : NodeType) (a b : pyval) :
  brace_free a -> brace_free b ->
  let A := str a in
  let B := str b in
  let node := Node.Build dt name i (Some (DUniform (Uniform.Build a b))) ty in
  Node.from_prior node
  = Ok (name +:+ " = " +:+ A +:+ " + (" +:+ B +:+ " - (" +:+ A +:+ "))*rng.rand();"
        +:+ Py.nl)
  /\ Node.perturb node
     = Ok (name +:+ " += (" +:+ B +:+ " - (" +:+ A +:+ "))*rng.randh();" +:+ Py.nl
           +:+ "wrap(" +:+ name +:+ ", " +:+ A +:+ ", " +:+ B +:+ ");" +:+ Py.nl)
  /\ Node.log_density node
     = Ok ("if(" +:+ name +:+ " < (" +:+ A +:+ ") || " +:+ name +:+ " > (" +:+ B +:+ "))"
           +:+ Py.nl
           +:+ "    logp = -numeric_limits<double>::max();" +:+ Py.nl
           +:+ "logp += -log(" +:+ B +:+ " - (" +:+ A +:+ "));" +:+ Py.nl).
Proof.
  unfold brace_free. intros Ha Hb. cbv zeta.
  unfold Node.from_prior, Node.perturb, Node.log_density.
  cbn [Node.prior Node.name Prior.from_prior Prior.perturb Prior.log_density rmap rbind].
  unfold Uniform.from_prior, Uniform.perturb, Uniform.log_density,
    Uniform.insert_parameters, Py.replace, Py.nl.
  cbn [Uniform.a Uniform.b].
  revert Ha Hb. generalize (str a) as A. generalize (str b) as B. intros B A Ha Hb.
  split_and!; f_equal; node_text; reflexivity.
Qed.

Lemma loguniform_node_text dt (name : string) (i : Z) (ty : NodeType) (a b : pyval) :
  brace_free a -> brace_free b ->
  let A := str a in
  let B := str b in
  let node := Node.Build dt name i (Some (DLogUniform (LogUniform.Build a b))) ty in
  Node.from_prior node
  = Ok (name +:+ " = exp(log(" +:+ A +:+ ") + log((" +:+ B +:+ ")/(" +:+ A
        +:+ "))*rng.rand());" +:+ Py.nl)
  /\ Node.perturb node
     = Ok (name +:+ " = log(" +:+ name +:+ ");" +:+ Py.nl
           +:+ name +:+ " += log((" +:+ B +:+ ")/(" +:+ A +:+ "))*rng.randh();" +:+ Py.nl
           +:+ "wrap(" +:+ name +:+ ", log(" +:+ A +:+ "), log(" +:+ B +:+ "));" +:+ Py.nl
           +:+ name +:+ " = exp(" +:+ name +:+ ");" +:+ Py.nl)
  /\ Node.log_density node
     = Ok ("if(" +:+ name +:+ " < (" +:+ A +:+ ") || " +:+ name +:+ " > (" +:+ B +:+ "))"
           +:+ Py.nl
           +:+ "    logp = -numeric_limits<double>::max();" +:+ Py.nl
           +:+ "logp += -log(" +:+ name +:+ ") - log((" +:+ B +:+ ")/(" +:+ A +:+ "));"
           +:+ Py.nl).
Proof.
  unfold brace_free. intros Ha Hb. cbv zeta.
  unfold Node.from_prior, Node.perturb, Node.log_density.
  cbn [Node.prior Node.name Prior.from_prior Prior.perturb Prior.log_density rmap rbind].
  unfold LogUniform.from_prior, LogUniform.perturb, LogUniform.log_density,
    LogUniform.insert_parameters, Py.replace, Py.nl.
  cbn [LogUniform.a LogUniform.b].
  revert Ha Hb. generalize (str a) as A. generalize (str b) as B. intros B A Ha Hb.
  split_and!; f_equal; node_text; reflexivity.
Qed.

Lemma normal_node_text dt (name : string) (i : Z) (ty : NodeType) (mu sigma : pyval) :
  brace_free mu -> brace_free sigma ->
  let M := str mu in
  let S := str sigma in
  let Q := "pow(((" +:+ name +:+ ") - (" +:+ M +:+ "))/(" +:+ S +:+ "), 2)" in
  let node := Node.Build dt name i (Some (DNormal (Normal.Build mu sigma))) ty in
  Node.from_prior node
  = Ok (name +:+ " = " +:+ M +:+ " + " +:+ S +:+ "*rng.randn();" +:+ Py.nl)
  /\ Node.perturb node
     = Ok ("log_H -= -0.5*" +:+ Q +:+ ";" +:+ Py.nl
           +:+ name +:+ " += (" +:+ S +:+ ")*rng.randh();" +:+ Py.nl
           +:+ "log_H += -0.5*" +:+ Q +:+ ";" +:+ Py.nl)
  /\ Node.log_density node
     = Ok ("logp += -0.5*log(2*M_PI) - log(" +:+ S +:+ ") - 0.5*" +:+ Q +:+ ";"
           +:+ Py.nl).
Proof.
  unfold brace_free. intros Ha Hb. cbv zeta.
  unfold Node.from_prior, Node.perturb, Node.log_density.
  cbn [Node.prior Node.name Prior.from_prior Prior.perturb Prior.log_density rmap rbind].
  unfold Normal.from_prior, Normal.perturb, Normal.log_density,
    Normal.insert_parameters, Py.replace, Py.nl.
  cbn [Normal.mu Normal.sigma].
  revert Ha Hb. generalize (str mu) as M. generalize (str sigma) as S. intros S M Ha Hb.
  split_and!; f_equal; node_text; reflexivity.
Qed.

Lemma deterministic_node_text dt (name : string) (i : Z) (ty : NodeType) (formula : string) :
  Py.has_char "{" formula = false ->
  let node :=
    Node.Build dt name i (Some (DDeterministic (Deterministic.Build formula))) ty in
  Node.from_prior node = Ok (name +:+ " = " +:+ formula +:+ ";" +:+ Py.nl)
  /\ Node.perturb node = Node.from_prior node
  /\ Node.log_density node = Raise AttributeError.
Proof.
  intros Hf. cbv zeta.
  unfold Node.from_prior, Node.perturb, Node.log_density.
  cbn [Node.prior Node.name Prior.from_prior Prior.perturb Prior.log_density rmap rbind].
  unfold Deterministic.perturb, Deterministic.from_prior, Py.replace, Py.nl.
  cbn [Deterministic.formula].
  split_and!; [|done..]. f_equal. node_text. reflexivity.
Qed.

(** Bracket-free prefixes *)

Lemma split_from_absent (a : ascii) (s : string) :
  Py.has_char a s = false -> Py.split_from (String a EmptyString) 0 s = [s].
Proof.
  induction s as [|c s IH]; [done|]. simpl.
  intros [Hc Hs]%orb_false_elim. rewrite Ascii.eqb_sym in Hc. rewrite Hc.
  by rewrite IH.
Qed.

Lemma split_from_first (a : ascii) (b r : string) :
  Py.has_char a b = false ->
  exists ls, Py.split_from (String a EmptyString) 0 (b +:+ String a r) = b :: ls.
Proof.
  induction b as [|c b IH].
  - intros _. simpl. rewrite Ascii.eqb_refl. eauto.
  - simpl. intros [Hc Hs]%orb_false_elim. rewrite Ascii.eqb_sym in Hc. rewrite Hc.
    destruct (IH Hs) as [ls ->]. eauto.
Qed.

Lemma base_name_plain (s : string) : Py.has_char "[" s = false -> base_name s = s.
Proof. intros H. unfold base_name. by rewrite split_from_absent. Qed.

Lemma base_name_bracket (b r : string) :
  Py.has_char "[" b = false -> base_name (b +:+ "[" +:+ r) = b.
Proof.
  intros H. unfold base_name. change ("[" +:+ r) with (String "[" r).
  by destruct (split_from_first "[" b r H) as [ls ->].
Qed.

Lemma node_init_ok dt (base : string) (p : option Distribution) (ty : NodeType) (i : Z) :
  ty <> prior_info \/ p = None ->
  Node.init dt base p ty i
  = Ok (Node.Build dt
          (if i >? 0 then base +:+ "[" +:+ Py.str_int i +:+ "]" else base) i p ty).
Proof.
  intros H. unfold Node.init. case_decide as Hty; [|done].
  destruct H as [H|H]; [done|by subst p].
Qed.

Lemma node_init_inv dt (base : string) (p : option Distribution) (ty : NodeType)
    (i : Z) (v : Node.t) :
  Node.init dt base p ty i = Ok v ->
  v = Node.Build dt
        (if i >? 0 then base +:+ "[" +:+ Py.str_int i +:+ "]" else base) i p ty.
Proof.
  unfold Node.init. case_decide; [destruct p|]; congruence.
Qed.

Lemma node_init_base_name dt (base : string) (p : option Distribution)
    (ty : NodeType) (i : Z) (v : Node.t) :
  Py.has_char "[" base = false ->
  Node.init dt base p ty i = Ok v ->
  base_name (Node.name v) = base.
Proof.
  intros Hb ->%node_init_inv. cbn [Node.name].
  destruct (i >? 0); [by apply base_name_bracket|by apply base_name_plain].
Qed.

(** Which passes raise *)

Lemma rmapM_all_ok {A B} (f : A -> result B) (l : list A) :
  Forall (fun x => exists y, f x = Ok y) l -> exists ys, rmapM f l = Ok ys.
Proof.
  induction 1 as [|x l [y Hy] _ [ys IH]]; [by exists []|].
  exists (y :: ys). cbn [rmapM]. by rewrite Hy, IH.
Qed.

Lemma rmapM_raises {A B} (f : A -> result B) (e : pyerr) (l : list A) :
  Forall (fun x => (exists y, f x = Ok y) \/ f x = Raise e) l ->
  Exists (fun x => f x = Raise e) l ->
  rmapM f l = Raise e.
Proof.
  induction 1 as [|x l Hx Hl IH]; intros Hex; [by apply Exists_nil in Hex|].
  cbn [rmapM]. destruct Hx as [[y Hy]| ->]; [|done].
  rewrite Hy. cbn [rbind]. apply Exists_cons in Hex as [Hex|Hex]; [congruence|].
  by rewrite IH.
Qed.

Lemma node_from_prior_cases (v : Node.t) :
  if can_sample v then exists s, Node.from_prior v = Ok s
  else Node.from_prior v = Raise AttributeError.
Proof.
  unfold can_sample, Node.from_prior.
  destruct (Node.prior v) as [[]|]; cbn; eauto.
Qed.

Lemma node_perturb_cases (v : Node.t) :
  if can_sample v then exists s, Node.perturb v = Ok s
  else Node.perturb v = Raise AttributeError.
Proof.
  unfold can_sample, Node.perturb.
  destruct (Node.prior v) as [[]|]; cbn; eauto.
Qed.

Lemma node_log_density_cases (v : Node.t) :
  if has_density v then exists s, Node.log_density v = Ok s
  else Node.log_density v = Raise AttributeError.
Proof.
  unfold has_density, Node.log_density.
  destruct (Node.prior v) as [[]|]; cbn; eauto.
Qed.

Lemma rmapM_cases {A B} (f : A -> result B) (ok : A -> bool) (e : pyerr) (l : list A) :
  (forall x, if ok x then exists y, f x = Ok y else f x = Raise e) ->
  if forallb ok l then exists ys, rmapM f l = Ok ys else rmapM f l = Raise e.
Proof.
  intros Hf. induction l as [|x l IH]; [by exists []|].
  cbn [forallb rmapM]. specialize (Hf x). destruct (ok x); cbn [andb].
  - destruct Hf as [y ->]. cbn [rbind].
    destruct (forallb ok l); [destruct IH as [ys ->]; by eexists|by rewrite IH].
  - by rewrite Hf.
Qed.

Lemma from_prior_cases (m : t) :
  OD.wf (nodes m) ->
  if forallb can_sample (Spec.of_type coordinate m ++ Spec.of_type derived m)
  then exists s, eval from_prior m = Ok s
  else eval from_prior m = Raise AttributeError.
Proof.
  intros Hwf. rewrite from_prior_spec by done. unfold Spec.from_prior.
  pose proof (rmapM_cases Node.from_prior can_sample AttributeError
                (Spec.of_type coordinate m ++ Spec.of_type derived m)
                node_from_prior_cases) as H.
  destruct (forallb can_sample _); [destruct H as [ys ->]; by eexists|by rewrite H].
Qed.

Lemma perturb_cases (m : t) :
  OD.wf (nodes m) ->
  if forallb can_sample (Spec.of_type coordinate m ++ Spec.of_type derived m)
  then exists s, eval perturb m = Ok s
  else eval perturb m = Raise AttributeError.
Proof.
  intros Hwf. rewrite perturb_spec by done. unfold Spec.perturb.
  rewrite forallb_app.
  pose proof (rmapM_cases Node.perturb can_sample AttributeError
                (Spec.of_type coordinate m) node_perturb_cases) as Hc.
  pose proof (rmapM_cases Node.from_prior can_sample AttributeError
                (Spec.of_type derived m) node_from_prior_cases) as Hd.
  destruct (forallb can_sample (Spec.of_type coordinate m)); cbn [andb].
  - destruct Hc as [ps ->]. cbn [rbind].
    destruct (forallb can_sample (Spec.of_type derived m)).
    + destruct Hd as [ds ->]. by eexists.
    + by rewrite Hd.
  - by rewrite Hc.
Qed.

Lemma log_likelihood_cases (m : t) :
  OD.wf (nodes m) ->
  if forallb has_density (Spec.of_type data m)
  then exists s, eval log_likelihood m = Ok s
  else eval log_likelihood m = Raise AttributeError.
Proof.
  intros Hwf. rewrite log_likelihood_spec by done. unfold Spec.log_likelihood.
  pose proof (rmapM_cases Node.log_density has_density AttributeError
                (Spec.of_type data m) node_log_density_cases) as H.
  destruct (forallb has_density _); [destruct H as [ys ->]; by eexists|by rewrite H].
Qed.

(** Slices *)

Lemma append_length (s1 s2 : string) :
  String.length (s1 +:+ s2) = (String.length s1 + String.length s2)%nat.
Proof. induction s1 as [|c s1 IH]; simpl; [done|]. by rewrite IH. Qed.

Lemma substring_0_0 (s : string) : String.substring 0 0 s = EmptyString.
Proof. by destruct s. Qed.

Lemma substring_app (s t : string) (k : nat) :
  String.substring 0 (String.length s + k) (s +:+ t) = s +:+ String.substring 0 k t.
Proof. induction s as [|c s IH]; simpl; [done|]. by rewrite IH. Qed.

(** The slice [[0:-n]] of an accumulated text only reaches into its last
    part when that part has [n] characters or more. *)
Lemma drop_last_app (n : nat) (s t : string) :
  (n <= String.length t)%nat ->
  Py.drop_last n (s +:+ t) = s +:+ Py.drop_last n t.
Proof.
  intros Hn. unfold Py.drop_last. rewrite append_length.
  replace (String.length s + String.length t - n)%nat
    with (String.length s + (String.length t - n))%nat by lia.
  apply substring_app.
Qed.

Lemma drop_last_all (t : string) : Py.drop_last (String.length t) t = EmptyString.
Proof. unfold Py.drop_last. rewrite Nat.sub_diag. apply substring_0_0. Qed.

Lemma drop_last_exact (s t : string) :
  Py.drop_last (String.length t) (s +:+ t) = s.
Proof. rewrite drop_last_app by done. by rewrite drop_last_all, append_nil_r. Qed.

Lemma description_nonempty (m : t) (cs : list Node.t) (c : Node.t) :
  OD.wf (nodes m) ->
  Spec.of_type coordinate m = cs ++ [c] ->
  eval description m
  = Ok ("string s;" +:+ Py.nl
        +:+ cat (Spec.description_line <$> cs)
        +:+ "s += " +:+ Py.dq +:+ Node.name c +:+ Py.dq +:+ ";"
        +:+ Py.nl +:+ "return s;").
Proof.
  intros Hwf Hc. rewrite description_spec by done. unfold Spec.description.
  rewrite Hc, fmap_app, cat_app. f_equal.
  change (cat (Spec.description_line <$> [c]))
    with (Spec.description_line c +:+ EmptyString).
  rewrite append_nil_r. unfold Spec.description_line, Node.to_str.
  rewrite ?append_assoc.
  do 5 (rewrite drop_last_app by (rewrite ?append_length; simpl; lia)).
  assert (Py.drop_last 5 (Node.name c +:+ ", " +:+ Py.dq +:+ ";" +:+ Py.nl)
          = Node.name c) as ->
    by exact (drop_last_exact (Node.name c) (", " +:+ Py.dq +:+ ";" +:+ Py.nl)).
  by rewrite !append_assoc.
Qed.

(** Lines *)

Lemma is_cr_linebreak (c : ascii) : Py.is_cr c = true -> Py.is_linebreak c = true.
Proof. unfold Py.is_cr. by intros ->%Ascii.eqb_eq. Qed.

Lemma splitlines_line (l rest : string) :
  one_line l -> Py.splitlines (l +:+ Py.nl +:+ rest) = l :: Py.splitlines rest.
Proof.
  unfold one_line. induction l as [|c l IH]; [done|].
  cbn [has_linebreak]. intros [Hc Hl]%orb_false_elim.
  change (String c l +:+ Py.nl +:+ rest) with (String c (l +:+ Py.nl +:+ rest)).
  cbn [Py.splitlines]. rewrite Hc.
  destruct (Py.is_cr c) eqn:Hcr; [apply is_cr_linebreak in Hcr; congruence|].
  by rewrite IH.
Qed.

Lemma splitlines_statements (ls : list string) :
  Forall one_line ls -> Py.splitlines (statements ls) = ls.
Proof.
  unfold statements. induction 1 as [|l ls Hl _ IH]; [done|].
  cbn [map cat foldr]. rewrite append_assoc, splitlines_line by done.
  f_equal. apply IH.
Qed.

Lemma join_nl_statements (ls : list string) :
  ls <> [] -> Py.join Py.nl ls +:+ Py.nl = statements ls.
Proof.
  unfold statements. induction ls as [|l ls IH]; [done|]. intros _.
  destruct ls as [|l' ls].
  - cbn [map cat foldr Py.join]. by rewrite append_nil_r.
  - change (Py.join Py.nl (l :: l' :: ls))
      with (l +:+ Py.nl +:+ Py.join Py.nl (l' :: ls)).
    change (cat (map (fun l0 => l0 +:+ Py.nl) (l :: l' :: ls)))
      with ((l +:+ Py.nl) +:+ cat (map (fun l0 => l0 +:+ Py.nl) (l' :: ls))).
    rewrite !append_assoc. by rewrite IH.
Qed.

Lemma indent_statements (ls : list string) :
  Forall one_line ls -> ls <> [] ->
  Spec.indent (statements ls) +:+ Py.nl
  = statements (map (fun x => "    " +:+ x) ls).
Proof.
  intros Hls Hne. unfold Spec.indent. rewrite splitlines_statements by done.
  apply join_nl_statements. by destruct ls.
Qed.

Lemma perturb_statements (vs : list Node.t) (lss : list (list string)) :
  Forall2 (fun v ls => Node.perturb v = Ok (statements ls)
                       /\ ls <> [] /\ Forall one_line ls) vs lss ->
  rmapM Node.perturb vs = Ok (statements <$> lss).
Proof.
  induction 1 as [|v ls vs lss (Hv & _ & _) _ IH]; [done|].
  cbn [rmapM]. by rewrite Hv, IH.
Qed.

(** Emitters *)

Section EmitFacts.
Import Generate.

Lemma world_eta (w : world) : World (model w) (files w) (stdout w) = w.
Proof. by destruct w. Qed.

Lemma bind_call_ok {A B} (c : Model.M A) (f : A -> IO B) (w : world) (a : A) :
  c (model w) = (Ok a, model w) -> Generate.bind (call c) f w = f a w.
Proof. intros H. unfold Generate.bind, call. by rewrite H, world_eta. Qed.

Lemma bind_call_raise {A B} (c : Model.M A) (f : A -> IO B) (w : world) (e : pyerr) :
  c (model w) = (Raise e, model w) ->
  Generate.bind (call c) f w = (Raises (Exn e), w).
Proof. intros H. unfold Generate.bind, call. by rewrite H, world_eta. Qed.

Lemma bind_returns {A B} (c : IO A) (f : A -> IO B) (w w' : world) (a : A) :
  c w = (Returns a, w') -> Generate.bind c f w = f a w'.
Proof. intros H. unfold Generate.bind. by rewrite H. Qed.

Lemma bind_raises {A B} (c : IO A) (f : A -> IO B) (w w' : world) (e : exn) :
  c w = (Raises e, w') -> Generate.bind c f w = (Raises e, w').
Proof. intros H. unfold Generate.bind. by rewrite H. Qed.

Lemma run_pair (p : pass) (m : Model.t) : run p m = (eval (run p) m, m).
Proof.
  pose proof (readonly_run p m) as H. unfold exec, eval in *.
  destruct (run p m) as [r m']. simpl in *. by subst.
Qed.

Lemma run_result (p : pass) (m : Model.t) (r : result string) :
  eval (run p) m = r -> run p m = (r, m).
Proof. intros <-. apply run_pair. Qed.

Lemma getitem_run (k : string) (m : Model.t) :
  getitem k m = (match OD.get (nodes m) k with
                 | Some v => Ok v
                 | None => Raise KeyError
                 end, m).
Proof. done. Qed.

Lemma get_None (d : OrderedDict) (k : string) :
  OD.get d k = None <-> k ∉ OD.keys d.
Proof.
  unfold OD.keys. induction d as [|[k' v'] d IH]; simpl.
  - split; [intros _; apply not_elem_of_nil|done].
  - rewrite not_elem_of_cons. destruct (String.eqb_spec k k') as [->|Hne].
    + split; [done|]. intros [Hkk _]. by destruct Hkk.
    + rewrite IH. split; [by intros H; split|by intros [_ H]].
Qed.

Lemma declare_body_run (prefix vec decl : string) (w : world) :
  (vec +:+ "[0]" ∈ OD.keys (nodes (model w)) ->
     exists s, declare_body prefix vec decl w = (Returns s, w))
  /\ (vec +:+ "[0]" ∉ OD.keys (nodes (model w)) ->
     declare_body prefix vec decl w = (Raises (Exn KeyError), w)).
Proof.
  unfold declare_body. cbv zeta. split; intros Hk.
  - destruct (OD.get (nodes (model w)) (vec +:+ "[0]")) as [v|] eqn:Hget;
      [|by apply get_None in Hget].
    rewrite (bind_call_ok _ _ _ v) by (by rewrite getitem_run, Hget).
    unfold Generate.ret. eauto.
  - apply get_None in Hk.
    by rewrite (bind_call_raise _ _ _ KeyError) by (by rewrite getitem_run, Hk).
Qed.

Lemma declare_loop (prefix : string) (xs : list string) (decl : string) (w : world) :
  (Forall (fun vec => vec +:+ "[0]" ∈ OD.keys (nodes (model w))) xs ->
     exists s, for_each xs (declare_body prefix) decl w = (Returns s, w))
  /\ (Exists (fun vec => vec +:+ "[0]" ∉ OD.keys (nodes (model w))) xs ->
     for_each xs (declare_body prefix) decl w = (Raises (Exn KeyError), w)).
Proof.
  revert decl. induction xs as [|x xs IH]; intros decl.
  - split; [intros _; by eexists|by intros ?%Exists_nil].
  - cbn [for_each]. destruct (decide (x +:+ "[0]" ∈ OD.keys (nodes (model w)))) as [Hx|Hx].
    + destruct (proj1 (declare_body_run prefix x decl w) Hx) as [s Hs].
      rewrite (bind_returns _ _ _ _ _ Hs). split.
      * intros [_ Hxs]%Forall_cons. by apply IH.
      * intros [?|Hxs]%Exists_cons; [done|]. by apply IH.
    + rewrite (bind_raises _ _ _ _ _ (proj2 (declare_body_run prefix x decl w) Hx)).
      split; [by intros [? _]%Forall_cons|done].
Qed.

Lemma declarations_run (o1 o2 : gset string -> list string) (w : world) :
  OD.wf (nodes (model w)) ->
  let vecs := o1 (known_vectors (model w)) ++ o2 (unknown_vectors (model w)) in
  (Forall (fun vec => vec +:+ "[0]" ∈ OD.keys (nodes (model w))) vecs ->
     exists s, declarations o1 o2 w = (Returns s, w))
  /\ (Exists (fun vec => vec +:+ "[0]" ∉ OD.keys (nodes (model w))) vecs ->
     declarations o1 o2 w = (Raises (Exn KeyError), w)).
Proof.
  intros Hwf vecs. subst vecs. unfold declarations.
  do 2 (erewrite bind_call_ok by (by apply get_vector_names_run)).
  cbv zeta. fold (known_vectors (model w)).
  change (for_each (o1 (known_vectors (model w))) _ EmptyString)
    with (for_each (o1 (known_vectors (model w)))
            (declare_body "        static const std::vector") EmptyString).
  destruct (declare_loop "        static const std::vector"
              (o1 (known_vectors (model w))) EmptyString w) as [Hok1 Hko1].
  destruct (decide (Forall (fun vec => vec +:+ "[0]" ∈ OD.keys (nodes (model w)))
                      (o1 (known_vectors (model w))))) as [H1|H1].
  - destruct (Hok1 H1) as [s1 Hs1]. rewrite (bind_returns _ _ _ _ _ Hs1).
    do 2 (erewrite bind_call_ok by (by apply get_vector_names_run)).
    fold (unknown_vectors (model w)).
    change (for_each (o2 (unknown_vectors (model w))) _ (s1 +:+ Py.nl))
      with (for_each (o2 (unknown_vectors (model w)))
              (declare_body "        std::vector") (s1 +:+ Py.nl)).
    destruct (declare_loop "        std::vector"
                (o2 (unknown_vectors (model w))) (s1 +:+ Py.nl) w) as [Hok2 Hko2].
    split.
    + intros [_ H2]%Forall_app. destruct (Hok2 H2) as [s2 Hs2].
      rewrite (bind_returns _ _ _ _ _ Hs2). by eexists.
    + intros [Hex|Hex]%Exists_app.
      * apply Exists_exists in Hex as (x & Hx & Hnx).
        rewrite Forall_forall in H1. by destruct Hnx; apply H1.
      * by rewrite (bind_raises _ _ _ _ _ (Hko2 Hex)).
  - apply not_Forall_Exists in H1; [|intros x; apply _].
    assert (Exists (fun vec => vec +:+ "[0]" ∉ OD.keys (nodes (model w)))
              (o1 (known_vectors (model w)))) as Hex.
    { eapply Exists_impl; [exact H1|]. by intros x Hx. }
    rewrite (bind_raises _ _ _ _ _ (Hko1 Hex)). split; [|done].
    intros [H1' _]%Forall_app. apply Exists_exists in Hex as (x & Hx & Hnx).
    rewrite Forall_forall in H1'. by destruct Hnx; apply H1'.
Qed.

Lemma enumerates_elements : enumerates elements.
Proof. intros s. split; [apply NoDup_elements|intros x; apply elem_of_elements]. Qed.

Lemma generate_h_missing_zeroth (linesep : string)
    (o1 o2 : gset string -> list string) (w : world) (vec : string) :
  OD.wf (nodes (model w)) ->
  enumerates o1 -> enumerates o2 ->
  vec ∈ known_vectors (model w) ∪ unknown_vectors (model w) ->
  vec +:+ "[0]" ∉ OD.keys (nodes (model w)) ->
  generate_h linesep o1 o2 w = (Raises (Exn KeyError), w).
Proof.
  intros Hwf Ho1 Ho2 Hvec Hk. unfold generate_h.
  apply bind_raises. apply declarations_run; [done|].
  apply Exists_exists. exists vec. split; [|done].
  apply elem_of_app. apply elem_of_union in Hvec as [Hv|Hv].
  - left. by apply Ho1.
  - right. by apply Ho2.
Qed.

Lemma filter_none {A} (P : A -> Prop) `{!forall x, Decision (P x)} (l : list A) :
  Forall (fun x => ~ P x) l -> filter P l = [].
Proof.
  induction 1 as [|x l Hx _ IH]; [done|]. by rewrite filter_cons_False.
Qed.

Lemma vector_names_scalars (ty : NodeType) (m : Model.t) :
  Forall (fun v => Node.index v = 0) (OD.values (nodes m)) ->
  Grouping.vector_names ty m = ∅.
Proof.
  intros Hall. unfold Grouping.vector_names.
  replace (filter _ (nodes m)) with (@nil (string * Node.t)); [done|].
  symmetry. apply filter_none. apply Forall_forall. intros [k v] Hin [_ Hi].
  rewrite Forall_forall in Hall. apply Hi, Hall.
  apply list_elem_of_fmap. by exists (k, v).
Qed.

Lemma enumerates_empty (o : gset string -> list string) : enumerates o -> o ∅ = [].
Proof.
  intros Ho. destruct (o ∅) as [|x xs] eqn:Hx; [done|].
  assert (x ∈ (∅ : gset string)) as Hin
    by (apply Ho; rewrite Hx; apply list_elem_of_here).
  by apply not_elem_of_empty in Hin.
Qed.

Lemma declarations_scalars (o1 o2 : gset string -> list string) (w : world) :
  OD.wf (nodes (model w)) ->
  enumerates o1 -> enumerates o2 ->
  Forall (fun v => Node.index v = 0) (OD.values (nodes (model w))) ->
  declarations o1 o2 w = (Returns Py.nl, w).
Proof.
  intros Hwf Ho1 Ho2 Hall. unfold declarations.
  do 2 (erewrite bind_call_ok by (by apply get_vector_names_run)).
  cbv zeta. rewrite !vector_names_scalars by done.
  rewrite (left_id_L ∅ (∪)), enumerates_empty by done. cbn [for_each].
  rewrite (bind_returns _ _ _ w EmptyString) by done.
  do 2 (erewrite bind_call_ok by (by apply get_vector_names_run)).
  rewrite !vector_names_scalars by done.
  rewrite (left_id_L ∅ (∪)), enumerates_empty by done. cbn [for_each].
  done.
Qed.

Lemma generate_h_scalars (linesep : string) (o1 o2 : gset string -> list string)
    (w : world) :
  OD.wf (nodes (model w)) ->
  enumerates o1 -> enumerates o2 ->
  Forall (fun v => Node.index v = 0) (OD.values (nodes (model w))) ->
  generate_h linesep o1 o2 w
  = match files w !! "MyModel.h.template" with
    | None => (Raises FileNotFoundError, w)
    | Some t =>
        let s := Py.replace (universal_newlines t) "        {DECLARATIONS}" Py.nl in
        (Returns s,
         World (model w) (<["MyModel.h" := Py.replace s Py.nl linesep]> (files w))
               (stdout w))
    end.
Proof.
  intros Hwf Ho1 Ho2 Hall. unfold generate_h.
  rewrite (bind_returns _ _ _ _ _ (declarations_scalars o1 o2 w Hwf Ho1 Ho2 Hall)).
  unfold Generate.bind, Generate.ret, read_file, write_file.
  by destruct (files w !! "MyModel.h.template").
Qed.

Lemma has_char_app (c : ascii) (s t : string) :
  Py.has_char c (s +:+ t) = (Py.has_char c s || Py.has_char c t).
Proof. induction s as [|a s IH]; simpl; [done|]. by rewrite IH, orb_assoc. Qed.

Lemma prefix_unique (a : ascii) (b1 b2 r1 r2 : string) :
  Py.has_char a b1 = false -> Py.has_char a b2 = false ->
  b1 +:+ String a r1 = b2 +:+ String a r2 -> b1 = b2 /\ r1 = r2.
Proof.
  revert b2. induction b1 as [|c b1 IH]; intros [|c' b2]; simpl.
  - intros _ _ [= ->]. done.
  - intros _ [Hc _]%orb_false_elim [= <- _]. by rewrite Ascii.eqb_refl in Hc.
  - intros [Hc _]%orb_false_elim _ [= -> _]. by rewrite Ascii.eqb_refl in Hc.
  - intros [_ H1]%orb_false_elim [_ H2]%orb_false_elim [= -> Heq].
    destruct (IH _ H1 H2 Heq) as [-> ->]. done.
Qed.

Lemma str_int_zero (i : Z) : Py.str_int i +:+ "]" = "0]" -> i = 0.
Proof.
  intros H. assert (Py.str_int i = "0") as Hs.
  { destruct (Py.str_int i) as [|c [|c' s]]; simpl in H; [done|congruence|].
    destruct s; simpl in H; discriminate. }
  by apply (inj (pretty : Z -> string)).
Qed.

Lemma constructed_name (v : Node.t) :
  constructed v ->
  exists base, Py.has_char "[" base = false /\ 0 <= Node.index v
    /\ Node.name v = (if Node.index v >? 0
                      then base +:+ "[" +:+ Py.str_int (Node.index v) +:+ "]"
                      else base).
Proof.
  intros (dt & base & p & ty & i & Hinit & Hb & Hi).
  apply node_init_inv in Hinit as ->. by exists base.
Qed.

Lemma generate_h_vector (linesep : string) (o1 o2 : gset string -> list string)
    (w : world) (ns : list Node.t) (v : Node.t) :
  model w = build ns ->
  Forall constructed ns ->
  enumerates o1 -> enumerates o2 ->
  v ∈ OD.values (nodes (model w)) ->
  Node.index v <> 0 ->
  generate_h linesep o1 o2 w = (Raises (Exn KeyError), w).
Proof.
  intros Hm Hns Ho1 Ho2 Hv Hi.
  assert (OD.wf (nodes (model w))) as Hwf by (rewrite Hm; apply build_wf).
  apply list_elem_of_fmap in Hv as ([k v'] & -> & Hin). cbn [snd] in Hi.
  assert (k = Node.name v' /\ v' ∈ ns) as [-> Hv'] by (rewrite Hm in Hin; by apply build_keyed).
  rewrite Forall_forall in Hns.
  destruct (constructed_name v' (Hns _ Hv')) as (base & Hb & Hge & Hname).
  assert ((Node.index v' >? 0) = true) as Hpos by lia. rewrite Hpos in Hname.
  apply (generate_h_missing_zeroth linesep o1 o2 w base); [done..| |].
  - assert (base ∈ Grouping.vector_names (Node.node_type v') (model w)) as Hbase.
    { unfold Grouping.vector_names. apply elem_of_list_to_set, list_elem_of_fmap.
      exists (Node.name v'). split; [by rewrite Hname, base_name_bracket|].
      apply list_elem_of_fmap. exists (Node.name v', v'). split; [done|].
      by apply list_elem_of_filter. }
    unfold known_vectors, unknown_vectors. rewrite !elem_of_union.
    destruct (Node.node_type v'); tauto.
  - intros Hk. apply list_elem_of_fmap in Hk as ([k0 v0] & Hk0 & Hin0). cbn [fst] in Hk0.
    assert (k0 = Node.name v0 /\ v0 ∈ ns) as [-> Hv0]
      by (rewrite Hm in Hin0; by apply build_keyed).
    destruct (constructed_name v0 (Hns _ Hv0)) as (base0 & Hb0 & Hge0 & Hname0).
    rewrite Hname0 in Hk0. destruct (Node.index v0 >? 0) eqn:Hpos0.
    + change ("[" +:+ "0]") with (String "[" "0]") in Hk0.
      change ("[" +:+ Py.str_int (Node.index v0) +:+ "]")
        with (String "[" (Py.str_int (Node.index v0) +:+ "]")) in Hk0.
      apply prefix_unique in Hk0 as [_ Hz]; [|done..].
      symmetry in Hz. apply str_int_zero in Hz. lia.
    + rewrite <- Hk0, has_char_app in Hb0. apply orb_false_elim in Hb0 as [_ Hb0].
      done.
Qed.

Lemma foldl_items (acc : string) (items : list string) :
  foldl (fun the_data value => the_data +:+ value +:+ ", ") acc items
  = acc +:+ cat (map (fun v => v +:+ ", ") items).
Proof.
  revert acc. induction items as [|v items IH]; intros acc.
  - simpl. by rewrite append_nil_r.
  - cbn [foldl map]. rewrite IH.
    change (cat (?x :: ?l)) with (x +:+ cat l). by rewrite !append_assoc.
Qed.

Lemma the_data_body (d : string) (value : datum) (acc : string) (w : world) :
  (let '(d, value) := (d, value) in fun the_data =>
       let the_data := the_data +:+ "const " in
       the_data <~~
         match value with
         | NdArray dtype _ | NdArray0 dtype =>
             match dtype with
             | float64 => Generate.ret (the_data +:+ "std::vector<double> MyModel::")
             | int64 => Generate.ret (the_data +:+ "std::vector<int> MyModel::")
             | other_dtype => _ <~~ print "Unsupported dtype." ; Generate.ret the_data
             end
         | _ => Generate.ret the_data
         end ;
       let the_data :=
         match value with
         | DFloat _ => the_data +:+ "double MyModel::"
         | _ => the_data
         end in
       let the_data :=
         match value with
         | DInt _ => the_data +:+ "int MyModel::"
         | _ => the_data
         end in
       let the_data := the_data +:+ d +:+ "{" in
       the_data <~~
         match value with
         | NdArray _ items =>
             Generate.ret (foldl (fun the_data value => the_data +:+ value +:+ ", ")
                                 the_data items)
         | NdArray0 _ => raise TypeError
         | DFloat r => Generate.ret (the_data +:+ r +:+ ", ")
         | DInt i => Generate.ret (the_data +:+ Py.str_int i +:+ ", ")
         | DOther r => Generate.ret (the_data +:+ r +:+ ", ")
         end ;
       let the_data := Py.drop_last 2 the_data in
       Generate.ret (the_data +:+ "};" +:+ Py.nl)) acc w
  = (if zero_dim value then Raises TypeError
     else Returns (acc +:+ emitted (d, value)),
     World (model w) (files w) (stdout w ++ complaints [(d, value)])).
Proof.
  unfold emitted, complaints. cbn [fst snd flat_map].
  destruct value as [[| |] items|[| |]|r|i|r]; cbv zeta;
    unfold Generate.bind, Generate.ret, print, raise;
    cbn [zero_dim type_text item_texts model files stdout];
    rewrite ?foldl_items, ?app_nil_r, ?world_eta; f_equal; try done; f_equal;
    rewrite ?append_assoc;
    (rewrite drop_last_app by (rewrite ?append_length; simpl; lia));
    cbn [map cat foldr]; by rewrite ?append_nil_r, ?append_assoc.
Qed.

Lemma reached_all (data : list (string * datum)) :
  existsb (fun e => zero_dim e.2) data = false -> reached data = data.
Proof.
  induction data as [|e data IH]; [done|]. cbn [existsb reached].
  intros [-> Hd]%orb_false_elim. by rewrite IH.
Qed.

Lemma the_data_loop (data : list (string * datum)) (acc : string) (w : world) :
  for_each data (fun '(d, value) the_data =>
       let the_data := the_data +:+ "const " in
       the_data <~~
         match value with
         | NdArray dtype _ | NdArray0 dtype =>
             match dtype with
             | float64 => Generate.ret (the_data +:+ "std::vector<double> MyModel::")
             | int64 => Generate.ret (the_data +:+ "std::vector<int> MyModel::")
             | other_dtype => _ <~~ print "Unsupported dtype." ; Generate.ret the_data
             end
         | _ => Generate.ret the_data
         end ;
       let the_data :=
         match value with
         | DFloat _ => the_data +:+ "double MyModel::"
         | _ => the_data
         end in
       let the_data :=
         match value with
         | DInt _ => the_data +:+ "int MyModel::"
         | _ => the_data
         end in
       let the_data := the_data +:+ d +:+ "{" in
       the_data <~~
         match value with
         | NdArray _ items =>
             Generate.ret (foldl (fun the_data value => the_data +:+ value +:+ ", ")
                                 the_data items)
         | NdArray0 _ => raise TypeError
         | DFloat r => Generate.ret (the_data +:+ r +:+ ", ")
         | DInt i => Generate.ret (the_data +:+ Py.str_int i +:+ ", ")
         | DOther r => Generate.ret (the_data +:+ r +:+ ", ")
         end ;
       let the_data := Py.drop_last 2 the_data in
       Generate.ret (the_data +:+ "};" +:+ Py.nl)) acc w
  = (if existsb (fun e => zero_dim e.2) data then Raises TypeError
     else Returns (acc +:+ cat (emitted <$> data)),
     World (model w) (files w) (stdout w ++ complaints (reached data))).
Proof.
  revert acc w. induction data as [|[d value] data IH]; intros acc w.
  - cbn. by rewrite append_nil_r, app_nil_r, world_eta.
  - cbn [for_each existsb reached snd].
    pose proof (the_data_body d value acc w) as Hbody. cbv beta iota in Hbody.
    destruct (zero_dim value).
    + by rewrite (bind_raises _ _ _ _ _ Hbody).
    + rewrite (bind_returns _ _ _ _ _ Hbody), IH. cbn [model files stdout orb].
      f_equal.
      * destruct (existsb _ data); [done|]. f_equal.
        rewrite fmap_cons. change (cat (?x :: ?l)) with (x +:+ cat l).
        by rewrite append_assoc.
      * f_equal. unfold complaints. cbn [flat_map]. by rewrite app_nil_r, app_assoc.
Qed.

Lemma the_data_run (data : list (string * datum)) (w : world) :
  the_data data w
  = (if existsb (fun e => zero_dim e.2) data then Raises TypeError
     else Returns (cat (emitted <$> data)),
     World (model w) (files w) (stdout w ++ complaints (reached data))).
Proof.
  unfold the_data. cbv zeta. unfold Generate.bind at 1. rewrite the_data_loop.
  by destruct (existsb _ data).
Qed.

Lemma join_comma (items : list string) :
  items <> [] ->
  cat (map (fun v => v +:+ ", ") items) = Py.join ", " items +:+ ", ".
Proof.
  induction items as [|v items IH]; [done|]. intros _.
  destruct items as [|v' items].
  - cbn. by rewrite append_nil_r.
  - change (Py.join ", " (v :: v' :: items))
      with (v +:+ ", " +:+ Py.join ", " (v' :: items)).
    change (cat (map (fun v0 => v0 +:+ ", ") (v :: v' :: items)))
      with ((v +:+ ", ") +:+ cat (map (fun v0 => v0 +:+ ", ") (v' :: items))).
    rewrite IH by done. by rewrite !append_assoc.
Qed.

Lemma drop_last_suffix (n : nat) (s t : string) :
  String.length t = n -> Py.drop_last n (s +:+ t) = s.
Proof. intros <-. apply drop_last_exact. Qed.

Lemma emitted_entry (e : string * datum) :
  item_texts e.2 <> [] -> emitted e = entry e.
Proof.
  intros Hne. unfold emitted, entry. rewrite join_comma by done.
  rewrite <- !append_assoc. rewrite (drop_last_suffix 2 _ ", ") by done.
  by rewrite !append_assoc.
Qed.

Lemma emitted_entries (entries : list (string * datum)) :
  Forall (fun e => item_texts e.2 <> []) entries ->
  emitted <$> entries = entry <$> entries.
Proof.
  induction 1 as [|e entries He _ IH]; [done|].
  by rewrite !fmap_cons, IH, emitted_entry.
Qed.

Lemma written_no_zero_dim (data : list (string * datum)) :
  Forall (fun e => item_texts e.2 <> []) data ->
  existsb (fun e => zero_dim e.2) data = false.
Proof.
  induction 1 as [|[d value] data He _ IH]; [done|]. cbn [existsb snd].
  rewrite IH. by destruct value.
Qed.

Lemma the_data_written (data : list (string * datum)) (w : world) :
  Forall (fun e => item_texts e.2 <> []) data ->
  the_data data w
  = (Returns (cat (entry <$> data)),
     World (model w) (files w) (stdout w ++ complaints data)).
Proof.
  intros Hne. pose proof (written_no_zero_dim data Hne) as Hz.
  by rewrite the_data_run, Hz, reached_all, emitted_entries.
Qed.

Lemma existsb_zero_dim_app (before after : list (string * datum)) (d : string)
    (dt : np_dtype) :
  existsb (fun e => zero_dim e.2) (before ++ [(d, NdArray0 dt)] ++ after) = true.
Proof. rewrite existsb_app. cbn. by rewrite orb_true_r. Qed.

Lemma reached_zero_dim (before after : list (string * datum)) (d : string)
    (dt : np_dtype) :
  existsb (fun e => zero_dim e.2) before = false ->
  reached (before ++ [(d, NdArray0 dt)] ++ after) = before ++ [(d, NdArray0 dt)].
Proof.
  induction before as [|e before IH]; [done|]. simpl in *.
  intros [-> Hb]%orb_false_elim. by rewrite IH.
Qed.

Lemma emitted_empty_array (d : string) (c : ascii) (dt : np_dtype) :
  emitted (d +:+ String c EmptyString, NdArray dt [])
  = "const " +:+ type_text (NdArray dt []) +:+ d +:+ "};" +:+ Py.nl.
Proof.
  unfold emitted. cbn [fst snd item_texts map cat foldr].
  rewrite append_nil_r, <- !append_assoc.
  change (String c EmptyString +:+ "{") with (String c "{").
  rewrite !append_assoc.
  rewrite <- (append_assoc _ d), <- (append_assoc "const ").
  rewrite (drop_last_suffix 2 _ (String c "{")) by done.
  by rewrite !append_assoc.
Qed.

Lemma initialiser_loop (xs : list string) (acc : string) (w : world) :
  OD.wf (nodes (model w)) ->
  for_each xs (fun vec initialiser_list =>
       let initialiser_list := initialiser_list +:+ vec +:+ "(" in
       size <~~ call (get_vector_size vec) ;
       Generate.ret (initialiser_list +:+ Py.str_int size +:+ "),")) acc w
  = (Returns (acc +:+ cat (map (fun vec =>
                vec +:+ "("
                +:+ (if decide (vec ∈ OD.keys (nodes (model w))) then "1" else "0")
                +:+ "),") xs)), w).
Proof.
  intros Hwf. revert acc. induction xs as [|x xs IH]; intros acc.
  - cbn. by rewrite append_nil_r.
  - cbn [for_each map]. erewrite bind_returns.
    2:{ cbv zeta. erewrite bind_call_ok by (by apply get_vector_size_run).
        reflexivity. }
    rewrite IH. f_equal. f_equal.
    change (cat (?a :: ?l)) with (a +:+ cat l).
    case_decide; by rewrite !append_assoc.
Qed.

Lemma initialiser_list_run (order : gset string -> list string) (w : world) :
  OD.wf (nodes (model w)) ->
  initialiser_list order w
  = (Returns (initialiser_text (model w) (order (unknown_vectors (model w)))), w).
Proof.
  intros Hwf. unfold initialiser_list. cbv zeta.
  do 2 (erewrite bind_call_ok by (by apply get_vector_names_run)).
  erewrite bind_returns by (by apply initialiser_loop). done.
Qed.

Lemma generate_cpp_run (linesep : string) (order : gset string -> list string)
    (data : list (string * datum)) (w : world) (fp pt ll pc ds : string) :
  OD.wf (nodes (model w)) ->
  eval from_prior (model w) = Ok fp ->
  eval perturb (model w) = Ok pt ->
  eval log_likelihood (model w) = Ok ll ->
  eval print_code (model w) = Ok pc ->
  eval description (model w) = Ok ds ->
  generate_cpp linesep order data w
  = if existsb (fun e => zero_dim e.2) data then
      (Raises TypeError,
       World (model w) (files w) (stdout w ++ complaints (reached data)))
    else
      match files w !! "MyModel.cpp.template" with
      | None =>
          (Raises FileNotFoundError,
           World (model w) (files w) (stdout w ++ complaints data))
      | Some t =>
          let s := fill_cpp (universal_newlines t) (indent4 fp) (indent4 pt)
                     (indent4 ll) (indent4 pc) (indent4 ds) (cat (emitted <$> data))
                     (initialiser_text (model w) (order (unknown_vectors (model w)))) in
          (Returns s,
           World (model w) (<["MyModel.cpp" := Py.replace s Py.nl linesep]> (files w))
                 (stdout w ++ complaints data))
      end.
Proof.
  intros Hwf Hfp Hpt Hll Hpc Hds. unfold generate_cpp.
  rewrite (bind_call_ok _ _ _ fp) by exact (run_result FromPrior _ _ Hfp).
  rewrite (bind_call_ok _ _ _ pt) by exact (run_result Perturb _ _ Hpt).
  rewrite (bind_call_ok _ _ _ ll) by exact (run_result LogLikelihood _ _ Hll).
  rewrite (bind_call_ok _ _ _ pc) by exact (run_result PrintCode _ _ Hpc).
  rewrite (bind_call_ok _ _ _ ds) by exact (run_result Description _ _ Hds).
  cbv zeta. pose proof (the_data_run data w) as Hdata.
  destruct (existsb (fun e => zero_dim e.2) data) eqn:Hz.
  - by rewrite (bind_raises _ _ _ _ _ Hdata).
  - rewrite (bind_returns _ _ _ _ _ Hdata), (reached_all data Hz).
    erewrite bind_returns by (by apply initialiser_list_run).
    unfold Generate.bind, Generate.ret, read_file, write_file. cbn [model files stdout].
    by destruct (files w !! "MyModel.cpp.template").
Qed.

Lemma generate_cpp_raises (linesep : string) (order : gset string -> list string)
    (entries : list (string * datum)) (w : world) :
  OD.wf (nodes (model w)) ->
  forallb can_sample (Spec.of_type coordinate (model w)
                      ++ Spec.of_type derived (model w))
  && forallb has_density (Spec.of_type data (model w)) = false ->
  generate_cpp linesep order entries w = (Raises (Exn AttributeError), w).
Proof.
  intros Hwf Hbad. unfold generate_cpp.
  pose proof (from_prior_cases (model w) Hwf) as Hfp.
  pose proof (perturb_cases (model w) Hwf) as Hpt.
  pose proof (log_likelihood_cases (model w) Hwf) as Hll.
  destruct (forallb can_sample _).
  - destruct Hfp as [fp Hfp], Hpt as [pt Hpt]. cbn [andb] in Hbad.
    rewrite Hbad in Hll.
    rewrite (bind_call_ok _ _ _ fp) by exact (run_result FromPrior _ _ Hfp).
    rewrite (bind_call_ok _ _ _ pt) by exact (run_result Perturb _ _ Hpt).
    by rewrite (bind_call_raise _ _ _ AttributeError)
      by exact (run_result LogLikelihood _ _ Hll).
  - by rewrite (bind_call_raise _ _ _ AttributeError)
      by exact (run_result FromPrior _ _ Hfp).
Qed.

Lemma fill_cpp_plain (t a b c d e f g : string) :
  Py.has_char "{" t = false -> fill_cpp t a b c d e f g = t.
Proof.
  intros Ht. unfold fill_cpp. cbv zeta.
  by do 7 (rewrite (replace_absent t) by done).
Qed.

Lemma universal_newlines_has_char (c : ascii) (s : string) :
  Ascii.eqb "010" c = false ->
  Py.has_char c s = false -> Py.has_char c (universal_newlines s) = false.
Proof.
  intros Hc.
  assert ((Py.has_char c s = false -> Py.has_char c (universal_newlines s) = false)
          /\ forall a, Py.has_char c (String a s) = false ->
                       Py.has_char c (universal_newlines (String a s)) = false)
    as [H _]; [|exact H].
  induction s as [|b s [IH1 IH2]].
  - split; [done|]. intros a Ha.
    change (universal_newlines (String a EmptyString))
      with (if Py.is_cr a then String "010" EmptyString else String a EmptyString).
    destruct (Py.is_cr a); [|exact Ha]. cbn [Py.has_char]. by rewrite Hc.
  - split; [apply IH2|]. intros a Ha.
    change (Py.has_char c (String a (String b s)))
      with (Ascii.eqb a c || Py.has_char c (String b s)) in Ha.
    apply orb_false_elim in Ha as [Hac Hbs].
    change (universal_newlines (String a (String b s)))
      with (if Py.is_cr a
            then String "010" (if Py.is_lf b then universal_newlines s
                               else universal_newlines (String b s))
            else String a (universal_newlines (String b s))).
    destruct (Py.is_cr a).
    + cbn [Py.has_char]. rewrite Hc. cbn [orb]. destruct (Py.is_lf b).
      * apply IH1. cbn [Py.has_char] in Hbs. by apply orb_false_elim in Hbs as [_ ?].
      * by apply IH2.
    + cbn [Py.has_char]. rewrite Hac. cbn [orb]. by apply IH2.
Qed.

(** A text without CR is read as it is. *)
Lemma universal_newlines_plain (s : string) :
  Py.has_char "013" s = false -> universal_newlines s = s.
Proof.
  induction s as [|a s IH]; [done|]. cbn [Py.has_char].
  intros [Ha Hs]%orb_false_elim. cbn [universal_newlines]. unfold Py.is_cr.
  rewrite Ha. by rewrite IH.
Qed.
End EmitFacts.

End FurtherFacts.

(** ** The emitters on concrete inputs *)

Section EmitExamples.
Import Generate.

Example universal_newlines_crlf :
  universal_newlines ("a" +:+ String "013" Py.nl +:+ "b" +:+ String "013" "c")
  = "a" +:+ Py.nl +:+ "b" +:+ Py.nl +:+ "c".
Proof. reflexivity. Qed.

Example demo_generate_cpp :
  fst (generate_cpp Py.nl elements DemoWorld.entries (DemoWorld.world Demo.model))
  = Returns ("const std::vector<double> MyModel::t{0.5, 1.5};" +:+ Py.nl
             +:+ "const int MyModel::N{2};" +:+ Py.nl
             +:+ "const std::vector<int> MyModel::n{1, 2, 3};" +:+ Py.nl
             +:+ " MyModel::MyModel()  {}").
Proof. vm_compute. reflexivity. Qed.

Example demo_generate_cpp_writes :
  files (snd (generate_cpp Py.nl elements DemoWorld.entries
                (DemoWorld.world Demo.model)))
    !! "MyModel.cpp"
  = Some ("const std::vector<double> MyModel::t{0.5, 1.5};" +:+ Py.nl
          +:+ "const int MyModel::N{2};" +:+ Py.nl
          +:+ "const std::vector<int> MyModel::n{1, 2, 3};" +:+ Py.nl
          +:+ " MyModel::MyModel()  {}").
Proof. vm_compute. reflexivity. Qed.

(** Where the line separator is CR LF, the file gets it for every line
    feed of the text, which is returned with its line feeds. *)
Example demo_generate_cpp_writes_crlf :
  files (snd (generate_cpp (String "013" Py.nl) elements [("N", DInt 2)]
                (DemoWorld.world Demo.model)))
    !! "MyModel.cpp"
  = Some ("const int MyModel::N{2};" +:+ String "013" Py.nl
          +:+ " MyModel::MyModel()  {}").
Proof. vm_compute. reflexivity. Qed.

(** A template with CR LF line ends is read with line feeds. *)
Example generate_cpp_reads_crlf :
  fst (generate_cpp Py.nl elements []
         (World Demo.model
            {[ "MyModel.cpp.template" := "// model" +:+ String "013" Py.nl +:+ "{PRINT}" ]}
            []))
  = Returns ("// model" +:+ Py.nl +:+ "    out<<x<<" +:+ Py.dq +:+ " " +:+ Py.dq +:+ ";").
Proof. vm_compute. reflexivity. Qed.

(** An array of no dimension stops the generation with [TypeError]; the
    entry after it is not looked at, and no file is written. *)
Example generate_cpp_zero_dim :
  generate_cpp Py.nl elements
    [("a", NdArray other_dtype ["1"]); ("b", NdArray0 float64);
     ("c", NdArray other_dtype ["2"])]
    (DemoWorld.world Demo.model)
  = (Raises TypeError,
     World Demo.model DemoWorld.files ["Unsupported dtype."]).
Proof. vm_compute. reflexivity. Qed.

Example demo_generate_h :
  fst (generate_h Py.nl elements elements (DemoWorld.world Demo.model))
  = Returns ("class MyModel { " +:+ Py.nl +:+ " };").
Proof. vm_compute. reflexivity. Qed.

(** With the zeroth members registered under names written out with
    [[0]], the header is generated. *)
Example generate_h_with_explicit_zeroth_members :
  fst (generate_h Py.nl elements elements
         (DemoWorld.world
            (build [Demo.xi py_int None 1;
                    Node.Build py_int "x[0]" 0 None coordinate;
                    Node.Build py_float "q[0]" 0 None data;
                    Node.Build py_float "q[1]" 1 None data])))
  = Returns ("class MyModel {         static const std::vector<double> q;" +:+ Py.nl
             +:+ Py.nl
             +:+ "        std::vector<int> x;" +:+ Py.nl
             +:+ " };").
Proof. vm_compute. reflexivity. Qed.

End EmitExamples.

(** ** The registry, the nodes, the passes and the emitters *)

Section Further.
Import Model.

(** X1: after [add_node(node)], looking the node's name up returns the
    node, and every other name is looked up as before (found or not). *)
Theorem X1_add_node_then_getitem (m : t) (n : Node.t) :
  let m' := exec (add_node n) m in
  eval (add_node n) m = Ok tt
  /\ eval (getitem (Node.name n)) m' = Ok n
  /\ forall k, k <> Node.name n -> eval (getitem k) m' = eval (getitem k) m.
Proof.
  intros m'. subst m'. unfold eval, exec, add_node, getitem. cbn [fst snd nodes].
  split_and!; [done| |].
  - rewrite get_set. by rewrite decide_True.
  - intros k Hk. rewrite get_set. by rewrite decide_False.
Qed.

(** X2: [add_node] of a node whose name is not yet in the registry puts it
    after all the entries there are; these stay as they were. *)
Theorem X2_add_node_fresh_appends (m : t) (n : Node.t) :
  Node.name n ∉ OD.keys (nodes m) ->
  let m' := exec (add_node n) m in
  nodes m' = nodes m ++ [(Node.name n, n)]
  /\ OD.keys (nodes m') = OD.keys (nodes m) ++ [Node.name n]
  /\ OD.values (nodes m') = OD.values (nodes m) ++ [n].
Proof.
  intros Hfresh m'.
  assert (nodes m' = nodes m ++ [(Node.name n, n)]) as Hm' by (by apply set_fresh).
  split_and!; [done| |]; rewrite Hm'.
  - unfold OD.keys. by rewrite fmap_app.
  - unfold OD.values. by rewrite fmap_app.
Qed.

Lemma X2_witness :
  (Node.name Demo.k ∉ OD.keys (nodes Demo.model))
  /\ OD.keys (nodes (exec (add_node Demo.k) Demo.model))
     = OD.keys (nodes Demo.model) ++ [Node.name Demo.k].
Proof.
  assert (Node.name Demo.k ∉ OD.keys (nodes Demo.model)) as Hfresh
    by (apply (bool_decide_eq_true_1 _); vm_compute; reflexivity).
  split; [exact Hfresh|].
  exact (proj1 (proj2 (X2_add_node_fresh_appends Demo.model Demo.k Hfresh))).
Defined.

(** X3: of two nodes registered one after the other under the same name
    only the second one counts: the model is the one obtained by
    registering the second alone. *)
Theorem X3_last_write_wins (m : t) (n1 n2 : Node.t) :
  Node.name n1 = Node.name n2 ->
  exec (add_node n2) (exec (add_node n1) m) = exec (add_node n2) m.
Proof.
  intros Hn. unfold exec, add_node. cbn [snd nodes]. rewrite Hn.
  by rewrite set_set.
Qed.

Lemma X3_witness :
  Node.name Demo.x = Node.name Demo.x'
  /\ exec (add_node Demo.x') (exec (add_node Demo.x) Demo.model)
     = exec (add_node Demo.x') Demo.model.
Proof.
  split; [reflexivity|].
  exact (X3_last_write_wins Demo.model Demo.x Demo.x' eq_refl).
Defined.

(** X4: in the model obtained by registering the nodes [ns] in order,
    looking a name up returns the last node of [ns] with that name and
    raises [KeyError] when [ns] has none; no name is held twice, and every
    entry holds a node of [ns] under that node's name. *)
Theorem X4_lookup_after_registration (ns : list Node.t) :
  (forall k,
     eval (getitem k) (build ns)
     = match last (filter (fun n => Node.name n = k) ns) with
       | Some n => Ok n
       | None => Raise KeyError
       end)
  /\ OD.wf (nodes (build ns))
  /\ forall k v, (k, v) ∈ nodes (build ns) -> k = Node.name v /\ v ∈ ns.
Proof.
  split_and!.
  - intros k. unfold eval, getitem. cbn [fst]. by rewrite get_build.
  - apply build_wf.
  - apply build_keyed.
Qed.

(** X5: [get_vector_size(name)] returns 1 when [name] is itself a name of
    the registry and 0 when it is not, and leaves the model as it is. *)
Theorem X5_get_vector_size_is_0_or_1 (m : t) (v : string) :
  OD.wf (nodes m) ->
  eval (get_vector_size v) m = Ok (if decide (v ∈ OD.keys (nodes m)) then 1 else 0)
  /\ exec (get_vector_size v) m = m.
Proof.
  intros Hwf. unfold eval, exec. by rewrite get_vector_size_run.
Qed.

Lemma X5_witness :
  OD.wf (nodes (Demo.vector py_float None))
  /\ eval (get_vector_size "x") (Demo.vector py_float None)
     = Ok (if decide ("x" ∈ OD.keys (nodes (Demo.vector py_float None)))
           then 1 else 0).
Proof.
  assert (OD.wf (nodes (Demo.vector py_float None))) as Hwf
    by (apply wf_dec; vm_compute; reflexivity).
  split; [exact Hwf|].
  exact (proj1 (X5_get_vector_size_is_0_or_1 _ "x" Hwf)).
Defined.

(** X6: [get_vector_names(node_type)] returns, without raising and
    without touching the model, the set of the texts before the first
    bracket of the registry names that hold a node of that role with an
    index other than 0. *)
Theorem X6_get_vector_names (m : t) (ty : NodeType) :
  OD.wf (nodes m) ->
  exists vecs : gset string,
    eval (get_vector_names ty) m = Ok vecs
    /\ exec (get_vector_names ty) m = m
    /\ forall b, b ∈ vecs <->
         exists k v, (k, v) ∈ nodes m /\ Node.node_type v = ty
                     /\ Node.index v <> 0 /\ base_name k = b.
Proof.
  intros Hwf. exists (Grouping.vector_names ty m).
  unfold eval, exec. rewrite get_vector_names_run by done. split_and!; [done..|].
  apply vector_names_elem.
Qed.

Lemma X6_witness :
  OD.wf (nodes (Demo.vector py_float None))
  /\ exists vecs : gset string,
       eval (get_vector_names coordinate) (Demo.vector py_float None) = Ok vecs
       /\ exec (get_vector_names coordinate) (Demo.vector py_float None)
          = Demo.vector py_float None.
Proof.
  assert (OD.wf (nodes (Demo.vector py_float None))) as Hwf
    by (apply wf_dec; vm_compute; reflexivity).
  split; [exact Hwf|].
  destruct (X6_get_vector_names _ coordinate Hwf) as (vecs & Hv & He & _).
  exists vecs. split; [exact Hv|exact He].
Defined.

(** X7: [get_scalar_names(node_type)] returns, without raising and
    without touching the model, the names of the nodes of that role whose
    text before the first bracket is not among the vector names of the
    role. *)
Theorem X7_get_scalar_names (m : t) (ty : NodeType) :
  OD.wf (nodes m) ->
  exists vecs scalars : gset string,
    eval (get_vector_names ty) m = Ok vecs
    /\ eval (get_scalar_names ty) m = Ok scalars
    /\ exec (get_scalar_names ty) m = m
    /\ forall s, s ∈ scalars <->
         exists v, v ∈ OD.values (nodes m) /\ Node.node_type v = ty
                   /\ Node.name v = s /\ base_name (Node.name v) ∉ vecs.
Proof.
  intros Hwf. exists (Grouping.vector_names ty m), (Grouping.scalar_names ty m).
  unfold eval, exec. rewrite get_vector_names_run, get_scalar_names_run by done.
  split_and!; [done..|]. apply scalar_names_elem.
Qed.

Lemma X7_witness :
  OD.wf (nodes Demo.model)
  /\ exists vecs scalars : gset string,
       eval (get_vector_names coordinate) Demo.model = Ok vecs
       /\ eval (get_scalar_names coordinate) Demo.model = Ok scalars
       /\ exec (get_scalar_names coordinate) Demo.model = Demo.model.
Proof.
  assert (OD.wf (nodes Demo.model)) as Hwf by (apply wf_dec; vm_compute; reflexivity).
  split; [exact Hwf|].
  destruct (X7_get_scalar_names _ coordinate Hwf) as (vecs & scalars & Hv & Hs & He & _).
  exists vecs, scalars. split_and!; [exact Hv|exact Hs|exact He].
Defined.

(** X8: in a model obtained by registering nodes, the two queries split
    the nodes of a role: a node's name is among the scalar names exactly
    when its text before the first bracket is not a vector name, and a
    node with an index other than 0 is always on the vector side. *)
Theorem X8_groups_split_a_role (ns : list Node.t) (ty : NodeType) :
  exists vecs scalars : gset string,
    eval (get_vector_names ty) (build ns) = Ok vecs
    /\ eval (get_scalar_names ty) (build ns) = Ok scalars
    /\ forall v, v ∈ OD.values (nodes (build ns)) -> Node.node_type v = ty ->
         (Node.name v ∈ scalars <-> base_name (Node.name v) ∉ vecs)
         /\ (Node.index v <> 0 ->
             base_name (Node.name v) ∈ vecs /\ Node.name v ∉ scalars).
Proof.
  pose proof (build_wf ns) as Hwf.
  exists (Grouping.vector_names ty (build ns)), (Grouping.scalar_names ty (build ns)).
  unfold eval. rewrite get_vector_names_run, get_scalar_names_run by done.
  split_and!; [done..|].
  intros v Hin Hty.
  assert (Node.name v ∈ Grouping.scalar_names ty (build ns)
          <-> base_name (Node.name v) ∉ Grouping.vector_names ty (build ns)) as Hiff.
  { rewrite scalar_names_elem. split.
    - intros (v' & _ & _ & Hn & Hb). by rewrite <- Hn.
    - intros Hb. by exists v. }
  split; [done|]. intros Hi.
  assert (base_name (Node.name v) ∈ Grouping.vector_names ty (build ns)) as Hb.
  { apply vector_names_elem. apply list_elem_of_fmap in Hin as ([k v'] & -> & Hin).
    destruct (build_keyed ns k v' Hin) as [-> _]. by exists (Node.name v'), v'. }
  split; [done|]. rewrite Hiff. by intros ?.
Qed.

(** X9: [Node(dtype, name, prior, node_type, index)] succeeds whenever
    the role is not prior-info or no prior is given, for every name; the
    node keeps the index, and is named [name] when the index is 0 or
    negative and [name[index]] when it is positive.  When [name] holds no
    bracket, the text before the first bracket of the node's name is
    [name] again. *)
Theorem X9_node_init_name (dt : PyType) (base : string) (p : option Distribution)
    (ty : NodeType) (i : Z) :
  ty <> prior_info \/ p = None ->
  exists v,
    Node.init dt base p ty i = Ok v
    /\ Node.index v = i
    /\ (i <= 0 -> Node.name v = base)
    /\ (0 < i -> Node.name v = base +:+ "[" +:+ Py.str_int i +:+ "]")
    /\ (Py.has_char "[" base = false -> base_name (Node.name v) = base).
Proof.
  intros Hty. eexists. split; [by apply node_init_ok|]. cbn [Node.index Node.name].
  split_and!; [done| | |].
  - intros Hi. by destruct (Z.gtb_spec i 0); [lia|].
  - intros Hi. by destruct (Z.gtb_spec i 0); [|lia].
  - intros Hb. destruct (i >? 0); [by apply base_name_bracket|by apply base_name_plain].
Qed.

Lemma X9_witness :
  (coordinate <> prior_info \/ (None : option Distribution) = None)
  /\ Py.has_char "[" "x" = false
  /\ exists v, Node.init py_float "x" None coordinate 2 = Ok v
               /\ base_name (Node.name v) = "x".
Proof.
  split_and!; [left; discriminate|reflexivity|].
  destruct (X9_node_init_name py_float "x" None coordinate 2
              (or_introl (fun H : coordinate = prior_info =>
                            eq_ind coordinate
                              (fun t => match t with coordinate => True | _ => False end)
                              I prior_info H)))
    as (v & Hv & _ & _ & _ & Hb).
  exists v. split; [exact Hv|exact (Hb eq_refl)].
Defined.

(** X10: once a node made by [Node(...)] from a name without bracket and
    an index other than 0 is registered, that name is among the vector
    names of the node's role. *)
Theorem X10_indexed_node_makes_a_vector (m : t) (dt : PyType) (base : string)
    (p : option Distribution) (ty : NodeType) (i : Z) (v : Node.t) :
  OD.wf (nodes m) ->
  Py.has_char "[" base = false ->
  i <> 0 ->
  Node.init dt base p ty i = Ok v ->
  exists vecs : gset string,
    eval (get_vector_names ty) (exec (add_node v) m) = Ok vecs /\ base ∈ vecs.
Proof.
  intros Hwf Hb Hi Hinit.
  assert (OD.wf (nodes (exec (add_node v) m))) as Hwf' by (by apply set_wf).
  exists (Grouping.vector_names ty (exec (add_node v) m)).
  unfold eval. rewrite get_vector_names_run by done. split; [done|].
  apply vector_names_elem. exists (Node.name v), v.
  assert (base_name (Node.name v) = base) as Hbn by (by eapply node_init_base_name).
  apply node_init_inv in Hinit. split_and!; [|by subst v..|done].
  apply get_elem. unfold exec, add_node. cbn [snd nodes].
  rewrite get_set. by rewrite decide_True.
Qed.

Lemma X10_witness :
  OD.wf (nodes Demo.model)
  /\ Py.has_char "[" "w" = false
  /\ Node.init py_float "w" None coordinate 1 = Ok (Node.Build py_float "w[1]" 1 None coordinate)
  /\ exists vecs : gset string,
       eval (get_vector_names coordinate)
         (exec (add_node (Node.Build py_float "w[1]" 1 None coordinate)) Demo.model)
       = Ok vecs /\ "w" ∈ vecs.
Proof.
  assert (OD.wf (nodes Demo.model)) as Hwf by (apply wf_dec; vm_compute; reflexivity).
  split_and!; [exact Hwf|reflexivity|reflexivity|].
  refine (X10_indexed_node_makes_a_vector Demo.model py_float "w" None coordinate 1
            _ Hwf eq_refl _ eq_refl).
  discriminate.
Defined.

(** X11: for a node with prior [Uniform(a, b)] whose parameter texts hold
    no brace, the three fragments are the templates with the node's name
    and the parameters' texts in place of the placeholders. *)
Theorem X11_uniform_node_fragments (dt : PyType) (name : string) (i : Z)
    (ty : NodeType) (a b : pyval) :
  brace_free a -> brace_free b ->
  let A := str a in
  let B := str b in
  let node := Node.Build dt name i (Some (DUniform (Uniform.Build a b))) ty in
  Node.from_prior node
  = Ok (name +:+ " = " +:+ A +:+ " + (" +:+ B +:+ " - (" +:+ A +:+ "))*rng.rand();"
        +:+ Py.nl)
  /\ Node.perturb node
     = Ok (name +:+ " += (" +:+ B +:+ " - (" +:+ A +:+ "))*rng.randh();" +:+ Py.nl
           +:+ "wrap(" +:+ name +:+ ", " +:+ A +:+ ", " +:+ B +:+ ");" +:+ Py.nl)
  /\ Node.log_density node
     = Ok ("if(" +:+ name +:+ " < (" +:+ A +:+ ") || " +:+ name +:+ " > (" +:+ B +:+ "))"
           +:+ Py.nl
           +:+ "    logp = -numeric_limits<double>::max();" +:+ Py.nl
           +:+ "logp += -log(" +:+ B +:+ " - (" +:+ A +:+ "));" +:+ Py.nl).
Proof. apply uniform_node_text. Qed.

Lemma X11_witness :
  brace_free (PyInt 0) /\ brace_free (PyFloat "10.0")
  /\ Node.from_prior
       (Node.Build py_float "x" 0
          (Some (DUniform (Uniform.Build (PyInt 0) (PyFloat "10.0")))) coordinate)
     = Ok ("x" +:+ " = " +:+ str (PyInt 0) +:+ " + (" +:+ str (PyFloat "10.0")
           +:+ " - (" +:+ str (PyInt 0) +:+ "))*rng.rand();" +:+ Py.nl).
Proof.
  split_and!; [reflexivity|reflexivity|].
  exact (proj1 (X11_uniform_node_fragments py_float "x" 0 coordinate
                  (PyInt 0) (PyFloat "10.0") eq_refl eq_refl)).
Defined.

(** X12: the same for a node with prior [LogUniform(a, b)]; the perturb
    fragment takes the logarithm of the variable, moves and wraps it, and
    takes the exponential. *)
Theorem X12_loguniform_node_fragments (dt : PyType) (name : string) (i : Z)
    (ty : NodeType) (a b : pyval) :
  brace_free a -> brace_free b ->
  let A := str a in
  let B := str b in
  let node := Node.Build dt name i (Some (DLogUniform (LogUniform.Build a b))) ty in
  Node.from_prior node
  = Ok (name +:+ " = exp(log(" +:+ A +:+ ") + log((" +:+ B +:+ ")/(" +:+ A
        +:+ "))*rng.rand());" +:+ Py.nl)
  /\ Node.perturb node
     = Ok (name +:+ " = log(" +:+ name +:+ ");" +:+ Py.nl
           +:+ name +:+ " += log((" +:+ B +:+ ")/(" +:+ A +:+ "))*rng.randh();" +:+ Py.nl
           +:+ "wrap(" +:+ name +:+ ", log(" +:+ A +:+ "), log(" +:+ B +:+ "));" +:+ Py.nl
           +:+ name +:+ " = exp(" +:+ name +:+ ");" +:+ Py.nl)
  /\ Node.log_density node
     = Ok ("if(" +:+ name +:+ " < (" +:+ A +:+ ") || " +:+ name +:+ " > (" +:+ B +:+ "))"
           +:+ Py.nl
           +:+ "    logp = -numeric_limits<double>::max();" +:+ Py.nl
           +:+ "logp += -log(" +:+ name +:+ ") - log((" +:+ B +:+ ")/(" +:+ A +:+ "));"
           +:+ Py.nl).
Proof. apply loguniform_node_text. Qed.

Lemma X12_witness :
  brace_free (PyInt 1) /\ brace_free (PyInt 10)
  /\ Node.from_prior Demo.x'
     = Ok ("x" +:+ " = exp(log(" +:+ str (PyInt 1) +:+ ") + log((" +:+ str (PyInt 10)
           +:+ ")/(" +:+ str (PyInt 1) +:+ "))*rng.rand());" +:+ Py.nl).
Proof.
  split_and!; [reflexivity|reflexivity|].
  exact (proj1 (X12_loguniform_node_fragments py_float "x" 0 coordinate
                  (PyInt 1) (PyInt 10) eq_refl eq_refl)).
Defined.

(** X13: the same for a node with prior [Normal(mu, sigma)]: the
    fragments sample the name around [mu], bracket its move with the two
    [log_H] statements on the name, and accumulate the density of the
    name. *)
Theorem X13_normal_node_fragments (dt : PyType) (name : string) (i : Z)
    (ty : NodeType) (mu sigma : pyval) :
  brace_free mu -> brace_free sigma ->
  let M := str mu in
  let S := str sigma in
  let Q := "pow(((" +:+ name +:+ ") - (" +:+ M +:+ "))/(" +:+ S +:+ "), 2)" in
  let node := Node.Build dt name i (Some (DNormal (Normal.Build mu sigma))) ty in
  Node.from_prior node
  = Ok (name +:+ " = " +:+ M +:+ " + " +:+ S +:+ "*rng.randn();" +:+ Py.nl)
  /\ Node.perturb node
     = Ok ("log_H -= -0.5*" +:+ Q +:+ ";" +:+ Py.nl
           +:+ name +:+ " += (" +:+ S +:+ ")*rng.randh();" +:+ Py.nl
           +:+ "log_H += -0.5*" +:+ Q +:+ ";" +:+ Py.nl)
  /\ Node.log_density node
     = Ok ("logp += -0.5*log(2*M_PI) - log(" +:+ S +:+ ") - 0.5*" +:+ Q +:+ ";"
           +:+ Py.nl).
Proof. apply normal_node_text. Qed.

Lemma X13_witness :
  brace_free (PyStr "y") /\ brace_free (PyInt 1)
  /\ Node.from_prior Demo.d
     = Ok ("d" +:+ " = " +:+ str (PyStr "y") +:+ " + " +:+ str (PyInt 1)
           +:+ "*rng.randn();" +:+ Py.nl).
Proof.
  split_and!; [reflexivity|reflexivity|].
  exact (proj1 (X13_normal_node_fragments py_float "d" 0 data
                  (PyStr "y") (PyInt 1) eq_refl eq_refl)).
Defined.

(** X14: for a node with prior [Deterministic(formula)] whose formula
    holds no brace, [from_prior()] is the assignment of the formula to the
    name, [perturb()] is the same text, and [log_density()] raises
    [AttributeError]: the class has no such method. *)
Theorem X14_deterministic_node_fragments (dt : PyType) (name : string) (i : Z)
    (ty : NodeType) (formula : string) :
  Py.has_char "{" formula = false ->
  let node :=
    Node.Build dt name i (Some (DDeterministic (Deterministic.Build formula))) ty in
  Node.from_prior node = Ok (name +:+ " = " +:+ formula +:+ ";" +:+ Py.nl)
  /\ Node.perturb node = Node.from_prior node
  /\ Node.log_density node = Raise AttributeError.
Proof. apply deterministic_node_text. Qed.

Lemma X14_witness :
  Py.has_char "{" "2*x" = false
  /\ Node.from_prior Demo.y = Ok ("y" +:+ " = " +:+ "2*x" +:+ ";" +:+ Py.nl).
Proof.
  split; [reflexivity|].
  exact (proj1 (X14_deterministic_node_fragments py_float "y" 0 derived "2*x" eq_refl)).
Defined.

(** X15: [from_prior()] and [perturb()] return a string exactly when every
    coordinate and every derived node has a prior; when one of them has
    none, both raise [AttributeError]. *)
Theorem X15_sampling_passes_need_priors (m : t) :
  OD.wf (nodes m) ->
  if forallb can_sample (Spec.of_type coordinate m ++ Spec.of_type derived m)
  then (exists s, eval from_prior m = Ok s) /\ (exists s, eval perturb m = Ok s)
  else eval from_prior m = Raise AttributeError
       /\ eval perturb m = Raise AttributeError.
Proof.
  intros Hwf. pose proof (from_prior_cases m Hwf) as Hf.
  pose proof (perturb_cases m Hwf) as Hp.
  by destruct (forallb can_sample _).
Qed.

Lemma X15_witness :
  OD.wf (nodes (build [Demo.x; DemoWorld.z]))
  /\ eval from_prior (build [Demo.x; DemoWorld.z]) = Raise AttributeError
  /\ eval perturb (build [Demo.x; DemoWorld.z]) = Raise AttributeError.
Proof.
  assert (OD.wf (nodes (build [Demo.x; DemoWorld.z]))) as Hwf
    by (apply wf_dec; vm_compute; reflexivity).
  split; [exact Hwf|].
  exact (X15_sampling_passes_need_priors (build [Demo.x; DemoWorld.z]) Hwf).
Defined.

(** X16: [log_likelihood()] returns a string exactly when every data node
    has a prior that is not [Deterministic]; otherwise it raises
    [AttributeError].  Nodes of the other roles never make it raise. *)
Theorem X16_log_likelihood_needs_densities (m : t) :
  OD.wf (nodes m) ->
  if forallb has_density (Spec.of_type data m)
  then exists s, eval log_likelihood m = Ok s
  else eval log_likelihood m = Raise AttributeError.
Proof. apply log_likelihood_cases. Qed.

Lemma X16_witness :
  OD.wf (nodes (build [Demo.x; DemoWorld.z]))
  /\ exists s, eval log_likelihood (build [Demo.x; DemoWorld.z]) = Ok s.
Proof.
  assert (OD.wf (nodes (build [Demo.x; DemoWorld.z]))) as Hwf
    by (apply wf_dec; vm_compute; reflexivity).
  split; [exact Hwf|].
  exact (X16_log_likelihood_needs_densities (build [Demo.x; DemoWorld.z]) Hwf).
Defined.

(** X17: [print_code()] returns one output statement per coordinate, in
    registration order, and nothing else; it never raises, whether the
    nodes have priors or not. *)
Theorem X17_print_code_lines (m : t) :
  OD.wf (nodes m) ->
  eval print_code m
  = Ok (cat ((fun v => "out<<" +:+ Node.name v +:+ "<<" +:+ Py.dq +:+ " " +:+ Py.dq
                       +:+ ";" +:+ Py.nl)
             <$> Spec.of_type coordinate m)).
Proof. apply print_code_spec. Qed.

Lemma X17_witness :
  OD.wf (nodes (build [Demo.x; DemoWorld.z]))
  /\ eval print_code (build [Demo.x; DemoWorld.z])
     = Ok (cat ((fun v => "out<<" +:+ Node.name v +:+ "<<" +:+ Py.dq +:+ " " +:+ Py.dq
                          +:+ ";" +:+ Py.nl)
                <$> Spec.of_type coordinate (build [Demo.x; DemoWorld.z]))).
Proof.
  assert (OD.wf (nodes (build [Demo.x; DemoWorld.z]))) as Hwf
    by (apply wf_dec; vm_compute; reflexivity).
  split; [exact Hwf|].
  exact (X17_print_code_lines (build [Demo.x; DemoWorld.z]) Hwf).
Defined.

(** X18: with at least one coordinate, [description()] returns the
    declaration of [s], one statement appending the name and a comma for
    every coordinate but the last, a statement appending the last name
    alone, and the return of [s]: the slice takes the comma, the quote,
    the semicolon and the line feed of the last statement away and the
    quote and semicolon are put back. *)
Theorem X18_description_with_coordinates (m : t) (cs : list Node.t) (c : Node.t) :
  OD.wf (nodes m) ->
  Spec.of_type coordinate m = cs ++ [c] ->
  eval description m
  = Ok ("string s;" +:+ Py.nl
        +:+ cat ((fun v => "s += " +:+ Py.dq +:+ Node.name v +:+ ", " +:+ Py.dq
                           +:+ ";" +:+ Py.nl) <$> cs)
        +:+ "s += " +:+ Py.dq +:+ Node.name c +:+ Py.dq +:+ ";"
        +:+ Py.nl +:+ "return s;").
Proof. apply description_nonempty. Qed.

Lemma X18_witness :
  OD.wf (nodes (build [Demo.x; DemoWorld.z]))
  /\ Spec.of_type coordinate (build [Demo.x; DemoWorld.z]) = [Demo.x] ++ [DemoWorld.z]
  /\ eval description (build [Demo.x; DemoWorld.z])
     = Ok ("string s;" +:+ Py.nl
           +:+ cat ((fun v => "s += " +:+ Py.dq +:+ Node.name v +:+ ", " +:+ Py.dq
                              +:+ ";" +:+ Py.nl) <$> [Demo.x])
           +:+ "s += " +:+ Py.dq +:+ Node.name DemoWorld.z +:+ Py.dq +:+ ";"
           +:+ Py.nl +:+ "return s;").
Proof.
  assert (OD.wf (nodes (build [Demo.x; DemoWorld.z]))) as Hwf
    by (apply wf_dec; vm_compute; reflexivity).
  assert (Spec.of_type coordinate (build [Demo.x; DemoWorld.z])
          = [Demo.x] ++ [DemoWorld.z]) as Hc by (vm_compute; reflexivity).
  split_and!; [exact Hwf|exact Hc|].
  exact (X18_description_with_coordinates _ [Demo.x] DemoWorld.z Hwf Hc).
Defined.

(** X19: when the [perturb()] fragment of every coordinate is a sequence
    of statements, one per line, at least one and each without line
    boundary inside, the block [perturb()] emits for the coordinate at
    position [k] is the guard [if(which == k)], an opening brace, the
    statements each indented by four spaces, and a closing brace. *)
Theorem X19_perturb_blocks_are_indented (m : t) (lss : list (list string))
    (ds : list string) :
  OD.wf (nodes m) ->
  Forall2 (fun v ls => Node.perturb v = Ok (statements ls)
                       /\ ls <> [] /\ Forall one_line ls)
          (Spec.of_type coordinate m) lss ->
  rmapM Node.from_prior (Spec.of_type derived m) = Ok ds ->
  eval perturb m
  = Ok ("double log_H = 0.0;" +:+ Py.nl
        +:+ "int which = rng.rand_int(" +:+ Py.str_int (Z.of_nat (length lss)) +:+ ");"
        +:+ Py.nl
        +:+ cat (imap (fun k ls =>
                   "if(which == " +:+ Py.str_int (Z.of_nat k) +:+ ")" +:+ Py.nl
                   +:+ "{" +:+ Py.nl
                   +:+ statements (map (fun l => "    " +:+ l) ls)
                   +:+ "}" +:+ Py.nl) lss)
        +:+ cat ds
        +:+ "return log_H;" +:+ Py.nl).
Proof.
  intros Hwf Hcs Hds. rewrite perturb_spec by done. unfold Spec.perturb.
  rewrite (perturb_statements _ _ Hcs), Hds. cbn [rbind].
  rewrite (Forall2_length _ _ _ Hcs), imap_fmap. do 9 f_equal.
  apply imap_ext. intros k ls Hk. unfold compose.
  assert (ls <> [] /\ Forall one_line ls) as [Hne Hls].
  { destruct (Forall2_lookup_r _ _ _ _ _ Hcs Hk) as (v & _ & _ & ? & ?). done. }
  unfold Spec.block. rewrite <- (indent_statements ls) by done.
  by rewrite !append_assoc.
Qed.

Lemma X19_witness :
  OD.wf (nodes Demo.model)
  /\ eval perturb Demo.model
     = Ok ("double log_H = 0.0;" +:+ Py.nl
           +:+ "int which = rng.rand_int("
           +:+ Py.str_int (Z.of_nat (length [["x += (10 - (0))*rng.randh();";
                                              "wrap(x, 0, 10);"]])) +:+ ");"
           +:+ Py.nl
           +:+ cat (imap (fun k ls =>
                      "if(which == " +:+ Py.str_int (Z.of_nat k) +:+ ")" +:+ Py.nl
                      +:+ "{" +:+ Py.nl
                      +:+ statements (map (fun l => "    " +:+ l) ls)
                      +:+ "}" +:+ Py.nl)
                    [["x += (10 - (0))*rng.randh();"; "wrap(x, 0, 10);"]])
           +:+ cat ["y = 2*x;" +:+ Py.nl]
           +:+ "return log_H;" +:+ Py.nl).
Proof.
  assert (OD.wf (nodes Demo.model)) as Hwf by (apply wf_dec; vm_compute; reflexivity).
  split; [exact Hwf|].
  refine (X19_perturb_blocks_are_indented Demo.model
            [["x += (10 - (0))*rng.randh();"; "wrap(x, 0, 10);"]]
            ["y = 2*x;" +:+ Py.nl] Hwf _ eq_refl).
  change (Spec.of_type coordinate Demo.model) with [Demo.x].
  constructor; [|constructor].
  split; [reflexivity|split; [discriminate|]].
  constructor; [reflexivity|]. constructor; [reflexivity|]. constructor.
Defined.

Section FurtherEmit.
Import Generate.

(** X20: when every entry of [entries] has its items written (its
    arrays have a dimension and at least one item), the data block of
    [generate_cpp] is one declaration per entry, in the order of the
    dictionary, of the form [const T name{v1, v2, ..., vn};] and a line
    feed, where [T] is the type text of the entry: [std::vector<double>
    MyModel::], [std::vector<int> MyModel::], [double MyModel::] or
    [int MyModel::], and nothing at all, not even [MyModel::], for an
    array of another element type or a value of another type.  Each array
    of another element type has [Unsupported dtype.] printed, and
    generation goes on.  When such entries are followed by an array of no
    dimension, the block raises [TypeError] at that array, whatever comes
    after it; what was printed up to and for that array stays on the
    console. *)
Theorem X20_data_block_declarations (entries after : list (string * datum))
    (w : world) :
  Forall (fun e => item_texts e.2 <> []) entries ->
  the_data entries w
  = (Returns (cat ((fun e : string * datum =>
                      "const " +:+ type_text e.2 +:+ e.1 +:+ "{"
                      +:+ Py.join ", " (item_texts e.2) +:+ "};" +:+ Py.nl)
                   <$> entries)),
     World (model w) (files w) (stdout w ++ complaints entries))
  /\ forall (d : string) (dt : np_dtype),
       the_data (entries ++ [(d, NdArray0 dt)] ++ after) w
       = (Raises TypeError,
          World (model w) (files w)
                (stdout w ++ complaints (entries ++ [(d, NdArray0 dt)]))).
Proof.
  intros Hne. split; [by apply the_data_written|]. intros d dt.
  rewrite the_data_run, existsb_zero_dim_app.
  by rewrite reached_zero_dim by (by apply written_no_zero_dim).
Qed.

Lemma X20_witness :
  Forall (fun e : string * datum => item_texts e.2 <> []) DemoWorld.entries
  /\ the_data DemoWorld.entries (DemoWorld.world Demo.model)
     = (Returns (cat ((fun e : string * datum =>
                         "const " +:+ type_text e.2 +:+ e.1 +:+ "{"
                         +:+ Py.join ", " (item_texts e.2) +:+ "};" +:+ Py.nl)
                      <$> DemoWorld.entries)),
        World (model (DemoWorld.world Demo.model))
              (files (DemoWorld.world Demo.model))
              (stdout (DemoWorld.world Demo.model) ++ complaints DemoWorld.entries)).
Proof.
  assert (Forall (fun e : string * datum => item_texts e.2 <> []) DemoWorld.entries)
    as Hne by (repeat constructor; discriminate).
  split; [exact Hne|].
  exact (proj1 (X20_data_block_declarations DemoWorld.entries [] _ Hne)).
Defined.

(** X21: an array without items, under a name of at least one character,
    leaves a declaration that has lost the last character of the name and
    the opening brace: the slice [[0:-2]] is taken although no item and no
    comma was written.  The entries before and after it are not
    affected. *)
Theorem X21_data_block_empty_array (before after : list (string * datum))
    (d : string) (c : ascii) (dt : np_dtype) (w : world) :
  Forall (fun e => item_texts e.2 <> []) before ->
  Forall (fun e => item_texts e.2 <> []) after ->
  let entries := before ++ [(d +:+ String c EmptyString, NdArray dt [])] ++ after in
  the_data entries w
  = (Returns (cat (entry <$> before)
              +:+ ("const " +:+ type_text (NdArray dt []) +:+ d +:+ "};" +:+ Py.nl)
              +:+ cat (entry <$> after)),
     World (model w) (files w) (stdout w ++ complaints entries)).
Proof.
  intros Hb Ha entries. subst entries.
  assert (existsb (fun e : string * datum => zero_dim e.2)
            (before ++ [(d +:+ String c EmptyString, NdArray dt [])] ++ after) = false)
    as Hz.
  { rewrite !existsb_app, (written_no_zero_dim _ Hb), (written_no_zero_dim _ Ha).
    done. }
  rewrite the_data_run, Hz, (reached_all _ Hz). do 2 f_equal.
  rewrite !fmap_app, !cat_app, (emitted_entries _ Hb), (emitted_entries _ Ha).
  cbn [fmap list_fmap]. change (cat [?x]) with (x +:+ EmptyString).
  by rewrite emitted_empty_array, append_nil_r.
Qed.

Lemma X21_witness :
  Forall (fun e : string * datum => item_texts e.2 <> []) DemoWorld.entries
  /\ the_data (DemoWorld.entries ++ [("y" +:+ String "s" EmptyString, NdArray float64 [])]
               ++ [])
       (DemoWorld.world Demo.model)
     = (Returns (cat (entry <$> DemoWorld.entries)
                 +:+ ("const " +:+ type_text (NdArray float64 []) +:+ "y" +:+ "};"
                      +:+ Py.nl)
                 +:+ cat (entry <$> [])),
        World (model (DemoWorld.world Demo.model))
              (files (DemoWorld.world Demo.model))
              (stdout (DemoWorld.world Demo.model)
               ++ complaints (DemoWorld.entries
                              ++ [("y" +:+ String "s" EmptyString, NdArray float64 [])]
                              ++ []))).
Proof.
  assert (Forall (fun e : string * datum => item_texts e.2 <> []) DemoWorld.entries)
    as Hne by (repeat constructor; discriminate).
  split; [exact Hne|].
  exact (X21_data_block_empty_array DemoWorld.entries [] "y" "s" float64 _ Hne
           (Forall_nil_2 _)).
Defined.

(** X22: the initialiser list of [generate_cpp] names every vector of the
    coordinates and derived nodes with the size [get_vector_size] gives,
    which is 1 when the vector's name is itself registered and 0 when it
    is not, and loses its last comma; when no node has an index other than
    0 it is empty, the colon being taken by the slice. *)
Theorem X22_initialiser_list_sizes (order : gset string -> list string) (w : world) :
  OD.wf (nodes (model w)) ->
  initialiser_list order w
  = (Returns
       (Py.drop_last 1
          (":" +:+ cat (map (fun vec =>
                          vec +:+ "("
                          +:+ (if decide (vec ∈ OD.keys (nodes (model w)))
                               then "1" else "0")
                          +:+ "),")
                        (order (unknown_vectors (model w)))))), w)
  /\ (enumerates order ->
      Forall (fun v => Node.index v = 0) (OD.values (nodes (model w))) ->
      initialiser_list order w = (Returns EmptyString, w)).
Proof.
  intros Hwf. split; [by apply initialiser_list_run|].
  intros Ho Hall. rewrite initialiser_list_run by done.
  unfold unknown_vectors. rewrite !vector_names_scalars by done.
  by rewrite (left_id_L ∅ (∪)), enumerates_empty.
Qed.

Lemma X22_witness :
  OD.wf (nodes (model (DemoWorld.world (Demo.vector py_float None))))
  /\ initialiser_list elements (DemoWorld.world (Demo.vector py_float None))
     = (Returns
          (Py.drop_last 1
             (":" +:+ cat (map (fun vec =>
                     vec +:+ "("
                     +:+ (if decide (vec ∈ OD.keys (nodes (model
                                       (DemoWorld.world (Demo.vector py_float None)))))
                          then "1" else "0")
                     +:+ "),")
                   (elements (unknown_vectors
                                (model (DemoWorld.world (Demo.vector py_float None)))))))),
        DemoWorld.world (Demo.vector py_float None)).
Proof.
  assert (OD.wf (nodes (model (DemoWorld.world (Demo.vector py_float None))))) as Hwf
    by (apply wf_dec; vm_compute; reflexivity).
  split; [exact Hwf|].
  exact (proj1 (X22_initialiser_list_sizes elements _ Hwf)).
Defined.

(** X23: when the five passes return, [generate_cpp(data)] has one of
    three outcomes.  If [data] holds an array of no dimension it raises
    [TypeError] at the first such entry, before any file is opened.
    Otherwise, if the template is missing it raises [FileNotFoundError].
    Otherwise it returns the text of the template, its line ends read as
    line feeds, in which first every [{FROM_PRIOR}] is replaced by the
    output of [from_prior()], then every [{PERTURB}] by that of
    [perturb()], then [{LOG_LIKELIHOOD}] by that of [log_likelihood()],
    then [{PRINT}] by that of [print_code()], then [{DESCRIPTION}] by that
    of [description()], each with its lines indented by four spaces and
    joined by line feeds, then [{STATIC_DECLARATIONS}] by the data block
    and [{INITIALIZER_LIST}] by the initialiser list; and it writes that
    text, with the line separator of the platform for its line feeds, to
    [MyModel.cpp].  The model and every other file are left as they are,
    and what the data block printed is on the console in all three
    cases. *)
Theorem X23_generate_cpp_result (linesep : string)
    (order : gset string -> list string) (entries : list (string * datum))
    (w : world) (fp pt ll pc ds : string) :
  OD.wf (nodes (model w)) ->
  eval Model.from_prior (model w) = Ok fp ->
  eval Model.perturb (model w) = Ok pt ->
  eval Model.log_likelihood (model w) = Ok ll ->
  eval Model.print_code (model w) = Ok pc ->
  eval Model.description (model w) = Ok ds ->
  let indented := fun code : string =>
    Py.join Py.nl ((fun x : string => "    " +:+ x) <$> Py.splitlines code) in
  generate_cpp linesep order entries w
  = if existsb (fun e => zero_dim e.2) entries then
      (Raises TypeError,
       World (model w) (files w) (stdout w ++ complaints (reached entries)))
    else
      match files w !! "MyModel.cpp.template" with
      | None =>
          (Raises FileNotFoundError,
           World (model w) (files w) (stdout w ++ complaints entries))
      | Some t =>
          let s := universal_newlines t in
          let s := Py.replace s "{FROM_PRIOR}" (indented fp) in
          let s := Py.replace s "{PERTURB}" (indented pt) in
          let s := Py.replace s "{LOG_LIKELIHOOD}" (indented ll) in
          let s := Py.replace s "{PRINT}" (indented pc) in
          let s := Py.replace s "{DESCRIPTION}" (indented ds) in
          let s := Py.replace s "{STATIC_DECLARATIONS}" (cat (emitted <$> entries)) in
          let s := Py.replace s "{INITIALIZER_LIST}"
                     (initialiser_text (model w) (order (unknown_vectors (model w)))) in
          (Returns s,
           World (model w) (<["MyModel.cpp" := Py.replace s Py.nl linesep]> (files w))
                 (stdout w ++ complaints entries))
      end.
Proof.
  intros Hwf Hfp Hpt Hll Hpc Hds indented.
  exact (generate_cpp_run linesep order entries w fp pt ll pc ds Hwf Hfp Hpt Hll Hpc Hds).
Qed.

Lemma X23_witness :
  OD.wf (nodes (model (DemoWorld.world Demo.model)))
  /\ generate_cpp Py.nl elements DemoWorld.entries (DemoWorld.world Demo.model)
     = (Returns ("const std::vector<double> MyModel::t{0.5, 1.5};" +:+ Py.nl
                 +:+ "const int MyModel::N{2};" +:+ Py.nl
                 +:+ "const std::vector<int> MyModel::n{1, 2, 3};" +:+ Py.nl
                 +:+ " MyModel::MyModel()  {}"),
        World Demo.model
              (<["MyModel.cpp" :=
                   "const std::vector<double> MyModel::t{0.5, 1.5};" +:+ Py.nl
                   +:+ "const int MyModel::N{2};" +:+ Py.nl
                   +:+ "const std::vector<int> MyModel::n{1, 2, 3};" +:+ Py.nl
                   +:+ " MyModel::MyModel()  {}"]> DemoWorld.files)
              []).
Proof.
  assert (OD.wf (nodes (model (DemoWorld.world Demo.model)))) as Hwf
    by (apply wf_dec; vm_compute; reflexivity).
  split; [exact Hwf|].
  rewrite (X23_generate_cpp_result Py.nl elements DemoWorld.entries
             (DemoWorld.world Demo.model) _ _ _ _ _ Hwf eq_refl eq_refl eq_refl
             eq_refl eq_refl).
  vm_compute. reflexivity.
Defined.

(** X24: when a coordinate or derived node has no prior, or a data node
    has no prior or a [Deterministic] one, [generate_cpp(data)] raises
    [AttributeError] before it reads, prints or writes anything: the
    model, the files and the console are as they were. *)
Theorem X24_generate_cpp_needs_fragments (linesep : string)
    (order : gset string -> list string) (entries : list (string * datum))
    (w : world) :
  OD.wf (nodes (model w)) ->
  forallb can_sample (Spec.of_type coordinate (model w)
                      ++ Spec.of_type derived (model w))
  && forallb has_density (Spec.of_type data (model w)) = false ->
  generate_cpp linesep order entries w = (Raises (Exn AttributeError), w).
Proof. apply generate_cpp_raises. Qed.

Lemma X24_witness :
  OD.wf (nodes (model (DemoWorld.world (build [Demo.x; DemoWorld.z]))))
  /\ generate_cpp Py.nl elements DemoWorld.entries
       (DemoWorld.world (build [Demo.x; DemoWorld.z]))
     = (Raises (Exn AttributeError), DemoWorld.world (build [Demo.x; DemoWorld.z])).
Proof.
  assert (OD.wf (nodes (model (DemoWorld.world (build [Demo.x; DemoWorld.z])))))
    as Hwf by (apply wf_dec; vm_compute; reflexivity).
  split; [exact Hwf|].
  exact (X24_generate_cpp_needs_fragments Py.nl elements DemoWorld.entries _ Hwf
           eq_refl).
Defined.

(** X25: when the five passes return and [data] holds no array of no
    dimension, a template without any brace has no slot, and
    [generate_cpp(data)] returns it, its line ends read as line feeds and
    nothing else changed, and writes it out: no error tells that the
    generated code was left out.  A template without CR is returned
    character for character. *)
Theorem X25_generate_cpp_template_without_slots (linesep : string)
    (order : gset string -> list string) (entries : list (string * datum))
    (w : world) (t fp pt ll pc ds : string) :
  OD.wf (nodes (model w)) ->
  eval Model.from_prior (model w) = Ok fp ->
  eval Model.perturb (model w) = Ok pt ->
  eval Model.log_likelihood (model w) = Ok ll ->
  eval Model.print_code (model w) = Ok pc ->
  eval Model.description (model w) = Ok ds ->
  existsb (fun e => zero_dim e.2) entries = false ->
  files w !! "MyModel.cpp.template" = Some t ->
  Py.has_char "{" t = false ->
  generate_cpp linesep order entries w
  = (Returns (universal_newlines t),
     World (model w)
           (<["MyModel.cpp" := Py.replace (universal_newlines t) Py.nl linesep]>
              (files w))
           (stdout w ++ complaints entries))
  /\ (Py.has_char "013" t = false -> universal_newlines t = t).
Proof.
  intros Hwf Hfp Hpt Hll Hpc Hds Hz Ht Hplain.
  split; [|apply universal_newlines_plain].
  rewrite (generate_cpp_run linesep order entries w fp pt ll pc ds) by done.
  rewrite Hz, Ht. cbv zeta.
  by rewrite fill_cpp_plain by (by apply universal_newlines_has_char).
Qed.

Lemma X25_witness :
  OD.wf (nodes Demo.model)
  /\ existsb (fun e : string * datum => zero_dim e.2) DemoWorld.entries = false
  /\ Py.has_char "{" ("int main();" +:+ String "013" Py.nl) = false
  /\ generate_cpp Py.nl elements DemoWorld.entries
       (World Demo.model
          {[ "MyModel.cpp.template" := "int main();" +:+ String "013" Py.nl ]} [])
     = (Returns (universal_newlines ("int main();" +:+ String "013" Py.nl)),
        World Demo.model
              (<["MyModel.cpp" :=
                   Py.replace (universal_newlines ("int main();" +:+ String "013" Py.nl))
                              Py.nl Py.nl]>
                 {[ "MyModel.cpp.template" := "int main();" +:+ String "013" Py.nl ]})
              ([] ++ complaints DemoWorld.entries)).
Proof.
  assert (OD.wf (nodes Demo.model)) as Hwf by (apply wf_dec; vm_compute; reflexivity).
  split; [exact Hwf|]. split; [reflexivity|]. split; [reflexivity|].
  exact (proj1 (X25_generate_cpp_template_without_slots Py.nl elements
           DemoWorld.entries
           (World Demo.model
              {[ "MyModel.cpp.template" := "int main();" +:+ String "013" Py.nl ]} [])
           ("int main();" +:+ String "013" Py.nl) _ _ _ _ _ Hwf eq_refl eq_refl
           eq_refl eq_refl eq_refl eq_refl eq_refl eq_refl)).
Defined.

(** X26: [generate_h()] looks up, for every vector name of any role, the
    name followed by [[0]]; when that is not a name of the registry it
    raises [KeyError], before it opens a file: nothing is read or
    written. *)
Theorem X26_generate_h_wants_zeroth_members (linesep : string)
    (order_known order_unknown : gset string -> list string) (w : world)
    (vec : string) :
  OD.wf (nodes (model w)) ->
  enumerates order_known -> enumerates order_unknown ->
  vec ∈ known_vectors (model w) ∪ unknown_vectors (model w) ->
  vec +:+ "[0]" ∉ OD.keys (nodes (model w)) ->
  generate_h linesep order_known order_unknown w = (Raises (Exn KeyError), w).
Proof. apply generate_h_missing_zeroth. Qed.

Lemma X26_witness :
  OD.wf (nodes (model (DemoWorld.world (Demo.vector py_float None))))
  /\ "x" ∈ known_vectors (model (DemoWorld.world (Demo.vector py_float None)))
          ∪ unknown_vectors (model (DemoWorld.world (Demo.vector py_float None)))
  /\ ("x" +:+ "[0]"
        ∉ OD.keys (nodes (model (DemoWorld.world (Demo.vector py_float None)))))
  /\ generate_h Py.nl elements elements (DemoWorld.world (Demo.vector py_float None))
     = (Raises (Exn KeyError), DemoWorld.world (Demo.vector py_float None)).
Proof.
  assert (OD.wf (nodes (model (DemoWorld.world (Demo.vector py_float None))))) as Hwf
    by (apply wf_dec; vm_compute; reflexivity).
  assert ("x" ∈ known_vectors (model (DemoWorld.world (Demo.vector py_float None)))
              ∪ unknown_vectors (model (DemoWorld.world (Demo.vector py_float None))))
    as Hx by (apply (bool_decide_eq_true_1 _); vm_compute; reflexivity).
  assert ("x" +:+ "[0]"
            ∉ OD.keys (nodes (model (DemoWorld.world (Demo.vector py_float None)))))
    as Hk by (apply (bool_decide_eq_true_1 _); vm_compute; reflexivity).
  split_and!; [exact Hwf|exact Hx|exact Hk|].
  exact (X26_generate_h_wants_zeroth_members Py.nl elements elements _ "x" Hwf
           enumerates_elements enumerates_elements Hx Hk).
Defined.

(** X27: on a model whose nodes were all made by [Node(...)] from names
    without bracket and indices that are not negative, [generate_h()]
    raises [KeyError] as soon as one node has an index other than 0: the
    zeroth member it looks for is named without [[0]] by [Node], so the
    header of a model with a vector cannot be generated. *)
Theorem X27_generate_h_fails_on_vectors (linesep : string)
    (order_known order_unknown : gset string -> list string) (w : world)
    (ns : list Node.t) (v : Node.t) :
  model w = build ns ->
  Forall constructed ns ->
  enumerates order_known -> enumerates order_unknown ->
  v ∈ OD.values (nodes (model w)) ->
  Node.index v <> 0 ->
  generate_h linesep order_known order_unknown w = (Raises (Exn KeyError), w).
Proof. apply generate_h_vector. Qed.

Lemma X27_witness :
  Forall constructed
    [Demo.xi py_float None 1; Demo.xi py_float None 2; Demo.xi py_float None 3]
  /\ generate_h Py.nl elements elements (DemoWorld.world (Demo.vector py_float None))
     = (Raises (Exn KeyError), DemoWorld.world (Demo.vector py_float None)).
Proof.
  assert (Forall constructed
            [Demo.xi py_float None 1; Demo.xi py_float None 2;
             Demo.xi py_float None 3]) as Hns.
  { repeat constructor.
    - exists py_float, "x", None, coordinate, 1. split_and!; [reflexivity..|discriminate].
    - exists py_float, "x", None, coordinate, 2. split_and!; [reflexivity..|discriminate].
    - exists py_float, "x", None, coordinate, 3. split_and!; [reflexivity..|discriminate]. }
  split; [exact Hns|].
  refine (X27_generate_h_fails_on_vectors Py.nl elements elements
            (DemoWorld.world (Demo.vector py_float None)) _
            (Demo.xi py_float None 1) eq_refl Hns
            enumerates_elements enumerates_elements _ _).
  - apply list_elem_of_here.
  - discriminate.
Defined.

(** X28: on a model without any indexed node, [generate_h()] raises
    [FileNotFoundError] when the template is missing, and otherwise
    returns the text of the template, its line ends read as line feeds,
    with the declarations slot replaced by a single line feed, and writes
    that text, with the line separator of the platform for its line feeds,
    to [MyModel.h], leaving the model, the other files and the console as
    they are. *)
Theorem X28_generate_h_without_vectors (linesep : string)
    (order_known order_unknown : gset string -> list string) (w : world) :
  OD.wf (nodes (model w)) ->
  enumerates order_known -> enumerates order_unknown ->
  Forall (fun v => Node.index v = 0) (OD.values (nodes (model w))) ->
  generate_h linesep order_known order_unknown w
  = match files w !! "MyModel.h.template" with
    | None => (Raises FileNotFoundError, w)
    | Some t =>
        let s := Py.replace (universal_newlines t) "        {DECLARATIONS}" Py.nl in
        (Returns s,
         World (model w) (<["MyModel.h" := Py.replace s Py.nl linesep]> (files w))
               (stdout w))
    end.
Proof. apply generate_h_scalars. Qed.

Lemma X28_witness :
  OD.wf (nodes (model (DemoWorld.world Demo.model)))
  /\ Forall (fun v => Node.index v = 0)
       (OD.values (nodes (model (DemoWorld.world Demo.model))))
  /\ generate_h Py.nl elements elements (DemoWorld.world Demo.model)
     = match files (DemoWorld.world Demo.model) !! "MyModel.h.template" with
       | None => (Raises FileNotFoundError, DemoWorld.world Demo.model)
       | Some t =>
           let s := Py.replace (universal_newlines t) "        {DECLARATIONS}" Py.nl in
           (Returns s,
            World (model (DemoWorld.world Demo.model))
                  (<["MyModel.h" := Py.replace s Py.nl Py.nl]>
                     (files (DemoWorld.world Demo.model)))
                  (stdout (DemoWorld.world Demo.model)))
       end.
Proof.
  assert (OD.wf (nodes (model (DemoWorld.world Demo.model)))) as Hwf
    by (apply wf_dec; vm_compute; reflexivity).
  assert (Forall (fun v => Node.index v = 0)
            (OD.values (nodes (model (DemoWorld.world Demo.model))))) as Hall
    by (repeat constructor).
  split_and!; [exact Hwf|exact Hall|].
  exact (X28_generate_h_without_vectors Py.nl elements elements _ Hwf
           enumerates_elements enumerates_elements Hall).
Defined.
End FurtherEmit.
End Further.
